(** * garmin-workouts: the workout data model and its conversions

    A shallow embedding of the swimming-workout domain model
    ([api/models.py]), the wire-format builder ([swim_workout.py]), the
    converters and the record store ([api/services/workout_service.py]),
    the upload route ([api/routes/garmin.py]) and the duplicate route
    ([api/routes/workouts.py]), followed by the properties the
    specification states about them and by further properties of the
    code. *)

From Stdlib Require Import ZArith String List Bool Lia DecimalString.
From Stdlib Require DecimalZ DecimalFacts.
From stdpp Require Import base option list gmap strings.

Local Open Scope string_scope.
Local Open Scope list_scope.
Local Open Scope Z_scope.

(** ** Python values the program computes with *)

Module Py.

(** Exceptions that the modelled code can raise. *)
Inductive exn : Type :=
| ValidationError   (* pydantic: a field constraint or a field type is violated *)
| ValueError        (* IntEnum(value) on a non-member, int(nan) *)
| TypeError         (* int(None) *)
| OverflowError     (* float(int) or int(float) out of the binary64 range *)
| AttributeError.   (* an attribute the object has not: [get] on a model object *)

Inductive result (A : Type) : Type :=
| Ok (a : A)
| Raise (e : exn).
Arguments Ok {A} a.
Arguments Raise {A} e.

#[export] Instance result_ret : MRet result := fun _ a => Ok a.
#[export] Instance result_bind : MBind result := fun _ _ f m =>
  match m with
  | Ok a => f a
  | Raise e => Raise e
  end.

Definition is_ok {A} (r : result A) : bool :=
  match r with Ok _ => true | Raise _ => false end.

(** A Python [float] is an IEEE-754 binary64 number.  Finite doubles are
    dyadic rationals [mant * 2^expo]; the representation is not made
    canonical, only its value matters. *)
Inductive float : Type :=
| Finite (mant expo : Z)
| Inf (negative : bool)
| NaN.

(** Number of significant bits of [|a|]. *)
Definition bitlen (a : Z) : Z :=
  if a =? 0 then 0 else Z.log2 (Z.abs a) + 1.

(** Round the integer [a] to 53 significant bits, to nearest, ties to the
    even mantissa: the rounding of every binary64 operation. *)
Definition round53 (a : Z) : Z :=
  let k := bitlen a - 53 in
  if k <=? 0 then a
  else
    let q := Z.shiftr (Z.abs a) k in
    let r := Z.land (Z.abs a) (Z.ones k) in
    let half := Z.shiftl 1 (k - 1) in
    let q' := if (half <? r) || ((r =? half) && Z.odd q) then q + 1 else q in
    Z.sgn a * Z.shiftl q' k.

(** [m * 2^e] is beyond the largest double when it reaches [2^1024]. *)
Definition overflows (m e : Z) : bool := 1024 <? bitlen m + e.

(** [float(n)] for a Python int: correctly rounded, OverflowError when
    the int is too large to convert. *)
Definition float_of_int (n : Z) : result float :=
  let m := round53 n in
  if overflows m 0 then Raise OverflowError else Ok (Finite m 0).

(** [x * y] on doubles: the exact product rounded to 53 bits; an
    overflowing product is an infinity.  Exact on the normal range (no
    gradual underflow), which covers the products the program forms: an
    integer-valued double times 1.2. *)
Definition fmul (x y : float) : float :=
  match x, y with
  | Finite mx ex, Finite my ey =>
      let m := round53 (mx * my) in
      if overflows m (ex + ey) then Inf (m <? 0) else Finite m (ex + ey)
  | Inf s, Finite m _ | Finite m _, Inf s =>
      if m =? 0 then NaN else Inf (xorb s (m <? 0))
  | Inf s, Inf t => Inf (xorb s t)
  | NaN, _ | _, NaN => NaN
  end.

(** [int(x)]: truncation toward zero; OverflowError on an infinity,
    ValueError on a NaN. *)
Definition int_of_float (x : float) : result Z :=
  match x with
  | Finite m e =>
      Ok (if 0 <=? e then m * 2 ^ e else Z.quot m (2 ^ (- e)))
  | Inf _ => Raise OverflowError
  | NaN => Raise ValueError
  end.

(** [n * x] with an int on the left: the int is converted first. *)
Definition int_mul_float (n : Z) (x : float) : result float :=
  fn ← float_of_int n; Ok (fmul fn x).

(** The literals [1.2] and [25.0] and [100.0]. *)
Definition f1_2 : float := Finite 5404319552844595 (-52).
Definition f25_0 : float := Finite 25 0.
Definition f100_0 : float := Finite 100 0.

(** [str(n)] for an int: its decimal numeral. *)
Definition str (n : Z) : string := NilZero.string_of_int (Z.to_int n).

(** [s[:n]]. *)
Definition prefix (n : nat) (s : string) : string := substring 0 n s.

(** Truthiness of an [int | None] ([if zone], [duration or 30]). *)
Definition truthy (o : option Z) : bool :=
  match o with Some n => negb (n =? 0) | None => false end.

(** Truthiness of a [str | None]. *)
Definition truthy_str (o : option string) : bool :=
  match o with Some "" => false | Some _ => true | None => false end.

End Py.
Import Py.

(** ** api/models.py *)

Module Models.

Inductive StrokeType : Type :=
| ANY | BACKSTROKE | BREASTSTROKE | BUTTERFLY | FREESTYLE | MIXED | IM.

Inductive StepType : Type :=
| WARMUP | COOLDOWN | INTERVAL | RECOVERY | REST | REPEAT.

Definition StrokeType_value (s : StrokeType) : Z :=
  match s with
  | ANY => 1 | BACKSTROKE => 2 | BREASTSTROKE => 3 | BUTTERFLY => 4
  | FREESTYLE => 5 | MIXED => 6 | IM => 7
  end.

Definition StepType_value (t : StepType) : Z :=
  match t with
  | WARMUP => 1 | COOLDOWN => 2 | INTERVAL => 3 | RECOVERY => 4
  | REST => 5 | REPEAT => 6
  end.

(** [StrokeType(n)] and [StepType(n)]: ValueError outside the members. *)
Definition StrokeType_of (n : Z) : result StrokeType :=
  match n with
  | 1 => Ok ANY | 2 => Ok BACKSTROKE | 3 => Ok BREASTSTROKE
  | 4 => Ok BUTTERFLY | 5 => Ok FREESTYLE | 6 => Ok MIXED | 7 => Ok IM
  | _ => Raise ValueError
  end.

Definition StepType_of (n : Z) : result StepType :=
  match n with
  | 1 => Ok WARMUP | 2 => Ok COOLDOWN | 3 => Ok INTERVAL
  | 4 => Ok RECOVERY | 5 => Ok REST | 6 => Ok REPEAT
  | _ => Raise ValueError
  end.

Definition StepType_eqb (a b : StepType) : bool :=
  StepType_value a =? StepType_value b.

Record Equipment : Type := mkEquipment {
  pull_buoy : bool;
  paddles : bool;
  fins : bool;
  kickboard : bool;
  snorkel : bool
}.

(** [Equipment()]: every flag False. *)
Definition Equipment_default : Equipment :=
  mkEquipment false false false false false.

Record WorkoutStep : Type := mkWorkoutStep {
  step_id : string;
  step_type : StepType;
  stroke : StrokeType;
  distance_m : Z;
  duration_seconds : option Z;
  zone : option Z;
  description : option string;
  equipment : Equipment
}.

(** A repeat group holds [steps: list[WorkoutStep]]: leaf steps only. *)
Record RepeatGroup : Type := mkRepeatGroup {
  group_id : string;
  group_step_type : StepType;
  iterations : Z;
  group_steps : list WorkoutStep
}.

(** An element of [Workout.steps : list[WorkoutStep | RepeatGroup]]. *)
Inductive Entry : Type :=
| Step (s : WorkoutStep)
| Group (g : RepeatGroup).

Record Workout : Type := mkWorkout {
  workout_id : string;
  name : string;
  pool_length : float;
  steps : list Entry
}.

(** The field constraints pydantic checks when a model is constructed. *)
Definition zone_ok (z : option Z) : bool :=
  match z with Some n => (1 <=? n) && (n <=? 5) | None => true end.

Definition WorkoutStep_ok (s : WorkoutStep) : bool :=
  (0 <=? distance_m s) && zone_ok (zone s).

Definition RepeatGroup_ok (g : RepeatGroup) : bool :=
  (1 <=? iterations g) && forallb WorkoutStep_ok (group_steps g).

Definition Entry_ok (e : Entry) : bool :=
  match e with Step s => WorkoutStep_ok s | Group g => RepeatGroup_ok g end.

Definition Workout_ok (w : Workout) : bool :=
  (String.length (name w) <=? 80)%nat && forallb Entry_ok (steps w).

(** [sum(s.distance_m for s in step.steps)] *)
Definition sum_distance_m (l : list WorkoutStep) : Z :=
  fold_left (fun acc s => acc + distance_m s) l 0.

(** The body of the loop of [Workout.total_distance]. *)
Definition total_distance_step (total : Z) (step : Entry) : Z :=
  match step with
  | Group g =>
      let group_distance := sum_distance_m (group_steps g) in
      total + group_distance * iterations g
  | Step s =>
      if negb (StepType_eqb (step_type s) REST) then total + distance_m s
      else total
  end.

Definition total_distance (w : Workout) : Z :=
  fold_left total_distance_step (steps w) 0.

End Models.

(** ** The wire format

    The dicts the platform returns, read key by key with [get]; a key
    that may be missing is an [option].  The step objects of
    [garminconnect.workout] (ExecutableStep, RepeatGroup) carry the same
    fields as attributes: one record stands for a step object and for the
    dict it is dumped to, an unset attribute being a missing key.  The
    workout object and the workout dict are kept apart, see
    [GarminConnect] below. *)

Module Wire.

Record StepTypeDict : Type := mkStepTypeDict {
  stepTypeId : option Z;
  stepTypeKey : option string;
  stepTypeDisplayOrder : option Z
}.

Record ConditionDict : Type := mkConditionDict {
  conditionTypeId : option Z;
  conditionTypeKey : option string;
  conditionDisplayOrder : option Z;
  displayable : option bool
}.

Record TargetDict : Type := mkTargetDict {
  workoutTargetTypeId : option Z;
  workoutTargetTypeKey : option string;
  targetDisplayOrder : option Z
}.

Record StrokeDict : Type := mkStrokeDict {
  strokeTypeId : option Z;
  strokeTypeKey : option string;
  strokeDisplayOrder : option Z
}.

Record UnitDict : Type := mkUnitDict {
  unitId : Z;
  unitKey : string;
  factor : float
}.

Record SportDict : Type := mkSportDict {
  sportTypeId : Z;
  sportTypeKey : string;
  sportDisplayOrder : Z
}.

(** A step of the wire format: a leaf step or a repeat group, told apart
    by the reader from its [stepTypeId]. *)
#[local] Unset Elimination Schemes.
Inductive GStep : Type := mkGStep {
  stepOrder : option Z;
  stepType : option StepTypeDict;
  endCondition : option ConditionDict;
  endConditionValue : option float;
  preferredEndConditionUnit : option UnitDict;
  targetType : option TargetDict;
  strokeType : option StrokeDict;
  description : option string;
  zoneNumber : option Z;
  numberOfIterations : option Z;
  workoutSteps : option (list GStep);
  smartRepeat : option bool
}.
#[local] Set Elimination Schemes.

Record WorkoutSegment : Type := mkWorkoutSegment {
  segmentOrder : option Z;
  segmentSportType : option SportDict;
  segmentSteps : option (list GStep)      (* key "workoutSteps" *)
}.

Record GarminWorkout : Type := mkGarminWorkout {
  workoutId : option Z;
  workoutName : option string;
  sportType : option SportDict;
  estimatedDurationInSecs : option Z;
  workoutSegments : option (list WorkoutSegment);
  poolLength : option float;
  poolLengthUnit : option UnitDict
}.

(** A step object with no key set. *)
Definition empty_step : GStep :=
  mkGStep None None None None None None None None None None None None.

End Wire.

(** ** garminconnect.workout: the workout object

    [build] returns a SwimmingWorkout, a pydantic model of the
    garminconnect package: its fields are attributes, and it has no
    [get].  Its [to_dict()] dumps the fields that are set into a dict,
    key for key, segments and steps included; a [workoutId] is not among
    them.  The names are qualified with [GarminConnect] wherever they
    are used. *)

Module GarminConnect.
Import Wire.

Record WorkoutSegment : Type := mkWorkoutSegment {
  segmentOrder : Z;
  segmentSportType : SportDict;           (* attribute [sportType] *)
  segmentSteps : list GStep               (* attribute [workoutSteps] *)
}.

Record SwimmingWorkout : Type := mkSwimmingWorkout {
  workoutName : string;
  sportType : SportDict;
  estimatedDurationInSecs : Z;
  workoutSegments : list WorkoutSegment;
  poolLength : float;
  poolLengthUnit : UnitDict
}.

Definition segment_to_dict (segment : WorkoutSegment) : Wire.WorkoutSegment :=
  Wire.mkWorkoutSegment (Some (segmentOrder segment))
    (Some (segmentSportType segment)) (Some (segmentSteps segment)).

(** [SwimmingWorkout.to_dict()] *)
Definition to_dict (workout : SwimmingWorkout) : GarminWorkout :=
  mkGarminWorkout None (Some (workoutName workout)) (Some (sportType workout))
    (Some (estimatedDurationInSecs workout))
    (Some (map segment_to_dict (workoutSegments workout)))
    (Some (poolLength workout)) (Some (poolLengthUnit workout)).

End GarminConnect.

(** ** swim_workout.py *)

Module SwimWorkout.
Import Wire.

Inductive Stroke : Type :=
| ANY | BACKSTROKE | BREASTSTROKE | BUTTERFLY | FREESTYLE | MIXED | IM.

Inductive StepType : Type :=
| WARMUP | COOLDOWN | INTERVAL | RECOVERY | REST | REPEAT.

Definition Stroke_value (s : Stroke) : Z :=
  match s with
  | ANY => 1 | BACKSTROKE => 2 | BREASTSTROKE => 3 | BUTTERFLY => 4
  | FREESTYLE => 5 | MIXED => 6 | IM => 7
  end.

Definition StepType_value (t : StepType) : Z :=
  match t with
  | WARMUP => 1 | COOLDOWN => 2 | INTERVAL => 3 | RECOVERY => 4
  | REST => 5 | REPEAT => 6
  end.

Definition STROKE_KEYS (s : Stroke) : string :=
  match s with
  | ANY => "any_stroke" | BACKSTROKE => "backstroke"
  | BREASTSTROKE => "breaststroke" | BUTTERFLY => "butterfly"
  | FREESTYLE => "freestyle" | MIXED => "mixed" | IM => "im"
  end.

Definition STEP_TYPE_KEYS (t : StepType) : string :=
  match t with
  | WARMUP => "warmup" | COOLDOWN => "cooldown" | INTERVAL => "interval"
  | RECOVERY => "recovery" | REST => "rest" | REPEAT => "repeat"
  end.

(** The state of a [SwimWorkoutBuilder]; every method takes the builder
    and gives the builder after the call, or raises. *)
Record SwimWorkoutBuilder : Type := mkBuilder {
  name : string;
  pool_length : float;
  steps : list GStep;
  _step_order : Z;
  _estimated_duration : Z
}.

(** [SwimWorkoutBuilder(name, pool_length)] *)
Definition init (name : string) (pool_length : float) : SwimWorkoutBuilder :=
  mkBuilder (prefix 80 name) pool_length [] 0 0.

Definition with_steps (b : SwimWorkoutBuilder) (l : list GStep) :=
  mkBuilder (name b) (pool_length b) l (_step_order b) (_estimated_duration b).

Definition with_step_order (b : SwimWorkoutBuilder) (n : Z) :=
  mkBuilder (name b) (pool_length b) (steps b) n (_estimated_duration b).

Definition with_estimated_duration (b : SwimWorkoutBuilder) (d : Z) :=
  mkBuilder (name b) (pool_length b) (steps b) (_step_order b) d.

(** [_next_order]: increments the counter and returns it. *)
Definition _next_order (b : SwimWorkoutBuilder) : Z * SwimWorkoutBuilder :=
  let b := with_step_order b (_step_order b + 1) in
  (_step_order b, b).

Definition _stroke_type_dict (stroke : Stroke) : StrokeDict :=
  mkStrokeDict (Some (Stroke_value stroke)) (Some (STROKE_KEYS stroke)) (Some 1).

Definition _step_type_dict (step_type : StepType) : StepTypeDict :=
  mkStepTypeDict (Some (StepType_value step_type))
    (Some (STEP_TYPE_KEYS step_type)) (Some (StepType_value step_type)).

Definition _distance_condition : ConditionDict :=
  mkConditionDict (Some 3) (Some "distance") (Some 2) (Some true).

Definition _time_condition : ConditionDict :=
  mkConditionDict (Some 2) (Some "time") (Some 2) (Some true).

Definition _rest_condition : ConditionDict :=
  mkConditionDict (Some 8) (Some "fixed.rest") (Some 8) (Some true).

Definition _lap_button_condition : ConditionDict :=
  mkConditionDict (Some 1) (Some "lap.button") (Some 1) (Some true).

Definition _no_target : TargetDict :=
  mkTargetDict (Some 1) (Some "no.target") (Some 1).

Definition _hr_zone_target (zone : option Z) : TargetDict :=
  mkTargetDict (Some 4) (Some "heart.rate.zone") (Some 1).

Definition _distance_unit : UnitDict := mkUnitDict 1 "meter" f100_0.

(** [int(distance_m * 1.2)] *)
Definition _estimate_swim_time (distance_m : Z) : result Z :=
  p ← int_mul_float distance_m f1_2; int_of_float p.

(** The step object shared by [warmup], [cooldown] and [swim]. *)
Definition distance_step (order : Z) (t : StepType) (value : float)
    (target : TargetDict) (stroke : Stroke) (description : option string)
    (zone : option Z) : GStep :=
  mkGStep (Some order) (Some (_step_type_dict t)) (Some _distance_condition)
    (Some value) (Some _distance_unit) (Some target)
    (Some (_stroke_type_dict stroke)) description zone None None None.

Definition warmup (distance_m : Z) (stroke : Stroke)
    (description : option string) (self : SwimWorkoutBuilder)
    : result SwimWorkoutBuilder :=
  est ← _estimate_swim_time distance_m;
  let self := with_estimated_duration self (_estimated_duration self + est) in
  let '(order, self) := _next_order self in
  value ← float_of_int distance_m;
  let step := distance_step order WARMUP value _no_target stroke description None in
  Ok (with_steps self (steps self ++ [step])).

Definition cooldown (distance_m : Z) (stroke : Stroke)
    (description : option string) (self : SwimWorkoutBuilder)
    : result SwimWorkoutBuilder :=
  est ← _estimate_swim_time distance_m;
  let self := with_estimated_duration self (_estimated_duration self + est) in
  let '(order, self) := _next_order self in
  value ← float_of_int distance_m;
  let step := distance_step order COOLDOWN value _no_target stroke description None in
  Ok (with_steps self (steps self ++ [step])).

Definition swim (distance_m : Z) (stroke : Stroke) (zone : option Z)
    (description : option string) (self : SwimWorkoutBuilder)
    : result SwimWorkoutBuilder :=
  est ← _estimate_swim_time distance_m;
  let self := with_estimated_duration self (_estimated_duration self + est) in
  let target := if truthy zone then _hr_zone_target zone else _no_target in
  let '(order, self) := _next_order self in
  value ← float_of_int distance_m;
  let step := distance_step order INTERVAL value target stroke description
                (if truthy zone then zone else None) in
  Ok (with_steps self (steps self ++ [step])).

Definition rest (seconds : Z) (description : option string)
    (self : SwimWorkoutBuilder) : result SwimWorkoutBuilder :=
  let self := with_estimated_duration self (_estimated_duration self + seconds) in
  let '(order, self) := _next_order self in
  value ← float_of_int seconds;
  let step :=
    mkGStep (Some order) (Some (_step_type_dict REST)) (Some _rest_condition)
      (Some value) None (Some _no_target) None description None None None None in
  Ok (with_steps self (steps self ++ [step])).

Definition rest_until_button (description : option string)
    (self : SwimWorkoutBuilder) : result SwimWorkoutBuilder :=
  let self := with_estimated_duration self (_estimated_duration self + 30) in
  let '(order, self) := _next_order self in
  let step :=
    mkGStep (Some order) (Some (_step_type_dict REST))
      (Some _lap_button_condition) None None (Some _no_target) None
      description None None None None in
  Ok (with_steps self (steps self ++ [step])).

Definition set_stepOrder (i : Z) (g : GStep) : GStep :=
  mkGStep (Some i) (stepType g) (endCondition g) (endConditionValue g)
    (preferredEndConditionUnit g) (targetType g) (strokeType g)
    (Wire.description g) (zoneNumber g) (numberOfIterations g)
    (workoutSteps g) (smartRepeat g).

(** [for i, step in enumerate(steps, start): step.stepOrder = i] *)
Fixpoint renumber (start : Z) (l : list GStep) : list GStep :=
  match l with
  | [] => []
  | step :: tl => set_stepOrder start step :: renumber (start + 1) tl
  end.

Definition iterations_condition : ConditionDict :=
  mkConditionDict (Some 7) (Some "iterations") (Some 7) (Some false).

(** [repeat(times, steps_fn)]: [steps_fn] fills a fresh builder. *)
Definition repeat (times : Z)
    (steps_fn : SwimWorkoutBuilder -> result SwimWorkoutBuilder)
    (self : SwimWorkoutBuilder) : result SwimWorkoutBuilder :=
  let inner_builder := init (name self) (pool_length self) in
  let inner_builder := with_step_order inner_builder 0 in
  inner_builder ← steps_fn inner_builder;
  let inner_steps := renumber 1 (steps inner_builder) in
  let self := with_estimated_duration self
                (_estimated_duration self + _estimated_duration inner_builder * times) in
  let '(order, self) := _next_order self in
  value ← float_of_int times;
  let repeat_group :=
    mkGStep (Some order) (Some (_step_type_dict REPEAT))
      (Some iterations_condition) (Some value) None None None None None
      (Some times) (Some inner_steps) (Some false) in
  Ok (with_steps self (steps self ++ [repeat_group])).

Definition sport_type : SportDict := mkSportDict 4 "lap_swimming" 1.

Definition build (self : SwimWorkoutBuilder) : GarminConnect.SwimmingWorkout :=
  let segment := GarminConnect.mkWorkoutSegment 1 sport_type (steps self) in
  GarminConnect.mkSwimmingWorkout (name self) sport_type
    (_estimated_duration self) [segment] (pool_length self) _distance_unit.

(** [to_dict]: [self.build().to_dict()] *)
Definition to_dict (self : SwimWorkoutBuilder) : GarminWorkout :=
  GarminConnect.to_dict (build self).

(** [create_swim_workout(name)] with the default pool length. *)
Definition create_swim_workout (name : string) : SwimWorkoutBuilder :=
  init name f25_0.

End SwimWorkout.

(** ** api/services/workout_service.py *)

Module WorkoutService.
Import Wire.
Export Models.

(** *** Model construction

    Constructing a pydantic model validates the fields given to it. *)

Definition WorkoutStep_new (s : WorkoutStep) : result WorkoutStep :=
  if WorkoutStep_ok s then Ok s else Raise ValidationError.

(** [steps: list[WorkoutStep]] given the list the converters build: a
    WorkoutStep instance is taken as it is, an instance of another model
    (a RepeatGroup) is refused. *)
Fixpoint as_workout_steps (l : list Entry) : result (list WorkoutStep) :=
  match l with
  | [] => Ok []
  | Step s :: tl => r ← as_workout_steps tl; Ok (s :: r)
  | Group _ :: _ => Raise ValidationError
  end.

(** [RepeatGroup(id=.., iterations=.., steps=..)] *)
Definition RepeatGroup_new (id : string) (iterations : Z) (steps : list Entry)
    : result RepeatGroup :=
  if 1 <=? iterations then
    children ← as_workout_steps steps;
    Ok (mkRepeatGroup id REPEAT iterations children)
  else Raise ValidationError.

(** [Workout(id=.., name=.., pool_length=.., steps=..)] *)
Definition Workout_new (id name : string) (pool_length : float)
    (steps : list Entry) : result Workout :=
  if (String.length name <=? 80)%nat then Ok (mkWorkout id name pool_length steps)
  else Raise ValidationError.

(** *** The record store

    The directory of record files: one JSON document per workout id.  A
    file holds the dump of a Workout; reading it parses and validates the
    document again. *)

Abbreviation Files := (gmap string Workout).

Definition get_workout (workout_id : string) (fs : Files)
    : result (option Workout) :=
  match fs !! workout_id with
  | None => Ok None
  | Some data => if Workout_ok data then Ok (Some data) else Raise ValidationError
  end.

Definition delete_workout (workout_id : string) (fs : Files) : bool * Files :=
  match fs !! workout_id with
  | Some _ => (true, delete workout_id fs)
  | None => (false, fs)
  end.

Definition set_workout_id (w : Workout) (new_id : string) : Workout :=
  mkWorkout new_id (Models.name w) (Models.pool_length w) (Models.steps w).

Definition replace_workout_id (old_id new_id : string) (fs : Files)
    : result (bool * Files) :=
  found ← get_workout old_id fs;
  match found with
  | None => Ok (false, fs)
  | Some workout =>
      (* Update the ID *)
      let workout := set_workout_id workout new_id in
      (* Save with new ID *)
      let fs := <[new_id := workout]> fs in
      (* Delete old file *)
      let fs := match fs !! old_id with
                | Some _ => delete old_id fs
                | None => fs
                end in
      Ok (true, fs)
  end.

(** *** Wire to domain: garmin_to_workout *)

Definition step_name (step_counter : Z) : string := "step-" +:+ str step_counter.

(** The leaf branch of [convert_garmin_step], after the repeat check. *)
Definition convert_leaf (step_id : string) (step_type_id : Z) (g_step : GStep)
    : result WorkoutStep :=
  let stroke_id :=
    match strokeType g_step with
    | Some stroke_type => default 5 (strokeTypeId stroke_type)
    | None => 5
    end in
  (* Handle invalid stroke IDs (0 or out of range) - default to freestyle *)
  let stroke_id := if (stroke_id <? 1) || (stroke_id >? 7) then 5 else stroke_id in
  (* Handle invalid step type IDs - default to interval *)
  let step_type_id :=
    if (step_type_id <? 1) || (step_type_id >? 6) then 3 else step_type_id in
  let end_condition :=
    default "distance" (endCondition g_step ≫= conditionTypeKey) in
  let end_value := default (Finite 100 0) (endConditionValue g_step) in
  step_type ← StepType_of step_type_id;
  stroke ← StrokeType_of stroke_id;
  distance_m ← (if String.eqb end_condition "distance"
                then int_of_float end_value else Ok 0);
  duration_seconds ← (if String.eqb end_condition "time"
                         || String.eqb end_condition "fixed.rest"
                      then d ← int_of_float end_value; Ok (Some d)
                      else Ok None);
  WorkoutStep_new
    (mkWorkoutStep step_id step_type stroke distance_m duration_seconds
       (zoneNumber g_step) (Wire.description g_step) Equipment_default).

Fixpoint convert_garmin_step (g_step : GStep) (step_counter : Z) {struct g_step}
    : result (Entry * Z) :=
  let step_counter := step_counter + 1 in
  let step_id := step_name step_counter in
  match g_step with
  | mkGStep _ stepType _ _ _ _ _ _ _ numberOfIterations workoutSteps _ =>
      let step_type_id := default 3 (stepType ≫= stepTypeId) in
      (* Check for repeat group *)
      if step_type_id =? 6 then
        '(inner_steps, step_counter) ←
          match workoutSteps with
          | Some inner_list =>
              (fix convert_inner (l : list GStep) (c : Z) {struct l}
                 : result (list Entry * Z) :=
                 match l with
                 | [] => Ok ([], c)
                 | inner :: tl =>
                     '(e, c) ← convert_garmin_step inner c;
                     '(es, c) ← convert_inner tl c;
                     Ok (e :: es, c)
                 end) inner_list step_counter
          | None => Ok ([], step_counter)
          end;
        group ← RepeatGroup_new step_id (default 1 numberOfIterations) inner_steps;
        Ok (Group group, step_counter)
      else
        (* Regular step *)
        step ← convert_leaf step_id step_type_id g_step;
        Ok (Step step, step_counter)
  end.

(** [for g_step in l: steps.append(convert_garmin_step(g_step))] *)
Fixpoint convert_garmin_steps (l : list GStep) (step_counter : Z)
    : result (list Entry * Z) :=
  match l with
  | [] => Ok ([], step_counter)
  | g_step :: tl =>
      '(e, c) ← convert_garmin_step g_step step_counter;
      '(es, c) ← convert_garmin_steps tl c;
      Ok (e :: es, c)
  end.

Definition garmin_to_workout (garmin_workout : GarminWorkout) : result Workout :=
  let workout_id :=
    match workoutId garmin_workout with Some n => str n | None => "" end in
  let name := default "Unnamed Workout" (workoutName garmin_workout) in
  let pool_length := default f25_0 (poolLength garmin_workout) in
  (* Get steps from the first segment *)
  steps ←
    match default [] (workoutSegments garmin_workout) with
    | [] => Ok []
    | segment :: _ =>
        let garmin_steps := default [] (segmentSteps segment) in
        '(steps, _) ← convert_garmin_steps garmin_steps 0; Ok steps
    end;
  Workout_new workout_id name pool_length steps.

(** The parameter is annotated [dict[str, Any]], which Python does not
    check: a caller can hand over a dict, or the SwimmingWorkout object
    that [workout_to_garmin_dict] returns.  On the object the first
    statement, [garmin_workout.get("workoutId", "")], raises
    AttributeError. *)
Inductive GarminArgument : Type :=
| a_dict (d : GarminWorkout)
| a_model (o : GarminConnect.SwimmingWorkout).

Definition garmin_to_workout_of (garmin_workout : GarminArgument) : result Workout :=
  match garmin_workout with
  | a_dict d => garmin_to_workout d
  | a_model _ => Raise AttributeError
  end.

(** *** Builder output to domain: builder_to_workout *)

(** [int(step.endConditionValue)], TypeError on None. *)
Definition int_of_value (v : option float) : result Z :=
  match v with Some x => int_of_float x | None => Raise TypeError end.

(** Truthiness of [step.endConditionValue]: set and not 0.0. *)
Definition truthy_float (v : option float) : bool :=
  match v with
  | Some (Finite m _) => negb (m =? 0)
  | Some _ => true
  | None => false
  end.

Definition convert_builder_leaf (step_id : string) (step : GStep)
    : result WorkoutStep :=
  let step_type_id := default 3 (stepType step ≫= stepTypeId) in
  let stroke_id :=
    match strokeType step with
    | Some stroke_type => default 5 (strokeTypeId stroke_type)
    | None => 5
    end in
  step_type ← StepType_of step_type_id;
  stroke ← StrokeType_of stroke_id;
  distance_m ← (if truthy_float (endConditionValue step)
                then int_of_value (endConditionValue step) else Ok 0);
  duration_seconds ← (if step_type_id =? 5
                      then d ← int_of_value (endConditionValue step); Ok (Some d)
                      else Ok None);
  WorkoutStep_new
    (mkWorkoutStep step_id step_type stroke distance_m duration_seconds
       (zoneNumber step) (Wire.description step) Equipment_default).

Fixpoint convert_step (step : GStep) (step_counter : Z) {struct step}
    : result (Entry * Z) :=
  let step_counter := step_counter + 1 in
  let step_id := step_name step_counter in
  match step with
  | mkGStep _ _ _ _ _ _ _ _ _ numberOfIterations workoutSteps _ =>
      (* Check if it's a repeat group *)
      match numberOfIterations with
      | Some n =>
          '(inner_steps, step_counter) ←
            match workoutSteps with
            | Some inner_list =>
                (fix convert_inner (l : list GStep) (c : Z) {struct l}
                   : result (list Entry * Z) :=
                   match l with
                   | [] => Ok ([], c)
                   | inner :: tl =>
                       '(e, c) ← convert_step inner c;
                       '(es, c) ← convert_inner tl c;
                       Ok (e :: es, c)
                   end) inner_list step_counter
            | None => Ok ([], step_counter)
            end;
          group ← RepeatGroup_new step_id n inner_steps;
          Ok (Group group, step_counter)
      | None =>
          (* Regular step *)
          s ← convert_builder_leaf step_id step;
          Ok (Step s, step_counter)
      end
  end.

Fixpoint convert_steps (l : list GStep) (step_counter : Z)
    : result (list Entry * Z) :=
  match l with
  | [] => Ok ([], step_counter)
  | step :: tl =>
      '(e, c) ← convert_step step step_counter;
      '(es, c) ← convert_steps tl c;
      Ok (e :: es, c)
  end.

Definition builder_to_workout (workout_id : string)
    (builder : SwimWorkout.SwimWorkoutBuilder) : result Workout :=
  '(steps, _) ← convert_steps (SwimWorkout.steps builder) 0;
  Workout_new workout_id (SwimWorkout.name builder)
    (SwimWorkout.pool_length builder) steps.

(** *** Domain to wire: workout_to_garmin_dict *)

Definition stroke_map (s : StrokeType) : SwimWorkout.Stroke :=
  match s with
  | ANY => SwimWorkout.ANY
  | BACKSTROKE => SwimWorkout.BACKSTROKE
  | BREASTSTROKE => SwimWorkout.BREASTSTROKE
  | BUTTERFLY => SwimWorkout.BUTTERFLY
  | FREESTYLE => SwimWorkout.FREESTYLE
  | MIXED => SwimWorkout.MIXED
  | IM => SwimWorkout.IM
  end.

Definition eq_parts (eq : Equipment) : list string :=
  (if pull_buoy eq then ["PULL BUOY"] else [])
  ++ (if paddles eq then ["PADDLES"] else [])
  ++ (if fins eq then ["FINS"] else [])
  ++ (if kickboard eq then ["KICKBOARD"] else [])
  ++ (if snorkel eq then ["SNORKEL"] else []).

(** The description handed to the builder: equipment tags first. *)
Definition step_desc (step : WorkoutStep) : option string :=
  let desc := Models.description step in
  match eq_parts (equipment step) with
  | [] => desc
  | parts =>
      let eq_str := String.concat " + " parts in
      match desc with
      | Some d => if truthy_str desc then Some ("[" +:+ eq_str +:+ "] " +:+ d)
                  else Some ("[" +:+ eq_str +:+ "]")
      | None => Some ("[" +:+ eq_str +:+ "]")
      end
  end.

Definition add_step (b : SwimWorkout.SwimWorkoutBuilder) (step : WorkoutStep)
    : result SwimWorkout.SwimWorkoutBuilder :=
  let stroke := stroke_map (Models.stroke step) in
  let desc := step_desc step in
  match step_type step with
  | WARMUP => SwimWorkout.warmup (distance_m step) stroke desc b
  | COOLDOWN => SwimWorkout.cooldown (distance_m step) stroke desc b
  | REST =>
      SwimWorkout.rest
        (if truthy (duration_seconds step) then default 30 (duration_seconds step)
         else 30) desc b
  | _ => SwimWorkout.swim (distance_m step) stroke (zone step) desc b
  end.

(** [for s in repeat_steps: add_step(b, s)] *)
Fixpoint add_steps (b : SwimWorkout.SwimWorkoutBuilder) (l : list WorkoutStep)
    : result SwimWorkout.SwimWorkoutBuilder :=
  match l with
  | [] => Ok b
  | s :: tl => b ← add_step b s; add_steps b tl
  end.

Definition add_entry (builder : SwimWorkout.SwimWorkoutBuilder) (step : Entry)
    : result SwimWorkout.SwimWorkoutBuilder :=
  match step with
  | Group g =>
      SwimWorkout.repeat (iterations g) (fun b => add_steps b (group_steps g)) builder
  | Step s => add_step builder s
  end.

Fixpoint add_entries (builder : SwimWorkout.SwimWorkoutBuilder) (l : list Entry)
    : result SwimWorkout.SwimWorkoutBuilder :=
  match l with
  | [] => Ok builder
  | step :: tl => builder ← add_entry builder step; add_entries builder tl
  end.

Definition workout_to_garmin_dict (workout : Workout)
    : result GarminConnect.SwimmingWorkout :=
  let builder := SwimWorkout.init (Models.name workout) (Models.pool_length workout) in
  builder ← add_entries builder (Models.steps workout);
  Ok (SwimWorkout.build builder).

End WorkoutService.

(** ** api/routes/garmin.py: the upload route *)

Module GarminRoutes.
Import Wire WorkoutService.

(** [api.models.UploadResult] *)
Record UploadResult : Type := mkUploadResult {
  success : bool;
  result_workout_id : option string;
  error : option string
}.

(** What the route hands back: a result, an HTTP error, or an exception
    nobody caught. *)
Inductive Detail : Type :=
| WorkoutNotFound
| ConversionError (e : exn)
| UploadError (msg : option string).

Inductive Response : Type :=
| Return (r : UploadResult)
| HTTPException (status_code : Z) (detail : Detail)
| Uncaught (e : exn).

(** The calls that leave the route, in the order they are made. *)
Inductive Call : Type :=
| RemoteUpload (garmin_workout : GarminConnect.SwimmingWorkout)
| RemoteDelete (workout_id : string)
| LocalReplace (old_id new_id : string).

Section Upload.
(** The remote platform and its session, behind [garmin_service]; both
    service functions catch every exception of the client. *)
Context {Remote : Type}.
Variable garmin_upload_workout :
  GarminConnect.SwimmingWorkout -> Remote -> UploadResult * Remote.
Variable delete_workout_from_garmin : string -> Remote -> bool * Remote.

Record World : Type := mkWorld {
  files : Files;
  remote : Remote;
  calls : list Call
}.

Definition nonempty (s : string) : bool := negb (String.eqb s "").

Definition upload_workout (workout_id : string) (w : World) : Response * World :=
  match get_workout workout_id (files w) with
  | Raise e => (Uncaught e, w)
  | Ok None => (HTTPException 404 WorkoutNotFound, w)
  | Ok (Some workout) =>
      let old_garmin_id := workout_id in
      (* Convert to Garmin format and upload *)
      match workout_to_garmin_dict workout with
      | Raise e => (HTTPException 400 (ConversionError e), w)
      | Ok garmin_workout =>
          let '(result, r) := garmin_upload_workout garmin_workout (remote w) in
          let w := mkWorld (files w) r (calls w ++ [RemoteUpload garmin_workout]) in
          if negb (success result) then
            (HTTPException 400 (UploadError (error result)), w)
          else
            (* Successfully uploaded - now delete the old workout from Garmin *)
            match result_workout_id result with
            | Some new_id =>
                if nonempty old_garmin_id && nonempty new_id
                   && negb (String.eqb old_garmin_id new_id)
                then
                  let '(_, r) := delete_workout_from_garmin old_garmin_id (remote w) in
                  let w := mkWorld (files w) r (calls w ++ [RemoteDelete old_garmin_id]) in
                  (* Update local storage: delete old file, save with new ID *)
                  match replace_workout_id old_garmin_id new_id (files w) with
                  | Ok (_, fs) =>
                      (Return result,
                       mkWorld fs (remote w)
                         (calls w ++ [LocalReplace old_garmin_id new_id]))
                  | Raise e =>
                      (Uncaught e,
                       mkWorld (files w) (remote w)
                         (calls w ++ [LocalReplace old_garmin_id new_id]))
                  end
                else (Return result, w)
            | None => (Return result, w)
            end
      end
  end.

End Upload.

End GarminRoutes.

(** * Specification-side definitions and inputs *)

Import Wire WorkoutService.

(** ** What the specification says, in its own words *)

Module Spec.

(** A Step contributes its distance unless its kind is REST. *)
Definition step_distance (s : WorkoutStep) : Z :=
  if StepType_eqb (step_type s) REST then 0 else distance_m s.

Definition sum_Z (l : list Z) : Z := fold_right Z.add 0 l.

(** A RepeatGroup contributes the sum of its children's distances under
    the same rule, times its iteration count. *)
Definition entry_distance (e : Entry) : Z :=
  match e with
  | Step s => step_distance s
  | Group g => sum_Z (map step_distance (group_steps g)) * iterations g
  end.

Definition total_distance (w : Workout) : Z :=
  sum_Z (map entry_distance (steps w)).

(** The entries directly below an entry of a workout. *)
Definition children (e : Entry) : list Entry :=
  match e with
  | Step _ => []
  | Group g => map Step (group_steps g)
  end.

Definition is_group (e : Entry) : bool :=
  match e with Group _ => true | Step _ => false end.

(** Some RepeatGroup of the workout has a RepeatGroup as a child. *)
Definition has_nested_group (w : Workout) : bool :=
  existsb (fun e => existsb is_group (children e)) (steps w).

(** [n] is an integer nearest to the double [x]. *)
Definition nearest_integer (x : float) (n : Z) : bool :=
  match x with
  | Finite m e =>
      if 0 <=? e then n =? m * 2 ^ e
      else 2 * Z.abs (m - n * 2 ^ (- e)) <=? 2 ^ (- e)
  | _ => false
  end.

(** [n] is the double [x] with its fraction cut off (rounded toward zero). *)
Definition truncation (x : float) (n : Z) : bool :=
  match x with
  | Finite m e =>
      if 0 <=? e then n =? m * 2 ^ e
      else
        let k := 2 ^ (- e) in
        (Z.abs n * k <=? Z.abs m) && (Z.abs m <? (Z.abs n + 1) * k) && (0 <=? n * m)
  | _ => false
  end.

(** The round trip as the claim has it: every step keeps kind and stroke,
    and its distance or its duration. *)
Definition step_same (s s' : WorkoutStep) : Prop :=
  step_type s' = step_type s
  /\ stroke s' = stroke s
  /\ (distance_m s' = distance_m s \/ duration_seconds s' = duration_seconds s).

Definition entry_same (e e' : Entry) : Prop :=
  match e, e' with
  | Step s, Step s' => step_same s s'
  | Group g, Group g' =>
      iterations g' = iterations g
      /\ Forall2 step_same (group_steps g) (group_steps g')
  | _, _ => False
  end.

End Spec.

(** ** Definitions used by the statements *)

(** The loop of [total_distance], entry by entry. *)
Definition code_entry_distance (e : Entry) : Z :=
  match e with
  | Group g => sum_distance_m (group_steps g) * iterations g
  | Step s => if negb (StepType_eqb (step_type s) REST) then distance_m s else 0
  end.

(** No REST child of a group carries a distance. *)
Definition rest_children_zero (e : Entry) : Prop :=
  match e with
  | Step _ => True
  | Group g =>
      Forall (fun s => StepType_eqb (step_type s) REST = true -> distance_m s = 0)
        (group_steps g)
  end.

(** ** Inputs of the examples *)

(** Four times 100 m freestyle with 20 s rest, the rest step carrying its
    seconds in [distance_m] as [builder_to_workout] writes it. *)
Definition swim_100 : WorkoutStep :=
  mkWorkoutStep "step-2" INTERVAL FREESTYLE 100 None (Some 2) None Equipment_default.

Definition rest_20 : WorkoutStep :=
  mkWorkoutStep "step-3" REST FREESTYLE 20 (Some 20) None None Equipment_default.

Definition four_by_100 : Workout :=
  mkWorkout "w" "Test" f25_0
    [Group (mkRepeatGroup "step-1" REPEAT 4 [swim_100; rest_20])].

(** The builder chain of the specification's scenario:
    [create("Test").warmup(300, FREESTYLE).repeat(4, lambda b:
     b.swim(100, FREESTYLE, zone=2).rest(20)).cooldown(200, FREESTYLE)]. *)
Definition scenario_inner (b : SwimWorkout.SwimWorkoutBuilder)
    : result SwimWorkout.SwimWorkoutBuilder :=
  b ← SwimWorkout.swim 100 SwimWorkout.FREESTYLE (Some 2) None b;
  SwimWorkout.rest 20 None b.

Definition scenario_builder : result SwimWorkout.SwimWorkoutBuilder :=
  b ← SwimWorkout.warmup 300 SwimWorkout.FREESTYLE None
        (SwimWorkout.create_swim_workout "Test");
  b ← SwimWorkout.repeat 4 scenario_inner b;
  SwimWorkout.cooldown 200 SwimWorkout.FREESTYLE None b.

(** ... followed by [.build()]. *)
Definition scenario_workout : result GarminConnect.SwimmingWorkout :=
  b ← scenario_builder; Ok (SwimWorkout.build b).

(** What [convert_garmin_step] reads from a wire step, with the defaults
    of its [get] calls. *)
Definition read_step_type_id (g : GStep) : Z :=
  default 3 (stepType g ≫= stepTypeId).

Definition read_stroke_id (g : GStep) : Z :=
  match strokeType g with
  | Some stroke_type => default 5 (strokeTypeId stroke_type)
  | None => 5
  end.

Definition read_end_condition (g : GStep) : string :=
  default "distance" (endCondition g ≫= conditionTypeKey).

Definition read_end_value (g : GStep) : float :=
  default (Finite 100 0) (endConditionValue g).

Definition timed (key : string) : bool :=
  String.eqb key "time" || String.eqb key "fixed.rest".

(** The end value can be cast where the conversion casts it, and a
    distance is not negative. *)
Definition end_value_accepted (g : GStep) : bool :=
  if String.eqb (read_end_condition g) "distance" then
    match int_of_float (read_end_value g) with
    | Ok v => 0 <=? v
    | Raise _ => false
    end
  else if timed (read_end_condition g) then is_ok (int_of_float (read_end_value g))
  else true.

(** A wire step that is not a repeat group and that the leaf conversion
    accepts: zone absent or in 1..5, end value as above. *)
Definition leaf_accepted (g : GStep) : bool :=
  negb (read_step_type_id g =? 6) && zone_ok (zoneNumber g) && end_value_accepted g.

(** Wire leaf steps of the examples. *)
Definition wire_leaf (step_type_id stroke_id : option Z) (key : option string)
    (value : option float) : GStep :=
  mkGStep (Some 1)
    (Some (mkStepTypeDict step_type_id None None))
    (Some (mkConditionDict None key None None))
    value None None
    (Some (mkStrokeDict stroke_id None None))
    None None None None None.

(** A distance step of 99.75 (399/4) metres. *)
Definition leaf_99_75 : GStep :=
  wire_leaf (Some 3) (Some 5) (Some "distance") (Some (Finite 399 (-2))).

(** The step-type and stroke codes after the two range checks. *)
Definition kept_step_type_id (tid : Z) : Z :=
  if (tid <? 1) || (tid >? 6) then 3 else tid.

Definition kept_stroke_id (sid : Z) : Z :=
  if (sid <? 1) || (sid >? 7) then 5 else sid.

(** A leaf with stroke code 0 and step-type code 9, 50 metres. *)
Definition leaf_codes_0_9 : GStep :=
  wire_leaf (Some 9) (Some 0) (Some "distance") (Some (Finite 50 0)).

(** A distance step and a timed step without [endConditionValue], and a
    step without [endCondition]. *)
Definition leaf_distance_no_value : GStep :=
  wire_leaf (Some 3) (Some 5) (Some "distance") None.

Definition leaf_rest_no_value : GStep :=
  wire_leaf (Some 5) None (Some "fixed.rest") None.

Definition leaf_no_condition : GStep :=
  mkGStep None (Some (mkStepTypeDict (Some 3) None None)) None
    (Some (Finite 150 0)) None None None None None None None None.

(** A stored record under the key "old-1", and the store holding it. *)
Definition record_old_1 : Workout :=
  mkWorkout "old-1" "Test" f25_0
    [Group (mkRepeatGroup "step-1" REPEAT 4 [swim_100; rest_20])].

Definition files_old_1 : Files := {[ "old-1" := record_old_1 ]}.

(** A remote platform for the examples: the ids it holds.  Uploads are
    stored under the id "new-2"; deleting fails. *)
Definition remote_accepts (g : GarminConnect.SwimmingWorkout) (r : list string)
    : GarminRoutes.UploadResult * list string :=
  (GarminRoutes.mkUploadResult true (Some "new-2") None, "new-2" :: r).

(** A remote platform that refuses every upload. *)
Definition remote_refuses (g : GarminConnect.SwimmingWorkout) (r : list string)
    : GarminRoutes.UploadResult * list string :=
  (GarminRoutes.mkUploadResult false None (Some "Not authenticated"), r).

Definition remote_delete_fails (workout_id : string) (r : list string)
    : bool * list string :=
  (false, r).

(** A valid record whose distance is too large for a double. *)
Definition record_huge : Workout :=
  mkWorkout "huge" "Huge" f25_0
    [Step (mkWorkoutStep "step-1" WARMUP FREESTYLE (2 ^ 1024) None None None
             Equipment_default)].

Definition world_old_1 : GarminRoutes.World :=
  GarminRoutes.mkWorld files_old_1 ["old-1"] [].

Definition world_huge : GarminRoutes.World (Remote := list string) :=
  GarminRoutes.mkWorld {[ "huge" := record_huge ]} [] [].

(** ** The round trip domain -> wire -> domain *)

(** The round trip as the two functions compose:
    [garmin_to_workout(workout_to_garmin_dict(W))], the object that
    [workout_to_garmin_dict] returns handed over as it is. *)
Definition roundtrip_as_written (w : Workout) : result Workout :=
  o ← workout_to_garmin_dict w; garmin_to_workout_of (a_model o).

(** The round trip with the object dumped to a dict in between:
    [garmin_to_workout(workout_to_garmin_dict(W).to_dict())]. *)
Definition roundtrip (w : Workout) : result Workout :=
  o ← workout_to_garmin_dict w; garmin_to_workout (GarminConnect.to_dict o).

(** An int that a double holds exactly. *)
Definition exact_in_double (n : Z) : bool := Z.abs n <? 2 ^ 53.

(** [step.duration_seconds or 30] *)
Definition rest_seconds (s : WorkoutStep) : Z :=
  if truthy (duration_seconds s) then default 30 (duration_seconds s) else 30.

(** The int of a step that [add_step] turns into a double. *)
Definition step_exact (s : WorkoutStep) : bool :=
  match step_type s with
  | REST => exact_in_double (rest_seconds s)
  | _ => exact_in_double (distance_m s)
  end.

Definition entry_exact (e : Entry) : bool :=
  match e with
  | Step s => step_exact s
  | Group g => exact_in_double (iterations g) && forallb step_exact (group_steps g)
  end.

Definition workout_exact (w : Workout) : bool := forallb entry_exact (steps w).

(** The seconds [add_step] adds to the estimate for a step. *)
Definition step_estimate (s : WorkoutStep) : Z :=
  match step_type s with
  | REST => rest_seconds s
  | _ => match SwimWorkout._estimate_swim_time (distance_m s) with
         | Ok est => est
         | Raise _ => 0
         end
  end.

(** The wire step [add_step] appends for a step, given its order number. *)
Definition wire_of_step (order : Z) (s : WorkoutStep) : GStep :=
  let stroke := stroke_map (stroke s) in
  match step_type s with
  | WARMUP =>
      SwimWorkout.distance_step order SwimWorkout.WARMUP (Finite (distance_m s) 0)
        SwimWorkout._no_target stroke (step_desc s) None
  | COOLDOWN =>
      SwimWorkout.distance_step order SwimWorkout.COOLDOWN (Finite (distance_m s) 0)
        SwimWorkout._no_target stroke (step_desc s) None
  | REST =>
      mkGStep (Some order) (Some (SwimWorkout._step_type_dict SwimWorkout.REST))
        (Some SwimWorkout._rest_condition) (Some (Finite (rest_seconds s) 0)) None
        (Some SwimWorkout._no_target) None (step_desc s) None None None None
  | _ =>
      SwimWorkout.distance_step order SwimWorkout.INTERVAL (Finite (distance_m s) 0)
        (if truthy (zone s) then SwimWorkout._hr_zone_target (zone s)
         else SwimWorkout._no_target)
        stroke (step_desc s) (if truthy (zone s) then zone s else None)
  end.

Fixpoint wires_of_steps (order : Z) (l : list WorkoutStep) : list GStep :=
  match l with
  | [] => []
  | s :: tl => wire_of_step order s :: wires_of_steps (order + 1) tl
  end.

(** The wire step [repeat] appends for a group. *)
Definition wire_of_group (order : Z) (g : RepeatGroup) : GStep :=
  mkGStep (Some order) (Some (SwimWorkout._step_type_dict SwimWorkout.REPEAT))
    (Some SwimWorkout.iterations_condition) (Some (Finite (iterations g) 0))
    None None None None None (Some (iterations g))
    (Some (SwimWorkout.renumber 1 (wires_of_steps 1 (group_steps g))))
    (Some false).

Definition wire_of_entry (order : Z) (e : Entry) : GStep :=
  match e with
  | Step s => wire_of_step order s
  | Group g => wire_of_group order g
  end.

Fixpoint wires_of_entries (order : Z) (l : list Entry) : list GStep :=
  match l with
  | [] => []
  | e :: tl => wire_of_entry order e :: wires_of_entries (order + 1) tl
  end.

Definition sum_estimates (l : list WorkoutStep) : Z :=
  Spec.sum_Z (map step_estimate l).

Definition entry_estimate (e : Entry) : Z :=
  match e with
  | Step s => step_estimate s
  | Group g => sum_estimates (group_steps g) * iterations g
  end.

(** The kind a step comes back with. *)
Definition kind_back (k : StepType) : StepType :=
  match k with
  | WARMUP => WARMUP
  | COOLDOWN => COOLDOWN
  | REST => REST
  | _ => INTERVAL
  end.

(** The step that comes back for a step, numbered [n]. *)
Definition step_back (n : Z) (s : WorkoutStep) : WorkoutStep :=
  match step_type s with
  | REST =>
      mkWorkoutStep (step_name n) REST FREESTYLE 0 (Some (rest_seconds s)) None
        (step_desc s) Equipment_default
  | WARMUP | COOLDOWN =>
      mkWorkoutStep (step_name n) (step_type s) (stroke s) (distance_m s) None None
        (step_desc s) Equipment_default
  | _ =>
      mkWorkoutStep (step_name n) INTERVAL (stroke s) (distance_m s) None
        (if truthy (zone s) then zone s else None) (step_desc s) Equipment_default
  end.

Fixpoint steps_back (n : Z) (l : list WorkoutStep) : list WorkoutStep :=
  match l with
  | [] => []
  | s :: tl => step_back n s :: steps_back (n + 1) tl
  end.

Definition entry_back (n : Z) (e : Entry) : Entry :=
  match e with
  | Step s => Step (step_back n s)
  | Group g =>
      Group (mkRepeatGroup (step_name n) REPEAT (iterations g)
               (steps_back (n + 1) (group_steps g)))
  end.

(** The number of ids an entry takes. *)
Definition entry_size (e : Entry) : Z :=
  match e with
  | Step _ => 1
  | Group g => 1 + Z.of_nat (length (group_steps g))
  end.

Fixpoint entries_back (n : Z) (l : list Entry) : list Entry :=
  match l with
  | [] => []
  | e :: tl => entry_back n e :: entries_back (n + entry_size e) tl
  end.

Definition entries_size (l : list Entry) : Z := Spec.sum_Z (map entry_size l).

Definition workout_back (w : Workout) : Workout :=
  mkWorkout "" (Models.name w) (Models.pool_length w) (entries_back 1 (steps w)).

(** What a step keeps over the round trip: its kind, except that RECOVERY
    (and a leaf of kind REPEAT) comes back as INTERVAL; stroke and distance
    unless it is a REST step; for a REST step the seconds handed to the
    builder, [duration_seconds or 30]. *)
Definition step_kept (s s' : WorkoutStep) : Prop :=
  step_type s' = kind_back (step_type s)
  /\ (step_type s <> REST -> stroke s' = stroke s /\ distance_m s' = distance_m s)
  /\ (step_type s = REST -> duration_seconds s' = Some (rest_seconds s)).

(** Groups stay groups with their iteration count and their children in
    order; steps stay steps. *)
Definition entry_kept (e e' : Entry) : Prop :=
  match e, e' with
  | Step s, Step s' => step_kept s s'
  | Group g, Group g' =>
      iterations g' = iterations g
      /\ Forall2 step_kept (group_steps g) (group_steps g')
  | _, _ => False
  end.

(** A single RECOVERY step of 200 m backstroke. *)
Definition recovery_200 : WorkoutStep :=
  mkWorkoutStep "a" RECOVERY BACKSTROKE 200 None None None Equipment_default.

Definition recovery_workout : Workout :=
  mkWorkout "w-1" "Recovery" f25_0 [Step recovery_200].

(** A valid workout whose one distance, 2^53 + 1, no double holds. *)
Definition workout_2_53_1 : Workout :=
  mkWorkout "big" "Big" f25_0
    [Step (mkWorkoutStep "step-1" INTERVAL FREESTYLE (2 ^ 53 + 1) None None None
             Equipment_default)].

(** A REST step with a stroke, a distance and no duration. *)
Definition rest_backstroke : WorkoutStep :=
  mkWorkoutStep "r" REST BACKSTROKE 100 None None None Equipment_default.

(** * More of the code *)

(** ** api/services/workout_service.py: listing, creating, updating,
       syncing and seeding records *)

Module WorkoutStore.
Import Wire WorkoutService.

(** [api.models.WorkoutSummary] *)
Record WorkoutSummary : Type := mkWorkoutSummary {
  summary_id : string;
  summary_name : string;
  summary_total_distance : Z;
  step_count : nat
}.

(** The summary [list_workouts] and the sync route build for a workout. *)
Definition summarize (workout : Workout) : WorkoutSummary :=
  mkWorkoutSummary (workout_id workout) (Models.name workout)
    (total_distance workout) (length (Models.steps workout)).

(** [list_workouts]: every record file in the order the directory gives
    them (here the order of [map_to_list]); a record that does not parse
    is skipped. *)
Definition list_workouts (fs : Files) : list WorkoutSummary :=
  omap (fun '(_, data) =>
          if Workout_ok data then Some (summarize data) else None)
       (map_to_list fs).

(** [api.models.WorkoutCreate], and its construction with validation. *)
Record WorkoutCreate : Type := mkWorkoutCreate {
  create_name : string;
  create_pool_length : float;
  create_steps : list Entry
}.

Definition WorkoutCreate_new (name : string) (pool_length : float)
    (steps : list Entry) : result WorkoutCreate :=
  if (String.length name <=? 80)%nat then Ok (mkWorkoutCreate name pool_length steps)
  else Raise ValidationError.

(** [api.models.WorkoutUpdate]: no field is constrained. *)
Record WorkoutUpdate : Type := mkWorkoutUpdate {
  update_name : option string;
  update_pool_length : option float;
  update_steps : option (list Entry)
}.

(** [create_workout]; the id [str(uuid.uuid4())] draws is the argument
    [uuid4]. *)
Definition create_workout (data : WorkoutCreate) (uuid4 : string) (fs : Files)
    : result (Workout * Files) :=
  workout ← Workout_new uuid4 (create_name data) (create_pool_length data)
              (create_steps data);
  Ok (workout, <[workout_id workout := workout]> fs).

(** The three assignments of [update_workout]; assigning to a field does
    not validate it. *)
Definition assign_fields (workout : Workout) (data : WorkoutUpdate) : Workout :=
  let name :=
    match update_name data with Some n => n | None => Models.name workout end in
  let pool_length :=
    match update_pool_length data with
    | Some p => p
    | None => Models.pool_length workout
    end in
  let steps :=
    match update_steps data with Some l => l | None => Models.steps workout end in
  mkWorkout (workout_id workout) name pool_length steps.

Definition update_workout (workout_id : string) (data : WorkoutUpdate) (fs : Files)
    : result (option Workout * Files) :=
  found ← get_workout workout_id fs;
  match found with
  | None => Ok (None, fs)
  | Some workout =>
      let workout := assign_fields workout data in
      Ok (Some workout, <[workout_id := workout]> fs)
  end.

(** [sync_from_garmin]: the loop writes each workout as soon as it is
    converted, so the files written before an exception stay; the store
    is returned beside the result. *)
Fixpoint sync_loop (garmin_workouts : list GarminWorkout) (synced : list Workout)
    (fs : Files) : result (list Workout) * Files :=
  match garmin_workouts with
  | [] => (Ok synced, fs)
  | g_workout :: tl =>
      match garmin_to_workout g_workout with
      | Raise e => (Raise e, fs)
      | Ok workout =>
          sync_loop tl (synced ++ [workout]) (<[workout_id workout := workout]> fs)
      end
  end.

Definition sync_from_garmin (garmin_workouts : list GarminWorkout) (fs : Files)
    : result (list Workout) * Files :=
  sync_loop garmin_workouts [] fs.

(** [initialize_workouts]; the template catalogue [WORKOUTS] of
    example_workouts.py is an argument: names with the builder each
    template function returns. *)
Fixpoint seed (templates : list (string * result SwimWorkout.SwimWorkoutBuilder))
    (fs : Files) : result unit * Files :=
  match templates with
  | [] => (Ok tt, fs)
  | (name, workout_fn) :: tl =>
      match (builder ← workout_fn; builder_to_workout name builder) with
      | Raise e => (Raise e, fs)
      | Ok workout => seed tl (<[workout_id workout := workout]> fs)
      end
  end.

Definition initialize_workouts
    (WORKOUTS : list (string * result SwimWorkout.SwimWorkoutBuilder))
    (fs : Files) : result unit * Files :=
  (* Check if we already have workouts *)
  match map_to_list fs with
  | _ :: _ => (Ok tt, fs)     (* Already initialized *)
  | [] => seed WORKOUTS fs    (* Seed from templates *)
  end.

End WorkoutStore.

(** ** api/routes/workouts.py: duplicating a workout *)

Module WorkoutRoutes.
Import WorkoutService WorkoutStore.

Inductive Response : Type :=
| Return (workout : Workout)
| HTTPException (status_code : Z)
| Uncaught (e : exn).

(** [duplicate_workout]; [uuid4] is the id drawn for the copy. *)
Definition duplicate_workout (workout_id uuid4 : string) (fs : Files)
    : Response * Files :=
  match get_workout workout_id fs with
  | Raise e => (Uncaught e, fs)
  | Ok None => (HTTPException 404, fs)
  | Ok (Some source) =>
      (* Create a new workout with the same data *)
      match WorkoutCreate_new (Models.name source +:+ " (copy)")
              (Models.pool_length source) (Models.steps source) with
      | Raise e => (Uncaught e, fs)
      | Ok data =>
          match create_workout data uuid4 fs with
          | Raise e => (Uncaught e, fs)
          | Ok (workout, fs) => (Return workout, fs)
          end
      end
  end.

End WorkoutRoutes.

(** ** Definitions used by the further statements *)

(** The ids of an entry, the group's own id before its children's. *)
Definition entry_ids (e : Entry) : list string :=
  match e with
  | Step s => [step_id s]
  | Group g => group_id g :: map step_id (group_steps g)
  end.

Definition workout_ids (w : Workout) : list string :=
  concat (map entry_ids (steps w)).

(** A wire workout with a leaf, a group of two leaves and another leaf. *)
Definition wire_group_2x : GStep :=
  mkGStep (Some 2) (Some (mkStepTypeDict (Some 6) None None)) None None None None
    None None None (Some 2) (Some [leaf_distance_no_value; leaf_rest_no_value])
    None.

Definition wire_imported : GarminWorkout :=
  mkGarminWorkout (Some 1234) (Some "Imported") None None
    (Some [mkWorkoutSegment None None
             (Some [leaf_codes_0_9; wire_group_2x; leaf_no_condition])])
    None None.

(** A repeat inside a repeat, as the builder allows:
    [create("Nested").repeat(2, lambda b: b.repeat(3, lambda c:
     c.swim(50, FREESTYLE)))]. *)
Definition nested_builder : result SwimWorkout.SwimWorkoutBuilder :=
  SwimWorkout.repeat 2
    (SwimWorkout.repeat 3
       (SwimWorkout.swim 50 SwimWorkout.FREESTYLE None None))
    (SwimWorkout.create_swim_workout "Nested").

(** The dict of a builder chain ([to_dict]), empty if the chain raised. *)
Definition built (chain : result SwimWorkout.SwimWorkoutBuilder) : GarminWorkout :=
  match chain with
  | Ok b => SwimWorkout.to_dict b
  | Raise _ => mkGarminWorkout None None None None None None None
  end.

(** A rest until the lap button between two swims. *)
Definition button_builder : result SwimWorkout.SwimWorkoutBuilder :=
  b ← SwimWorkout.swim 100 SwimWorkout.FREESTYLE None None
        (SwimWorkout.create_swim_workout "Button");
  b ← SwimWorkout.rest_until_button (Some "catch your breath") b;
  SwimWorkout.swim 100 SwimWorkout.BACKSTROKE None None b.

(** A REST step of the builder without an end value: what
    [rest_until_button] appends. *)
Definition open_rest (g : GStep) : Prop :=
  numberOfIterations g = None
  /\ stepType g ≫= stepTypeId = Some 5
  /\ endConditionValue g = None.

(** The builders that the methods of [SwimWorkoutBuilder] reach from
    [SwimWorkoutBuilder(name, pool_length)]. *)
Inductive Built (name : string) (pool_length : float)
    : SwimWorkout.SwimWorkoutBuilder -> Prop :=
| Built_init : Built name pool_length (SwimWorkout.init name pool_length)
| Built_warmup b b' d stroke desc :
    Built name pool_length b ->
    SwimWorkout.warmup d stroke desc b = Ok b' -> Built name pool_length b'
| Built_cooldown b b' d stroke desc :
    Built name pool_length b ->
    SwimWorkout.cooldown d stroke desc b = Ok b' -> Built name pool_length b'
| Built_swim b b' d stroke zone desc :
    Built name pool_length b ->
    SwimWorkout.swim d stroke zone desc b = Ok b' -> Built name pool_length b'
| Built_rest b b' seconds desc :
    Built name pool_length b ->
    SwimWorkout.rest seconds desc b = Ok b' -> Built name pool_length b'
| Built_rest_until_button b b' desc :
    Built name pool_length b ->
    SwimWorkout.rest_until_button desc b = Ok b' -> Built name pool_length b'
| Built_repeat b b' times steps_fn :
    Built name pool_length b ->
    SwimWorkout.repeat times steps_fn b = Ok b' -> Built name pool_length b'.

(** Two steps that agree on every field but the order number. *)
Definition same_but_order (s s' : GStep) : Prop :=
  stepType s' = stepType s
  /\ endCondition s' = endCondition s
  /\ endConditionValue s' = endConditionValue s
  /\ preferredEndConditionUnit s' = preferredEndConditionUnit s
  /\ targetType s' = targetType s
  /\ strokeType s' = strokeType s
  /\ Wire.description s' = Wire.description s
  /\ zoneNumber s' = zoneNumber s
  /\ numberOfIterations s' = numberOfIterations s
  /\ workoutSteps s' = workoutSteps s
  /\ smartRepeat s' = smartRepeat s.

(** The order numbers 1, 2, ..., n. *)
Definition orders_from (start : Z) (n : nat) : list (option Z) :=
  map Some (seqZ start (Z.of_nat n)).

(** One call of a builder method: name and pool length stay, one step is
    appended and carries the next order number. *)
Definition appends_step (b b' : SwimWorkout.SwimWorkoutBuilder) : Prop :=
  SwimWorkout.name b' = SwimWorkout.name b
  /\ SwimWorkout.pool_length b' = SwimWorkout.pool_length b
  /\ SwimWorkout._step_order b' = SwimWorkout._step_order b + 1
  /\ exists g, SwimWorkout.steps b' = SwimWorkout.steps b ++ [g]
               /\ stepOrder g = Some (SwimWorkout._step_order b + 1).

(** Every record is stored under its own id. *)
Definition ids_match (fs : Files) : Prop :=
  forall k w, fs !! k = Some w -> workout_id w = k.

(** The store after writing the workouts one after the other, each under
    its id. *)
Definition write_all (ws : list Workout) (fs : Files) : Files :=
  fold_left (fun fs w => <[workout_id w := w]> fs) ws fs.

(** A long name: 81 characters. *)
Definition name_81 : string :=
  "123456789012345678901234567890123456789012345678901234567890123456789012345678901".

(** A record with a name of 74 characters. *)
Definition record_74 : Workout :=
  mkWorkout "old-1"
    "12345678901234567890123456789012345678901234567890123456789012345678901234"
    f25_0 [Step swim_100].

(** A template catalogue of two: the scenario, and a workout with a rest
    until the lap button. *)
Definition two_templates : list (string * result SwimWorkout.SwimWorkoutBuilder) :=
  [("scenario", scenario_builder); ("button", button_builder)].

Definition files_74 : Files := {[ "old-1" := record_74 ]}.

(** ** The duration estimate in closed form *)

(** The seconds [add_step] adds for a step, in closed form: the rest of a
    REST step, six fifths of the distance, cut to an int, of any other. *)
Definition step_seconds (s : WorkoutStep) : Z :=
  match step_type s with
  | REST => rest_seconds s
  | _ => Z.quot (6 * distance_m s) 5
  end.

Definition entry_seconds (e : Entry) : Z :=
  match e with
  | Step s => step_seconds s
  | Group g => Spec.sum_Z (map step_seconds (group_steps g)) * iterations g
  end.

(** Distances below [2^50] in magnitude; rests and iteration counts that
    a double holds. *)
Definition step_small (s : WorkoutStep) : bool :=
  match step_type s with
  | REST => exact_in_double (rest_seconds s)
  | _ => Z.abs (distance_m s) <? 2 ^ 50
  end.

Definition entry_small (e : Entry) : bool :=
  match e with
  | Step s => step_small s
  | Group g => exact_in_double (iterations g) && forallb step_small (group_steps g)
  end.

Definition workout_small (w : Workout) : bool := forallb entry_small (steps w).

(** ** Inputs for the store and the builder properties *)

(** [repeat]'s usual argument: a swim followed by a timed rest,
    [lambda b: b.swim(distance_m, stroke, zone=zone).rest(seconds)]. *)
Definition interval_and_rest (distance_m : Z) (stroke : SwimWorkout.Stroke)
    (zone : option Z) (seconds : Z) (b : SwimWorkout.SwimWorkoutBuilder)
    : result SwimWorkout.SwimWorkoutBuilder :=
  b ← SwimWorkout.swim distance_m stroke zone None b;
  SwimWorkout.rest seconds None b.

(** A request body for [create_workout]. *)
Definition create_test : WorkoutStore.WorkoutCreate :=
  WorkoutStore.mkWorkoutCreate "Test" f25_0 [Step swim_100].

(** * Properties *)

(** ** The binary64 model on known values *)

(** Values of CPython: [float(2**53 + 1)] is [2.0**53] and
    [float(2**53 + 3)] is [2.0**53 + 4] (ties to even); the largest int
    that converts is [2**1024 - 2**970 - 1]; [int(3 * 1.2)] is 3 and
    [int(7 * 1.2)] is 8; [int(-99.75)] is -99. *)
Lemma binary64_examples :
  float_of_int (2 ^ 53 + 1) = Ok (Finite (2 ^ 53) 0)
  /\ float_of_int (2 ^ 53 + 3) = Ok (Finite (2 ^ 53 + 4) 0)
  /\ is_ok (float_of_int (2 ^ 1024 - 2 ^ 970 - 1)) = true
  /\ float_of_int (2 ^ 1024 - 2 ^ 970) = Raise OverflowError
  /\ SwimWorkout._estimate_swim_time 3 = Ok 3
  /\ SwimWorkout._estimate_swim_time 7 = Ok 8
  /\ int_of_float (Finite (-399) (-2)) = Ok (-99).
Proof. repeat split; vm_compute; reflexivity. Qed.

(** ** Auxiliary facts *)

Lemma bind_Ok {A B} (a : A) (f : A -> result B) : (Ok a ≫= f) = f a.
Proof. reflexivity. Qed.

Lemma bind_Raise {A B} (e : exn) (f : A -> result B) : (Raise e ≫= f) = Raise e.
Proof. reflexivity. Qed.

Lemma fold_left_add_acc {A} (f : A -> Z) (l : list A) (a : Z) :
  fold_left (fun acc x => acc + f x) l a = a + Spec.sum_Z (map f l).
Proof.
  revert a. induction l as [|x l IH]; intros a; simpl.
  - lia.
  - rewrite IH. lia.
Qed.

Lemma sum_distance_m_sum (l : list WorkoutStep) :
  sum_distance_m l = Spec.sum_Z (map distance_m l).
Proof. unfold sum_distance_m. rewrite fold_left_add_acc. lia. Qed.

Lemma total_distance_sum (w : Workout) :
  total_distance w = Spec.sum_Z (map code_entry_distance (steps w)).
Proof.
  unfold total_distance.
  assert (H : forall l a, fold_left total_distance_step l a
                          = a + Spec.sum_Z (map code_entry_distance l)).
  { induction l as [|e l IH]; intros a; simpl; [lia|].
    rewrite IH. destruct e as [s|g]; simpl.
    - destruct (StepType_eqb (step_type s) REST); simpl; lia.
    - lia. }
  rewrite H. lia.
Qed.

(** Outside REST children that carry a distance, the code and the
    specification compute the same total. *)
Lemma total_distance_agrees (w : Workout) :
  Forall rest_children_zero (steps w) ->
  total_distance w = Spec.total_distance w.
Proof.
  rewrite total_distance_sum. unfold Spec.total_distance.
  induction 1 as [|e l He _ IH]; simpl; [reflexivity|].
  rewrite IH. f_equal.
  destruct e as [s|g]; simpl.
  - unfold Spec.step_distance. destruct (StepType_eqb (step_type s) REST); reflexivity.
  - f_equal. rewrite sum_distance_m_sum. simpl in He.
    induction He as [|s l' Hs _ IH']; simpl; [reflexivity|].
    rewrite IH'. f_equal. unfold Spec.step_distance.
    destruct (StepType_eqb (step_type s) REST); [apply Hs|]; reflexivity.
Qed.

(** ** C1: total distance *)

(** C1: (code differs) on a workout whose repeat group holds a REST step
    with a non-zero [distance_m], [total_distance] counts the REST child:
    it returns 480 where the REST-excluding rule gives 400; at top level
    the same REST step is left out. *)
Theorem total_distance_counts_rest_in_group :
  Workout_ok four_by_100 = true
  /\ total_distance four_by_100 = 480
  /\ Spec.total_distance four_by_100 = 400
  /\ total_distance (mkWorkout "w" "Test" f25_0 [Step swim_100; Step rest_20]) = 100.
Proof. repeat split; reflexivity. Qed.

(** ** C3: what a repeat group may hold *)

Lemma children_are_steps (e c : Entry) :
  In c (Spec.children e) -> Spec.is_group c = false.
Proof.
  destruct e as [s|g]; simpl; [contradiction|].
  intros Hc. apply in_map_iff in Hc. destruct Hc as [s [<- _]]. reflexivity.
Qed.

Lemma as_workout_steps_group (before after : list Entry) (g : RepeatGroup) :
  as_workout_steps (before ++ Group g :: after) = Raise ValidationError.
Proof.
  induction before as [|e l IH]; simpl; [reflexivity|].
  destruct e; [|reflexivity]. rewrite IH. reflexivity.
Qed.

(** C3: (negation of the claim as stated) no Workout has a RepeatGroup
    with a RepeatGroup among its children. *)
Lemma no_workout_nests_groups :
  ~ exists w : Workout, Spec.has_nested_group w = true.
Proof.
  intros [w H]. unfold Spec.has_nested_group in H.
  apply existsb_exists in H. destruct H as [e [_ H]].
  apply existsb_exists in H. destruct H as [c [Hc Hg]].
  apply children_are_steps in Hc. congruence.
Qed.

(** C3: (amended) the children of a RepeatGroup are leaf steps: in every
    Workout no child of a group is a group, and building a RepeatGroup
    from entries with a group among them is refused with a validation
    error, whatever stands before or after it. *)
Theorem repeat_group_holds_steps_only :
  (forall w : Workout, Spec.has_nested_group w = false)
  /\ (forall id n before g after,
        RepeatGroup_new id n (before ++ Group g :: after) = Raise ValidationError).
Proof.
  split.
  - intros w. destruct (Spec.has_nested_group w) eqn:E; [|reflexivity].
    unfold Spec.has_nested_group in E.
    apply existsb_exists in E. destruct E as [e [_ E]].
    apply existsb_exists in E. destruct E as [c [Hc Hg]].
    apply children_are_steps in Hc. congruence.
  - intros id n before g after. unfold RepeatGroup_new.
    destruct (1 <=? n); [|reflexivity].
    rewrite as_workout_steps_group. reflexivity.
Qed.

(** ** C8: the estimated duration of the scenario *)

(** C8: the scenario's built workout has an estimated duration of exactly
    1160 seconds: 360 for the warmup, 4 times (120 + 20) for the repeat
    and 240 for the cooldown. *)
Theorem scenario_duration_1160 :
  (w ← scenario_workout; Ok (GarminConnect.estimatedDurationInSecs w)) = Ok 1160
  /\ SwimWorkout._estimate_swim_time 300 = Ok 360
  /\ SwimWorkout._estimate_swim_time 100 = Ok 120
  /\ SwimWorkout._estimate_swim_time 200 = Ok 240
  /\ (b ← scenario_inner (SwimWorkout.init "Test" f25_0);
      Ok (SwimWorkout._estimated_duration b)) = Ok 140.
Proof. repeat split; vm_compute; reflexivity. Qed.

(** ** Leaf steps of the wire format: C4, C5, C10 *)

Lemma StepType_of_range (n : Z) :
  1 <= n <= 6 -> exists t, StepType_of n = Ok t /\ StepType_value t = n.
Proof.
  intros H.
  assert (n = 1 \/ n = 2 \/ n = 3 \/ n = 4 \/ n = 5 \/ n = 6) as Hn by lia.
  destruct Hn as [->|[->|[->|[->|[->| ->]]]]]; eexists; split; reflexivity.
Qed.

Lemma StrokeType_of_range (n : Z) :
  1 <= n <= 7 -> exists t, StrokeType_of n = Ok t /\ StrokeType_value t = n.
Proof.
  intros H.
  assert (n = 1 \/ n = 2 \/ n = 3 \/ n = 4 \/ n = 5 \/ n = 6 \/ n = 7) as Hn by lia.
  destruct Hn as [->|[->|[->|[->|[->|[->| ->]]]]]]; eexists; split; reflexivity.
Qed.

Lemma StepType_value_inj (a b : StepType) :
  StepType_value a = StepType_value b -> a = b.
Proof. destruct a, b; simpl; intros H; try reflexivity; discriminate. Qed.

Lemma StrokeType_value_inj (a b : StrokeType) :
  StrokeType_value a = StrokeType_value b -> a = b.
Proof. destruct a, b; simpl; intros H; try reflexivity; discriminate. Qed.

Lemma convert_garmin_step_leaf (g : GStep) (c : Z) :
  read_step_type_id g <> 6 ->
  convert_garmin_step g c
  = (step ← convert_leaf (step_name (c + 1)) (read_step_type_id g) g;
     Ok (Step step, c + 1)).
Proof.
  intros Hleaf. destruct g; unfold read_step_type_id in *; simpl in *.
  destruct (default 3 (stepType0 ≫= stepTypeId) =? 6) eqn:E; [lia|reflexivity].
Qed.

(** Every field of the step a leaf conversion builds. *)
Lemma convert_leaf_fields (id : string) (tid : Z) (g : GStep) :
  tid <> 6 ->
  zone_ok (zoneNumber g) = true ->
  end_value_accepted g = true ->
  exists s,
    convert_leaf id tid g = Ok s
    /\ step_id s = id
    /\ StepType_value (step_type s) = kept_step_type_id tid
    /\ StrokeType_value (stroke s) = kept_stroke_id (read_stroke_id g)
    /\ (if String.eqb (read_end_condition g) "distance"
        then int_of_float (read_end_value g) = Ok (distance_m s)
        else distance_m s = 0)
    /\ (if timed (read_end_condition g)
        then exists d, int_of_float (read_end_value g) = Ok d
                       /\ duration_seconds s = Some d
        else duration_seconds s = None)
    /\ zone s = zoneNumber g
    /\ Models.description s = Wire.description g
    /\ equipment s = Equipment_default.
Proof.
  intros Htid Hzone Hval. unfold convert_leaf.
  fold (read_stroke_id g). fold (read_end_condition g). fold (read_end_value g).
  fold (kept_stroke_id (read_stroke_id g)). fold (kept_step_type_id tid).
  fold (timed (read_end_condition g)).
  destruct (StepType_of_range (kept_step_type_id tid)) as [t [Ht Htv]].
  { unfold kept_step_type_id. destruct ((tid <? 1) || (tid >? 6)) eqn:E; [lia|].
    apply orb_false_iff in E. lia. }
  destruct (StrokeType_of_range (kept_stroke_id (read_stroke_id g))) as [k [Hk Hkv]].
  { unfold kept_stroke_id.
    destruct ((read_stroke_id g <? 1) || (read_stroke_id g >? 7)) eqn:E; [lia|].
    apply orb_false_iff in E. lia. }
  rewrite Ht, Hk. rewrite !bind_Ok.
  unfold end_value_accepted in Hval.
  destruct (String.eqb (read_end_condition g) "distance") eqn:Ed.
  - apply String.eqb_eq in Ed.
    destruct (int_of_float (read_end_value g)) as [v|] eqn:Ev; [|discriminate].
    rewrite bind_Ok.
    assert (timed (read_end_condition g) = false) as -> by (rewrite Ed; reflexivity).
    rewrite bind_Ok. unfold WorkoutStep_new, WorkoutStep_ok. simpl.
    rewrite Hval, Hzone. simpl. eexists. split; [reflexivity|]. simpl.
    repeat split; assumption.
  - rewrite bind_Ok.
    destruct (timed (read_end_condition g)) eqn:Et.
    + destruct (int_of_float (read_end_value g)) as [v|] eqn:Ev; [|discriminate].
      rewrite !bind_Ok. unfold WorkoutStep_new, WorkoutStep_ok. simpl.
      rewrite Hzone. simpl. eexists. split; [reflexivity|]. simpl.
      repeat split; try assumption. exists v. split; reflexivity.
    + rewrite bind_Ok. unfold WorkoutStep_new, WorkoutStep_ok. simpl.
      rewrite Hzone. simpl. eexists. split; [reflexivity|]. simpl.
      repeat split; assumption.
Qed.

(** The conversion of an accepted leaf, with all that it fixes. *)
Lemma convert_accepted_leaf (g : GStep) (c : Z) :
  leaf_accepted g = true ->
  exists s,
    convert_garmin_step g c = Ok (Step s, c + 1)
    /\ step_id s = step_name (c + 1)
    /\ StepType_value (step_type s) = kept_step_type_id (read_step_type_id g)
    /\ StrokeType_value (stroke s) = kept_stroke_id (read_stroke_id g)
    /\ (if String.eqb (read_end_condition g) "distance"
        then int_of_float (read_end_value g) = Ok (distance_m s)
        else distance_m s = 0)
    /\ (if timed (read_end_condition g)
        then exists d, int_of_float (read_end_value g) = Ok d
                       /\ duration_seconds s = Some d
        else duration_seconds s = None)
    /\ zone s = zoneNumber g
    /\ Models.description s = Wire.description g
    /\ equipment s = Equipment_default.
Proof.
  unfold leaf_accepted. intros H.
  apply andb_true_iff in H. destruct H as [H Hval].
  apply andb_true_iff in H. destruct H as [Hleaf Hzone].
  apply negb_true_iff, Z.eqb_neq in Hleaf.
  rewrite convert_garmin_step_leaf by assumption.
  destruct (convert_leaf_fields (step_name (c + 1)) (read_step_type_id g) g)
    as [s [Hs Hrest]]; try assumption.
  exists s. rewrite Hs. split; [reflexivity|exact Hrest].
Qed.

(** A leaf that is not accepted makes the conversion raise. *)
Lemma convert_refused_leaf (g : GStep) (c : Z) :
  read_step_type_id g <> 6 ->
  leaf_accepted g = false ->
  is_ok (convert_garmin_step g c) = false.
Proof.
  intros Hleaf Hacc. rewrite convert_garmin_step_leaf by assumption.
  unfold leaf_accepted in Hacc.
  apply Z.eqb_neq in Hleaf. rewrite Hleaf in Hacc. simpl in Hacc.
  unfold convert_leaf.
  fold (read_stroke_id g). fold (read_end_condition g). fold (read_end_value g).
  fold (timed (read_end_condition g)).
  destruct (StepType_of _) as [t|]; [|reflexivity]. rewrite bind_Ok.
  destruct (StrokeType_of _) as [k|]; [|reflexivity]. rewrite bind_Ok.
  unfold end_value_accepted in Hacc.
  destruct (String.eqb (read_end_condition g) "distance") eqn:Ed.
  - destruct (int_of_float (read_end_value g)) as [v|] eqn:Ev; [|reflexivity].
    rewrite bind_Ok.
    destruct (timed (read_end_condition g)) eqn:Et.
    + rewrite !bind_Ok. unfold WorkoutStep_new, WorkoutStep_ok. simpl.
      destruct (zone_ok (zoneNumber g)); simpl in *;
        [rewrite Hacc|rewrite andb_false_r]; reflexivity.
    + rewrite bind_Ok. unfold WorkoutStep_new, WorkoutStep_ok. simpl.
      destruct (zone_ok (zoneNumber g)); simpl in *;
        [rewrite Hacc|rewrite andb_false_r]; reflexivity.
  - rewrite bind_Ok.
    destruct (timed (read_end_condition g)) eqn:Et.
    + destruct (int_of_float (read_end_value g)) as [v|] eqn:Ev; [|reflexivity].
      rewrite !bind_Ok. unfold WorkoutStep_new, WorkoutStep_ok. simpl.
      destruct (zone_ok (zoneNumber g)); simpl in *; [discriminate|reflexivity].
    + rewrite bind_Ok. unfold WorkoutStep_new, WorkoutStep_ok. simpl.
      destruct (zone_ok (zoneNumber g)); simpl in *; [discriminate|reflexivity].
Qed.

Lemma quot_truncates (m k : Z) :
  0 < k ->
  Z.abs (m ÷ k) * k <= Z.abs m < (Z.abs (m ÷ k) + 1) * k /\ 0 <= (m ÷ k) * m.
Proof.
  intros Hk. destruct (Z.le_gt_cases 0 m) as [Hm|Hm].
  - pose proof (Z.quot_rem' m k) as Hq.
    pose proof (Z.rem_bound_pos m k Hm Hk) as Hr.
    pose proof (Z.quot_pos m k Hm Hk) as Hp.
    rewrite (Z.abs_eq m), (Z.abs_eq (m ÷ k)) by assumption. nia.
  - assert (Hm' : 0 <= - m) by lia.
    pose proof (Z.quot_rem' (- m) k) as Hq.
    pose proof (Z.rem_bound_pos (- m) k Hm' Hk) as Hr.
    pose proof (Z.quot_pos (- m) k Hm' Hk) as Hp.
    assert (Ho : m ÷ k = - (- m ÷ k)).
    { rewrite Z.quot_opp_l by lia. lia. }
    rewrite Ho. rewrite Z.abs_opp.
    rewrite (Z.abs_neq m), (Z.abs_eq (- m ÷ k)) by lia. nia.
Qed.

(** [int(x)] cuts the fraction off. *)
Lemma int_of_float_truncation (x : float) (n : Z) :
  int_of_float x = Ok n -> Spec.truncation x n = true.
Proof.
  destruct x as [m e| |]; simpl; intros H; inversion H as [Hn]; clear H.
  destruct (0 <=? e) eqn:He.
  - apply Z.eqb_refl.
  - apply Z.leb_gt in He.
    assert (Hk : 0 < 2 ^ (- e)) by (apply Z.pow_pos_nonneg; lia).
    destruct (quot_truncates m (2 ^ (- e)) Hk) as [[H1 H2] H3].
    apply andb_true_iff; split; [apply andb_true_iff; split|].
    + apply Z.leb_le. exact H1.
    + apply Z.ltb_lt. exact H2.
    + apply Z.leb_le. exact H3.
Qed.

(** ** C4: the end condition of a leaf step *)

(** C4: (counterexample to the claim as stated) a distance step of 99.75
    is imported with [distance_m] = 99, which is not the nearest integer
    (100 is). *)
Lemma distance_99_75_is_not_rounded :
  exists s,
    convert_garmin_step leaf_99_75 0 = Ok (Step s, 1)
    /\ distance_m s = 99
    /\ Spec.nearest_integer (read_end_value leaf_99_75) (distance_m s) = false
    /\ Spec.nearest_integer (read_end_value leaf_99_75) 100 = true.
Proof. eexists. repeat split. Qed.

(** C4: (amended) for every accepted wire leaf step: under the key
    "distance", [distance_m] is the end value with its fraction cut off
    (rounded toward zero) and the duration is unset; under "time" or
    "fixed.rest", [duration_seconds] is the end value cut off the same way
    and [distance_m] is 0; under any other key, [distance_m] is 0 and the
    duration is unset. *)
Theorem leaf_end_condition_truncated (g : GStep) (c : Z) :
  leaf_accepted g = true ->
  exists s,
    convert_garmin_step g c = Ok (Step s, c + 1)
    /\ (read_end_condition g = "distance" ->
        Spec.truncation (read_end_value g) (distance_m s) = true
        /\ duration_seconds s = None)
    /\ (read_end_condition g = "time" \/ read_end_condition g = "fixed.rest" ->
        (exists d, duration_seconds s = Some d
                   /\ Spec.truncation (read_end_value g) d = true)
        /\ distance_m s = 0)
    /\ (read_end_condition g <> "distance" ->
        read_end_condition g <> "time" ->
        read_end_condition g <> "fixed.rest" ->
        distance_m s = 0 /\ duration_seconds s = None).
Proof.
  intros Hacc.
  destruct (convert_accepted_leaf g c Hacc)
    as [s [Hs [_ [_ [_ [Hdist [Hdur _]]]]]]].
  exists s. split; [exact Hs|]. repeat split.
  - rewrite H in Hdist. simpl in Hdist. apply int_of_float_truncation. exact Hdist.
  - rewrite H in Hdur. simpl in Hdur. exact Hdur.
  - assert (Ht : timed (read_end_condition g) = true).
    { unfold timed. destruct H as [-> | ->]; reflexivity. }
    rewrite Ht in Hdur. destruct Hdur as [d [Hd Hsome]].
    exists d. split; [exact Hsome|]. apply int_of_float_truncation. exact Hd.
  - assert (Hd : String.eqb (read_end_condition g) "distance" = false).
    { destruct H as [-> | ->]; reflexivity. }
    rewrite Hd in Hdist. exact Hdist.
  - apply String.eqb_neq in H. rewrite H in Hdist. exact Hdist.
  - assert (Ht : timed (read_end_condition g) = false).
    { unfold timed. apply orb_false_iff. split; apply String.eqb_neq; assumption. }
    rewrite Ht in Hdur. exact Hdur.
Qed.

(** The amended statement at the step of 99.75 metres. *)
Lemma leaf_end_condition_truncated_witness :
  exists s,
    convert_garmin_step leaf_99_75 0 = Ok (Step s, 0 + 1)
    /\ (read_end_condition leaf_99_75 = "distance" ->
        Spec.truncation (read_end_value leaf_99_75) (distance_m s) = true
        /\ duration_seconds s = None)
    /\ (read_end_condition leaf_99_75 = "time"
        \/ read_end_condition leaf_99_75 = "fixed.rest" ->
        (exists d, duration_seconds s = Some d
                   /\ Spec.truncation (read_end_value leaf_99_75) d = true)
        /\ distance_m s = 0)
    /\ (read_end_condition leaf_99_75 <> "distance" ->
        read_end_condition leaf_99_75 <> "time" ->
        read_end_condition leaf_99_75 <> "fixed.rest" ->
        distance_m s = 0 /\ duration_seconds s = None).
Proof. apply (leaf_end_condition_truncated leaf_99_75 0). reflexivity. Defined.

(** ** C5: stroke and step-type codes of a leaf step *)

(** C5: for every accepted wire leaf step, a stroke code outside 1..7
    gives the stroke FREESTYLE and a step-type code outside 1..6 gives the
    kind INTERVAL; a code inside its range is kept. *)
Theorem leaf_codes_normalized (g : GStep) (c : Z) :
  leaf_accepted g = true ->
  exists s,
    convert_garmin_step g c = Ok (Step s, c + 1)
    /\ (read_stroke_id g < 1 \/ 7 < read_stroke_id g -> stroke s = FREESTYLE)
    /\ (1 <= read_stroke_id g <= 7 -> StrokeType_value (stroke s) = read_stroke_id g)
    /\ (read_step_type_id g < 1 \/ 6 < read_step_type_id g -> step_type s = INTERVAL)
    /\ (1 <= read_step_type_id g <= 6 ->
        StepType_value (step_type s) = read_step_type_id g).
Proof.
  intros Hacc.
  destruct (convert_accepted_leaf g c Hacc) as [s [Hs [_ [Hkind [Hstroke _]]]]].
  exists s. split; [exact Hs|].
  unfold kept_step_type_id in Hkind. unfold kept_stroke_id in Hstroke.
  repeat split.
  - intros Hout. apply StrokeType_value_inj. rewrite Hstroke.
    destruct ((read_stroke_id g <? 1) || (read_stroke_id g >? 7)) eqn:E;
      [reflexivity|]. apply orb_false_iff in E. lia.
  - intros Hin. rewrite Hstroke.
    destruct ((read_stroke_id g <? 1) || (read_stroke_id g >? 7)) eqn:E;
      [|reflexivity]. apply orb_true_iff in E. lia.
  - intros Hout. apply StepType_value_inj. rewrite Hkind.
    destruct ((read_step_type_id g <? 1) || (read_step_type_id g >? 6)) eqn:E;
      [reflexivity|]. apply orb_false_iff in E. lia.
  - intros Hin. rewrite Hkind.
    destruct ((read_step_type_id g <? 1) || (read_step_type_id g >? 6)) eqn:E;
      [|reflexivity]. apply orb_true_iff in E. lia.
Qed.

(** The statement at a step with stroke code 0 and step-type code 9. *)
Lemma leaf_codes_normalized_witness :
  exists s,
    convert_garmin_step leaf_codes_0_9 0 = Ok (Step s, 0 + 1)
    /\ (read_stroke_id leaf_codes_0_9 < 1 \/ 7 < read_stroke_id leaf_codes_0_9 ->
        stroke s = FREESTYLE)
    /\ (1 <= read_stroke_id leaf_codes_0_9 <= 7 ->
        StrokeType_value (stroke s) = read_stroke_id leaf_codes_0_9)
    /\ (read_step_type_id leaf_codes_0_9 < 1 \/ 6 < read_step_type_id leaf_codes_0_9 ->
        step_type s = INTERVAL)
    /\ (1 <= read_step_type_id leaf_codes_0_9 <= 6 ->
        StepType_value (step_type s) = read_step_type_id leaf_codes_0_9).
Proof. apply (leaf_codes_normalized leaf_codes_0_9 0). reflexivity. Defined.

(** ** C10: a leaf step without an end value or an end condition *)

(** C10: for every accepted wire leaf step without [endConditionValue] the
    value 100 is used: a distance step gets [distance_m] = 100 and a
    "time" or "fixed.rest" step gets [duration_seconds] = 100; and a step
    without [endCondition] is read as a distance step. *)
Theorem absent_end_value_reads_100 (g : GStep) (c : Z) :
  leaf_accepted g = true ->
  exists s,
    convert_garmin_step g c = Ok (Step s, c + 1)
    /\ (endConditionValue g = None ->
        endCondition g ≫= conditionTypeKey = Some "distance" ->
        distance_m s = 100 /\ duration_seconds s = None)
    /\ (endConditionValue g = None ->
        endCondition g ≫= conditionTypeKey = Some "time"
        \/ endCondition g ≫= conditionTypeKey = Some "fixed.rest" ->
        duration_seconds s = Some 100 /\ distance_m s = 0)
    /\ (endCondition g = None ->
        duration_seconds s = None
        /\ match endConditionValue g with
           | Some v => int_of_float v = Ok (distance_m s)
           | None => distance_m s = 100
           end).
Proof.
  intros Hacc.
  destruct (convert_accepted_leaf g c Hacc)
    as [s [Hs [_ [_ [_ [Hdist [Hdur _]]]]]]].
  exists s. split; [exact Hs|].
  unfold read_end_condition, read_end_value in *.
  split; [|split].
  - intros Hv Hk. rewrite Hv, Hk in *. simpl in *.
    change (100 * 2 ^ 0) with 100 in *.
    split; [congruence|exact Hdur].
  - intros Hv Hk. rewrite Hv in *.
    destruct Hk as [Hk|Hk]; rewrite Hk in *; simpl in *;
      change (100 * 2 ^ 0) with 100 in *;
      destruct Hdur as [d [Hd Hsome]]; split; congruence.
  - intros Hc. rewrite Hc in *. simpl in *. split; [exact Hdur|].
    destruct (endConditionValue g); simpl in *;
      change (100 * 2 ^ 0) with 100 in *; congruence.
Qed.

(** The statement at a distance step without an end value. *)
Lemma absent_end_value_reads_100_witness :
  exists s,
    convert_garmin_step leaf_distance_no_value 0 = Ok (Step s, 0 + 1)
    /\ (endConditionValue leaf_distance_no_value = None ->
        endCondition leaf_distance_no_value ≫= conditionTypeKey = Some "distance" ->
        distance_m s = 100 /\ duration_seconds s = None)
    /\ (endConditionValue leaf_distance_no_value = None ->
        endCondition leaf_distance_no_value ≫= conditionTypeKey = Some "time"
        \/ endCondition leaf_distance_no_value ≫= conditionTypeKey = Some "fixed.rest" ->
        duration_seconds s = Some 100 /\ distance_m s = 0)
    /\ (endCondition leaf_distance_no_value = None ->
        duration_seconds s = None
        /\ match endConditionValue leaf_distance_no_value with
           | Some v => int_of_float v = Ok (distance_m s)
           | None => distance_m s = 100
           end).
Proof. apply (absent_end_value_reads_100 leaf_distance_no_value 0). reflexivity. Defined.

(** The three cases of C10 on concrete steps. *)
Lemma absent_end_value_examples :
  (exists s, convert_garmin_step leaf_distance_no_value 0 = Ok (Step s, 1)
             /\ distance_m s = 100 /\ duration_seconds s = None)
  /\ (exists s, convert_garmin_step leaf_rest_no_value 0 = Ok (Step s, 1)
                /\ distance_m s = 0 /\ duration_seconds s = Some 100)
  /\ (exists s, convert_garmin_step leaf_no_condition 0 = Ok (Step s, 1)
                /\ distance_m s = 150 /\ duration_seconds s = None).
Proof. repeat split; eexists; repeat split. Qed.

(** ** The record store: C6, C9 *)

Lemma get_workout_present (k : string) (fs : Files) (w : Workout) :
  fs !! k = Some w -> Workout_ok w = true -> get_workout k fs = Ok (Some w).
Proof. intros Hk Hok. unfold get_workout. rewrite Hk, Hok. reflexivity. Qed.

Lemma get_workout_absent (k : string) (fs : Files) :
  fs !! k = None -> get_workout k fs = Ok None.
Proof. intros Hk. unfold get_workout. rewrite Hk. reflexivity. Qed.

Lemma set_workout_id_ok (w : Workout) (new_id : string) :
  Workout_ok (set_workout_id w new_id) = Workout_ok w.
Proof. reflexivity. Qed.

(** What [replace_workout_id] leaves in the store when the record exists. *)
Lemma replace_workout_id_present (old_id new_id : string) (fs : Files) (w : Workout) :
  fs !! old_id = Some w ->
  Workout_ok w = true ->
  replace_workout_id old_id new_id fs
  = Ok (true, delete old_id (<[new_id := set_workout_id w new_id]> fs)).
Proof.
  intros Hold Hok. unfold replace_workout_id.
  rewrite (get_workout_present _ _ _ Hold Hok), bind_Ok.
  destruct (decide (new_id = old_id)) as [->|Hne].
  - rewrite lookup_insert_eq. reflexivity.
  - rewrite lookup_insert_ne by assumption. rewrite Hold. reflexivity.
Qed.

(** C6: when a valid record exists under [old_id] and [old_id] differs
    from [new_id], [replace_workout_id] succeeds, after which [old_id] is
    not found and [new_id] holds the workout with its id set to [new_id]
    and name, pool length and steps unchanged, every other key being left
    as it was; when no record exists under [old_id] the call fails and
    the store is unchanged; and the call succeeds only on such a valid
    record. *)
Theorem replace_workout_id_moves_record (old_id new_id : string) (fs : Files) :
  (forall w,
     fs !! old_id = Some w -> Workout_ok w = true -> old_id <> new_id ->
     exists fs',
       replace_workout_id old_id new_id fs = Ok (true, fs')
       /\ get_workout old_id fs' = Ok None
       /\ (exists w',
             get_workout new_id fs' = Ok (Some w')
             /\ workout_id w' = new_id
             /\ Models.name w' = Models.name w
             /\ Models.pool_length w' = Models.pool_length w
             /\ Models.steps w' = Models.steps w)
       /\ (forall k, k <> old_id -> k <> new_id -> fs' !! k = fs !! k))
  /\ (fs !! old_id = None ->
      replace_workout_id old_id new_id fs = Ok (false, fs))
  /\ (forall fs',
        replace_workout_id old_id new_id fs = Ok (true, fs') ->
        exists w, fs !! old_id = Some w /\ Workout_ok w = true).
Proof.
  split; [|split].
  - intros w Hold Hok Hne.
    eexists. split; [apply replace_workout_id_present; eassumption|].
    split; [|split].
    + apply get_workout_absent. apply lookup_delete_eq.
    + exists (set_workout_id w new_id). split; [|repeat split].
      apply get_workout_present; [|exact Hok].
      rewrite lookup_delete_ne by assumption. apply lookup_insert_eq.
    + intros k Hk1 Hk2.
      rewrite lookup_delete_ne by congruence.
      rewrite lookup_insert_ne by congruence. reflexivity.
  - intros Hnone. unfold replace_workout_id.
    rewrite (get_workout_absent _ _ Hnone). reflexivity.
  - intros fs'. unfold replace_workout_id, get_workout.
    destruct (fs !! old_id) as [w|]; [|discriminate].
    destruct (Workout_ok w) eqn:Hok; [|discriminate].
    intros _. exists w. split; [reflexivity|exact Hok].
Qed.

(** The statement on the store that holds "old-1": moved to "new-2",
    and a key that is not there. *)
Lemma replace_workout_id_moves_record_witness :
  (exists fs',
     replace_workout_id "old-1" "new-2" files_old_1 = Ok (true, fs')
     /\ get_workout "old-1" fs' = Ok None
     /\ (exists w',
           get_workout "new-2" fs' = Ok (Some w')
           /\ workout_id w' = "new-2"
           /\ Models.name w' = Models.name record_old_1
           /\ Models.pool_length w' = Models.pool_length record_old_1
           /\ Models.steps w' = Models.steps record_old_1)
     /\ (forall k, k <> "old-1" -> k <> "new-2" -> fs' !! k = files_old_1 !! k))
  /\ replace_workout_id "gone" "new-2" files_old_1 = Ok (false, files_old_1).
Proof.
  split.
  - apply (proj1 (replace_workout_id_moves_record "old-1" "new-2" files_old_1)
             record_old_1).
    + reflexivity.
    + reflexivity.
    + discriminate.
  - apply (proj1 (proj2 (replace_workout_id_moves_record "gone" "new-2" files_old_1))).
    reflexivity.
Defined.

(** C9: when a valid record exists under [x], [replace_workout_id x x]
    reports success and leaves no record under [x]: the store is the old
    one with [x] deleted, and a following [get_workout x] finds nothing. *)
Theorem replace_same_id_destroys_record (x : string) (fs : Files) (w : Workout) :
  fs !! x = Some w ->
  Workout_ok w = true ->
  replace_workout_id x x fs = Ok (true, delete x fs)
  /\ get_workout x (delete x fs) = Ok None.
Proof.
  intros Hx Hok. split.
  - rewrite (replace_workout_id_present x x fs w Hx Hok).
    rewrite delete_insert_eq. reflexivity.
  - apply get_workout_absent. apply lookup_delete_eq.
Qed.

(** The statement on the store that holds "old-1". *)
Lemma replace_same_id_destroys_record_witness :
  replace_workout_id "old-1" "old-1" files_old_1 = Ok (true, delete "old-1" files_old_1)
  /\ get_workout "old-1" (delete "old-1" files_old_1) = Ok None.
Proof.
  apply (replace_same_id_destroys_record "old-1" files_old_1 record_old_1).
  - reflexivity.
  - reflexivity.
Defined.

(** ** C7: the upload route *)

Import GarminRoutes.

(** A conversion error ends the route with the world as it was. *)
Lemma upload_conversion_error {Remote : Type}
    (up : GarminConnect.SwimmingWorkout -> Remote -> UploadResult * Remote)
    (del : string -> Remote -> bool * Remote)
    (workout_id : string) (w : World) (workout : Workout) (e : exn) :
  get_workout workout_id (files w) = Ok (Some workout) ->
  workout_to_garmin_dict workout = Raise e ->
  upload_workout up del workout_id w = (HTTPException 400 (ConversionError e), w).
Proof. intros Hget Hconv. unfold upload_workout. rewrite Hget, Hconv. reflexivity. Qed.

(** A failed upload ends the route after the one remote call, the record
    files as they were. *)
Lemma upload_remote_failure {Remote : Type}
    (up : GarminConnect.SwimmingWorkout -> Remote -> UploadResult * Remote)
    (del : string -> Remote -> bool * Remote)
    (workout_id : string) (w : World) (workout : Workout)
    (g : GarminConnect.SwimmingWorkout) (res : UploadResult) (r : Remote) :
  get_workout workout_id (files w) = Ok (Some workout) ->
  workout_to_garmin_dict workout = Ok g ->
  up g (remote w) = (res, r) ->
  success res = false ->
  upload_workout up del workout_id w
  = (HTTPException 400 (UploadError (error res)),
     mkWorld (files w) r (calls w ++ [RemoteUpload g])).
Proof.
  intros Hget Hconv Hup Hfail. unfold upload_workout.
  rewrite Hget, Hconv, Hup, Hfail. reflexivity.
Qed.

Lemma get_workout_Some (k : string) (fs : Files) (w : Workout) :
  get_workout k fs = Ok (Some w) -> fs !! k = Some w /\ Workout_ok w = true.
Proof.
  unfold get_workout. destruct (fs !! k) as [d|]; [|discriminate].
  destruct (Workout_ok d) eqn:E; [|discriminate].
  intros H. inversion H; subst. split; [reflexivity|exact E].
Qed.

(** A successful upload under a new id: remote delete, then the local
    swap, whatever the delete reported. *)
Lemma upload_success_swaps {Remote : Type}
    (up : GarminConnect.SwimmingWorkout -> Remote -> UploadResult * Remote)
    (del : string -> Remote -> bool * Remote)
    (workout_id new_id : string) (w : World) (workout : Workout)
    (g : GarminConnect.SwimmingWorkout) (res : UploadResult) (r r' : Remote) (deleted : bool) :
  get_workout workout_id (files w) = Ok (Some workout) ->
  workout_to_garmin_dict workout = Ok g ->
  up g (remote w) = (res, r) ->
  success res = true ->
  result_workout_id res = Some new_id ->
  workout_id <> "" -> new_id <> "" -> workout_id <> new_id ->
  del workout_id r = (deleted, r') ->
  upload_workout up del workout_id w
  = (Return res,
     mkWorld (delete workout_id (<[new_id := set_workout_id workout new_id]> (files w)))
       r' (calls w ++ [RemoteUpload g; RemoteDelete workout_id;
                       LocalReplace workout_id new_id])).
Proof.
  intros Hget Hconv Hup Hok Hid Hne1 Hne2 Hne Hdel. unfold upload_workout.
  rewrite Hget, Hconv, Hup, Hok, Hid. simpl.
  unfold nonempty.
  apply String.eqb_neq in Hne1, Hne2, Hne. rewrite Hne1, Hne2, Hne. simpl.
  rewrite Hdel.
  apply get_workout_Some in Hget. destruct Hget as [Hlook Hvalid].
  rewrite (replace_workout_id_present _ _ _ _ Hlook Hvalid).
  rewrite <- !app_assoc. reflexivity.
Qed.

(** Every run of the route makes its calls in one of three shapes. *)
Lemma upload_calls_shape {Remote : Type}
    (up : GarminConnect.SwimmingWorkout -> Remote -> UploadResult * Remote)
    (del : string -> Remote -> bool * Remote)
    (workout_id : string) (w : World) :
  let w' := snd (upload_workout up del workout_id w) in
  w' = w
  \/ (exists workout g,
        get_workout workout_id (files w) = Ok (Some workout)
        /\ workout_to_garmin_dict workout = Ok g
        /\ calls w' = calls w ++ [RemoteUpload g]
        /\ files w' = files w)
  \/ (exists workout g new_id,
        get_workout workout_id (files w) = Ok (Some workout)
        /\ workout_to_garmin_dict workout = Ok g
        /\ success (fst (up g (remote w))) = true
        /\ result_workout_id (fst (up g (remote w))) = Some new_id
        /\ calls w' = calls w ++ [RemoteUpload g; RemoteDelete workout_id;
                                  LocalReplace workout_id new_id]).
Proof.
  unfold upload_workout.
  destruct (get_workout workout_id (files w)) as [[workout|]|e] eqn:Hget;
    [|left; reflexivity|left; reflexivity].
  destruct (workout_to_garmin_dict workout) as [g|e] eqn:Hconv;
    [|left; reflexivity].
  destruct (up g (remote w)) as [res r] eqn:Hup.
  destruct (success res) eqn:Hok; simpl.
  - destruct (result_workout_id res) as [new_id|] eqn:Hid.
    + destruct (nonempty workout_id && nonempty new_id
                && negb (String.eqb workout_id new_id)) eqn:Hcond.
      * right; right. exists workout, g, new_id.
        rewrite Hup. simpl. repeat split; try assumption.
        destruct (del workout_id r) as [deleted r']. simpl.
        destruct (replace_workout_id workout_id new_id (files w)) as [[b fs]|e];
          simpl; rewrite <- !app_assoc; reflexivity.
      * right; left. exists workout, g. repeat split; assumption || reflexivity.
    + right; left. exists workout, g. repeat split; assumption || reflexivity.
  - right; left. exists workout, g. repeat split; assumption || reflexivity.
Qed.

(** C7: in the upload route, (1) a conversion error ends the route with
    no remote call made and nothing changed; (2) a failed upload ends it
    after that one call, the record files unchanged; (3) when the upload
    succeeds under a new id, the old remote record is deleted and then the
    local record is moved to the new id, whether or not the remote delete
    succeeded; (4) in every run a local replace is the last of exactly
    three calls, preceded by an upload that reported success. *)
Theorem upload_route_order {Remote : Type}
    (up : GarminConnect.SwimmingWorkout -> Remote -> UploadResult * Remote)
    (del : string -> Remote -> bool * Remote)
    (workout_id : string) (w : World) :
  (forall workout e,
     get_workout workout_id (files w) = Ok (Some workout) ->
     workout_to_garmin_dict workout = Raise e ->
     upload_workout up del workout_id w
     = (HTTPException 400 (ConversionError e), w))
  /\ (forall workout g res r,
        get_workout workout_id (files w) = Ok (Some workout) ->
        workout_to_garmin_dict workout = Ok g ->
        up g (remote w) = (res, r) ->
        success res = false ->
        upload_workout up del workout_id w
        = (HTTPException 400 (UploadError (error res)),
           mkWorld (files w) r (calls w ++ [RemoteUpload g])))
  /\ (forall workout g res r new_id deleted r',
        get_workout workout_id (files w) = Ok (Some workout) ->
        workout_to_garmin_dict workout = Ok g ->
        up g (remote w) = (res, r) ->
        success res = true ->
        result_workout_id res = Some new_id ->
        workout_id <> "" -> new_id <> "" -> workout_id <> new_id ->
        del workout_id r = (deleted, r') ->
        upload_workout up del workout_id w
        = (Return res,
           mkWorld
             (delete workout_id (<[new_id := set_workout_id workout new_id]> (files w)))
             r' (calls w ++ [RemoteUpload g; RemoteDelete workout_id;
                             LocalReplace workout_id new_id])))
  /\ (forall trace old_id new_id,
        calls (snd (upload_workout up del workout_id w)) = calls w ++ trace ->
        In (LocalReplace old_id new_id) trace ->
        exists workout g,
          get_workout workout_id (files w) = Ok (Some workout)
          /\ workout_to_garmin_dict workout = Ok g
          /\ success (fst (up g (remote w))) = true
          /\ trace = [RemoteUpload g; RemoteDelete old_id; LocalReplace old_id new_id]).
Proof.
  split; [|split; [|split]].
  - intros. eapply upload_conversion_error; eassumption.
  - intros. eapply upload_remote_failure; eassumption.
  - intros. eapply upload_success_swaps; eassumption.
  - intros trace old_id new_id Htrace Hin.
    destruct (upload_calls_shape up del workout_id w)
      as [Hsame|[[workout [g [Hget [Hconv [Hcalls _]]]]]
                |[workout [g [n [Hget [Hconv [Hok [_ Hcalls]]]]]]]]].
    + rewrite Hsame in Htrace.
      rewrite <- (app_nil_r (calls w)) in Htrace at 1.
      apply app_inv_head in Htrace. subst trace. destruct Hin.
    + rewrite Hcalls in Htrace. apply app_inv_head in Htrace. subst trace.
      destruct Hin as [Hin|[]]. discriminate.
    + rewrite Hcalls in Htrace. apply app_inv_head in Htrace. subst trace.
      destruct Hin as [Hin|[Hin|[Hin|[]]]]; try discriminate.
      inversion Hin; subst. exists workout, g. repeat split; assumption.
Qed.

(** The first three parts on concrete worlds: a record that cannot be
    converted, a platform that refuses the upload, and a platform that
    accepts it under "new-2" while its delete fails. *)
Lemma upload_route_order_witness :
  upload_workout remote_accepts remote_delete_fails "huge" world_huge
  = (HTTPException 400 (ConversionError OverflowError), world_huge)
  /\ (exists g,
        upload_workout remote_refuses remote_delete_fails "old-1" world_old_1
        = (HTTPException 400 (UploadError (Some "Not authenticated")),
           mkWorld files_old_1 ["old-1"] [RemoteUpload g]))
  /\ (exists g,
        upload_workout remote_accepts remote_delete_fails "old-1" world_old_1
        = (Return (mkUploadResult true (Some "new-2") None),
           mkWorld
             (delete "old-1" (<["new-2" := set_workout_id record_old_1 "new-2"]> files_old_1))
             ["new-2"; "old-1"]
             [RemoteUpload g; RemoteDelete "old-1"; LocalReplace "old-1" "new-2"])).
Proof.
  split; [|split].
  - apply (proj1 (upload_route_order remote_accepts remote_delete_fails
                    "huge" world_huge) record_huge OverflowError).
    + reflexivity.
    + vm_compute. reflexivity.
  - destruct (workout_to_garmin_dict record_old_1) as [g|e] eqn:Hg;
      [|vm_compute in Hg; discriminate].
    exists g.
    apply (proj1 (proj2 (upload_route_order remote_refuses remote_delete_fails
                           "old-1" world_old_1))
             record_old_1 g (mkUploadResult false None (Some "Not authenticated"))
             ["old-1"]).
    + reflexivity.
    + exact Hg.
    + reflexivity.
    + reflexivity.
  - destruct (workout_to_garmin_dict record_old_1) as [g|e] eqn:Hg;
      [|vm_compute in Hg; discriminate].
    exists g.
    apply (proj1 (proj2 (proj2 (upload_route_order remote_accepts remote_delete_fails
                                  "old-1" world_old_1)))
             record_old_1 g (mkUploadResult true (Some "new-2") None)
             ["new-2"; "old-1"] "new-2" false ["new-2"; "old-1"]).
    + reflexivity.
    + exact Hg.
    + reflexivity.
    + reflexivity.
    + reflexivity.
    + discriminate.
    + discriminate.
    + discriminate.
    + reflexivity.
Defined.

(** ** Doubles that hold an int exactly *)

Lemma bitlen_le (a : Z) (b : Z) : 0 <= b -> Z.abs a < 2 ^ b -> bitlen a <= b.
Proof.
  intros Hb Ha. unfold bitlen. destruct (a =? 0) eqn:E; [lia|].
  apply Z.eqb_neq in E.
  assert (Z.log2 (Z.abs a) < b); [|lia].
  apply Z.log2_lt_pow2; lia.
Qed.

Lemma round53_exact (n : Z) : exact_in_double n = true -> round53 n = n.
Proof.
  unfold exact_in_double. intros H. apply Z.ltb_lt in H.
  unfold round53.
  pose proof (bitlen_le n 53 ltac:(lia) H) as Hb.
  destruct (bitlen n - 53 <=? 0) eqn:E; [reflexivity|].
  apply Z.leb_gt in E. lia.
Qed.

Lemma float_of_int_exact (n : Z) :
  exact_in_double n = true -> float_of_int n = Ok (Finite n 0).
Proof.
  intros H. unfold float_of_int. rewrite (round53_exact n H).
  unfold overflows.
  unfold exact_in_double in H. apply Z.ltb_lt in H.
  pose proof (bitlen_le n 53 ltac:(lia) H) as Hb.
  destruct (1024 <? bitlen n + 0) eqn:E; [|reflexivity].
  apply Z.ltb_lt in E. lia.
Qed.

Lemma int_of_float_int (n : Z) : int_of_float (Finite n 0) = Ok n.
Proof. simpl. f_equal. change (2 ^ 0) with 1. lia. Qed.

(** Rounding to 53 bits at most doubles the magnitude. *)
Lemma round53_bound (a : Z) : Z.abs (round53 a) <= 2 * Z.abs a.
Proof.
  unfold round53.
  destruct (bitlen a - 53 <=? 0) eqn:E; [lia|].
  apply Z.leb_gt in E.
  set (k := bitlen a - 53) in *.
  assert (Ha : a <> 0).
  { intros ->. unfold k, bitlen in E. simpl in E. lia. }
  assert (Hk : 0 < 2 ^ k) by (apply Z.pow_pos_nonneg; lia).
  assert (Hlog : 2 ^ k <= Z.abs a).
  { unfold k, bitlen in *. apply Z.eqb_neq in Ha. rewrite Ha in *.
    pose proof (Z.log2_spec (Z.abs a) ltac:(apply Z.eqb_neq in Ha; lia)) as [Hl _].
    etransitivity; [|exact Hl].
    apply Z.pow_le_mono_r; lia. }
  rewrite Z.shiftr_div_pow2 by lia.
  set (q := Z.abs a / 2 ^ k).
  assert (Hq : 0 <= q) by (apply Z.div_pos; lia).
  assert (Hqa : 2 ^ k * q <= Z.abs a) by (apply Z.mul_div_le; lia).
  match goal with |- context [if ?c then q + 1 else q] => destruct c end;
    rewrite Z.shiftl_mul_pow2 by lia; rewrite Z.abs_mul;
    rewrite (Z.abs_eq (_ * 2 ^ k)) by nia;
    assert (Hs : Z.abs (Z.sgn a) = 1) by lia; rewrite Hs; nia.
Qed.

Lemma bitlen_mono (a b : Z) : Z.abs a <= Z.abs b -> bitlen a <= bitlen b.
Proof.
  intros H. unfold bitlen.
  destruct (a =? 0) eqn:Ea; destruct (b =? 0) eqn:Eb.
  - lia.
  - pose proof (Z.log2_nonneg (Z.abs b)). lia.
  - apply Z.eqb_eq in Eb. apply Z.eqb_neq in Ea. lia.
  - pose proof (Z.log2_le_mono (Z.abs a) (Z.abs b) H). lia.
Qed.

(** The duration estimate of an exactly held distance is defined. *)
Lemma estimate_swim_time_defined (d : Z) :
  exact_in_double d = true ->
  exists est, SwimWorkout._estimate_swim_time d = Ok est.
Proof.
  intros H. unfold SwimWorkout._estimate_swim_time, int_mul_float.
  rewrite (float_of_int_exact d H), !bind_Ok.
  unfold fmul, f1_2.
  set (m := round53 (d * 5404319552844595)).
  assert (Hov : overflows m (0 + -52) = false).
  { unfold overflows. apply Z.ltb_ge.
    unfold exact_in_double in H. apply Z.ltb_lt in H.
    assert (Hm : Z.abs m < 2 ^ 107).
    { pose proof (round53_bound (d * 5404319552844595)) as Hb. fold m in Hb.
      rewrite Z.abs_mul in Hb.
      change (Z.abs 5404319552844595) with 5404319552844595 in Hb.
      assert (2 ^ 53 * (2 * 5404319552844595) < 2 ^ 107) by (vm_compute; reflexivity).
      nia. }
    pose proof (bitlen_le m 107 ltac:(lia) Hm). lia. }
  rewrite Hov. eexists. reflexivity.
Qed.

Lemma step_estimate_spec (d : Z) :
  exact_in_double d = true ->
  SwimWorkout._estimate_swim_time d
  = Ok (match SwimWorkout._estimate_swim_time d with Ok est => est | Raise _ => 0 end).
Proof.
  intros H. destruct (estimate_swim_time_defined d H) as [est ->]. reflexivity.
Qed.

(** ** Domain to wire, step by step *)

Lemma add_step_image (b : SwimWorkout.SwimWorkoutBuilder) (s : WorkoutStep) :
  step_exact s = true ->
  add_step b s
  = Ok (SwimWorkout.mkBuilder (SwimWorkout.name b) (SwimWorkout.pool_length b)
          (SwimWorkout.steps b ++ [wire_of_step (SwimWorkout._step_order b + 1) s])
          (SwimWorkout._step_order b + 1)
          (SwimWorkout._estimated_duration b + step_estimate s)).
Proof.
  unfold step_exact, add_step, wire_of_step, step_estimate. intros Hex.
  destruct (step_type s);
    unfold SwimWorkout.warmup, SwimWorkout.cooldown, SwimWorkout.swim, SwimWorkout.rest;
    try rewrite (step_estimate_spec _ Hex);
    try fold (rest_seconds s);
    rewrite ?bind_Ok; simpl;
    rewrite (float_of_int_exact _ Hex); reflexivity.
Qed.

Lemma add_steps_image (l : list WorkoutStep) (b : SwimWorkout.SwimWorkoutBuilder) :
  forallb step_exact l = true ->
  add_steps b l
  = Ok (SwimWorkout.mkBuilder (SwimWorkout.name b) (SwimWorkout.pool_length b)
          (SwimWorkout.steps b ++ wires_of_steps (SwimWorkout._step_order b + 1) l)
          (SwimWorkout._step_order b + Z.of_nat (length l))
          (SwimWorkout._estimated_duration b + sum_estimates l)).
Proof.
  revert b. induction l as [|s l IH]; intros b Hex; simpl.
  - destruct b; simpl. rewrite app_nil_r, !Z.add_0_r. reflexivity.
  - simpl in Hex. apply andb_true_iff in Hex. destruct Hex as [Hs Hl].
    rewrite (add_step_image b s Hs), bind_Ok. rewrite (IH _ Hl). simpl.
    rewrite <- app_assoc. simpl. f_equal. f_equal.
    + lia.
    + unfold sum_estimates. simpl. lia.
Qed.

Lemma add_entry_image (b : SwimWorkout.SwimWorkoutBuilder) (e : Entry) :
  entry_exact e = true ->
  add_entry b e
  = Ok (SwimWorkout.mkBuilder (SwimWorkout.name b) (SwimWorkout.pool_length b)
          (SwimWorkout.steps b ++ [wire_of_entry (SwimWorkout._step_order b + 1) e])
          (SwimWorkout._step_order b + 1)
          (SwimWorkout._estimated_duration b + entry_estimate e)).
Proof.
  destruct e as [s|g]; simpl; intros Hex.
  - apply add_step_image. exact Hex.
  - apply andb_true_iff in Hex. destruct Hex as [Hn Hl].
    unfold SwimWorkout.repeat.
    rewrite (add_steps_image _ _ Hl), bind_Ok. simpl.
    rewrite (float_of_int_exact _ Hn), bind_Ok. reflexivity.
Qed.

Lemma add_entries_image (l : list Entry) (b : SwimWorkout.SwimWorkoutBuilder) :
  forallb entry_exact l = true ->
  exists order duration,
    add_entries b l
    = Ok (SwimWorkout.mkBuilder (SwimWorkout.name b) (SwimWorkout.pool_length b)
            (SwimWorkout.steps b ++ wires_of_entries (SwimWorkout._step_order b + 1) l)
            order duration).
Proof.
  revert b. induction l as [|e l IH]; intros b Hex; simpl.
  - exists (SwimWorkout._step_order b), (SwimWorkout._estimated_duration b).
    destruct b; simpl. rewrite app_nil_r. reflexivity.
  - simpl in Hex. apply andb_true_iff in Hex. destruct Hex as [He Hl].
    rewrite (add_entry_image b e He), bind_Ok.
    destruct (IH (SwimWorkout.mkBuilder (SwimWorkout.name b) (SwimWorkout.pool_length b)
                    (SwimWorkout.steps b ++ [wire_of_entry (SwimWorkout._step_order b + 1) e])
                    (SwimWorkout._step_order b + 1)
                    (SwimWorkout._estimated_duration b + entry_estimate e)) Hl)
      as [order [duration Hrec]].
    exists order, duration. rewrite Hrec. simpl.
    rewrite <- app_assoc. reflexivity.
Qed.

(** ** Wire to domain on the steps the builder wrote *)

Lemma convert_wire_of_step (order : Z) (s : WorkoutStep) (c : Z) :
  WorkoutStep_ok s = true ->
  convert_garmin_step (wire_of_step order s) c = Ok (Step (step_back (c + 1) s), c + 1).
Proof.
  unfold WorkoutStep_ok. intros Hok.
  apply andb_true_iff in Hok. destruct Hok as [Hdist Hzone].
  assert (Hz : zone_ok (if truthy (zone s) then zone s else None) = true).
  { destruct (truthy (zone s)); [exact Hzone|reflexivity]. }
  unfold wire_of_step, step_back.
  destruct (step_type s); destruct (stroke s);
    cbn -[step_name int_of_float Z.leb zone_ok WorkoutStep_new];
    rewrite ?int_of_float_int;
    cbn -[step_name int_of_float Z.leb zone_ok WorkoutStep_new];
    unfold WorkoutStep_new, WorkoutStep_ok;
    cbn -[step_name int_of_float Z.leb zone_ok];
    rewrite ?Hdist, ?Hz, ?Z.leb_refl; reflexivity.
Qed.

Lemma convert_set_stepOrder (i : Z) (g : GStep) (c : Z) :
  convert_garmin_step (SwimWorkout.set_stepOrder i g) c = convert_garmin_step g c.
Proof. destruct g; reflexivity. Qed.

Lemma convert_renumber (l : list GStep) (i c : Z) :
  convert_garmin_steps (SwimWorkout.renumber i l) c = convert_garmin_steps l c.
Proof.
  revert i c. induction l as [|g l IH]; intros i c; [reflexivity|].
  cbn [SwimWorkout.renumber convert_garmin_steps].
  rewrite convert_set_stepOrder.
  destruct (convert_garmin_step g c) as [[e c']|]; [|reflexivity].
  rewrite !bind_Ok. rewrite IH. reflexivity.
Qed.

Lemma convert_wires_of_steps (l : list WorkoutStep) (order c : Z) :
  forallb WorkoutStep_ok l = true ->
  convert_garmin_steps (wires_of_steps order l) c
  = Ok (map Step (steps_back (c + 1) l), c + Z.of_nat (length l)).
Proof.
  revert order c. induction l as [|s l IH]; intros order c Hok.
  - simpl. rewrite Z.add_0_r. reflexivity.
  - simpl in Hok. apply andb_true_iff in Hok. destruct Hok as [Hs Hl].
    cbn [wires_of_steps convert_garmin_steps].
    rewrite (convert_wire_of_step order s c Hs), bind_Ok.
    rewrite (IH (order + 1) (c + 1) Hl), bind_Ok.
    cbn [steps_back map length]. f_equal. f_equal. lia.
Qed.

Lemma as_workout_steps_map (l : list WorkoutStep) :
  as_workout_steps (map Step l) = Ok l.
Proof. induction l as [|s l IH]; simpl; [reflexivity|]. rewrite IH. reflexivity. Qed.

(** The repeat branch of [convert_garmin_step], with its inner loop
    written as [convert_garmin_steps]. *)
Lemma convert_garmin_step_group (g : GStep) (c : Z) :
  read_step_type_id g = 6 ->
  convert_garmin_step g c
  = ('(inner_steps, c') ← convert_garmin_steps (default [] (workoutSteps g)) (c + 1);
     group ← RepeatGroup_new (step_name (c + 1))
               (default 1 (numberOfIterations g)) inner_steps;
     Ok (Group group, c')).
Proof.
  intros Hrep. destruct g as [o st ec ev u tt sk d z n ws sr].
  unfold read_step_type_id in Hrep. simpl in Hrep.
  cbn [convert_garmin_step]. rewrite Hrep. rewrite Z.eqb_refl.
  destruct ws as [l|]; reflexivity.
Qed.

Lemma convert_wire_of_group (order : Z) (g : RepeatGroup) (c : Z) :
  RepeatGroup_ok g = true ->
  convert_garmin_step (wire_of_group order g) c
  = Ok (entry_back (c + 1) (Group g), c + entry_size (Group g)).
Proof.
  unfold RepeatGroup_ok. intros Hok.
  apply andb_true_iff in Hok. destruct Hok as [Hn Hl].
  rewrite convert_garmin_step_group by reflexivity.
  unfold wire_of_group. cbn [workoutSteps numberOfIterations default id].
  rewrite convert_renumber, (convert_wires_of_steps _ _ _ Hl), bind_Ok.
  unfold RepeatGroup_new. rewrite Hn, as_workout_steps_map, !bind_Ok.
  cbn [entry_back entry_size]. f_equal. f_equal. lia.
Qed.

Lemma convert_wire_of_entry (order : Z) (e : Entry) (c : Z) :
  Entry_ok e = true ->
  convert_garmin_step (wire_of_entry order e) c
  = Ok (entry_back (c + 1) e, c + entry_size e).
Proof.
  destruct e as [s|g]; intros Hok.
  - apply convert_wire_of_step. exact Hok.
  - apply convert_wire_of_group. exact Hok.
Qed.

Lemma convert_wires_of_entries (l : list Entry) (order c : Z) :
  forallb Entry_ok l = true ->
  convert_garmin_steps (wires_of_entries order l) c
  = Ok (entries_back (c + 1) l, c + entries_size l).
Proof.
  revert order c. induction l as [|e l IH]; intros order c Hok.
  - simpl. unfold entries_size. simpl. rewrite Z.add_0_r. reflexivity.
  - simpl in Hok. apply andb_true_iff in Hok. destruct Hok as [He Hl].
    cbn [wires_of_entries convert_garmin_steps].
    rewrite (convert_wire_of_entry order e c He), bind_Ok.
    rewrite (IH (order + 1) (c + entry_size e) Hl), bind_Ok.
    cbn [entries_back]. unfold entries_size. cbn [map Spec.sum_Z fold_right].
    replace (c + entry_size e + 1) with (c + 1 + entry_size e) by lia.
    f_equal. f_equal. unfold Spec.sum_Z. lia.
Qed.

(** ** C2: the round trip *)

Lemma prefix_short (n : nat) (s : string) :
  (String.length s <= n)%nat -> prefix n s = s.
Proof.
  unfold prefix. revert n. induction s as [|a s IH]; intros n Hn.
  - destruct n; reflexivity.
  - destruct n as [|n]; simpl in Hn; [lia|].
    simpl. rewrite IH by lia. reflexivity.
Qed.

(** The round trip of a valid workout whose ints fit a double, in full. *)
Lemma roundtrip_image (w : Workout) :
  Workout_ok w = true ->
  workout_exact w = true ->
  roundtrip w = Ok (workout_back w).
Proof.
  unfold Workout_ok, workout_exact. intros Hok Hex.
  apply andb_true_iff in Hok. destruct Hok as [Hname Hsteps].
  apply Nat.leb_le in Hname.
  unfold roundtrip, workout_to_garmin_dict.
  destruct (add_entries_image (Models.steps w)
              (SwimWorkout.init (Models.name w) (Models.pool_length w)) Hex)
    as [order [duration Hadd]].
  rewrite Hadd, !bind_Ok. clear Hadd.
  unfold garmin_to_workout, GarminConnect.to_dict, GarminConnect.segment_to_dict,
    SwimWorkout.build, SwimWorkout.init.
  cbn [workoutId workoutName poolLength workoutSegments segmentSteps default
       GarminConnect.workoutName GarminConnect.poolLength
       GarminConnect.workoutSegments GarminConnect.segmentSteps
       GarminConnect.segmentOrder GarminConnect.segmentSportType map
       SwimWorkout.name SwimWorkout.pool_length SwimWorkout.steps
       SwimWorkout._step_order app id].
  rewrite (convert_wires_of_entries _ _ _ Hsteps), !bind_Ok.
  rewrite (prefix_short 80 _ Hname).
  unfold Workout_new. apply Nat.leb_le in Hname. rewrite Hname. reflexivity.
Qed.

Lemma step_back_kept (n : Z) (s : WorkoutStep) : step_kept s (step_back n s).
Proof.
  unfold step_kept, step_back.
  destruct (step_type s); simpl; repeat split; try congruence; reflexivity.
Qed.

Lemma steps_back_kept (l : list WorkoutStep) (n : Z) :
  Forall2 step_kept l (steps_back n l).
Proof.
  revert n. induction l as [|s l IH]; intros n; simpl; constructor.
  - apply step_back_kept.
  - apply IH.
Qed.

Lemma entries_back_kept (l : list Entry) (n : Z) :
  Forall2 entry_kept l (entries_back n l).
Proof.
  revert n. induction l as [|e l IH]; intros n; simpl; constructor.
  - destruct e as [s|g]; simpl.
    + apply step_back_kept.
    + split; [reflexivity|apply steps_back_kept].
  - apply IH.
Qed.

(** Handed the object that [workout_to_garmin_dict] returns,
    [garmin_to_workout] raises AttributeError: the composition as written
    returns no workout, whatever the workout. *)
Lemma roundtrip_as_written_raises (w : Workout) :
  is_ok (roundtrip_as_written w) = false
  /\ (forall o, workout_to_garmin_dict w = Ok o ->
                roundtrip_as_written w = Raise AttributeError).
Proof.
  unfold roundtrip_as_written.
  destruct (workout_to_garmin_dict w) as [o|e]; split; try reflexivity.
  intros o' H. discriminate.
Qed.

(** C2: (counterexample to the claim as stated) on a workout of one
    RECOVERY step the composition as written,
    [garmin_to_workout(workout_to_garmin_dict(W))], raises AttributeError
    and yields no workout; and with [to_dict()] between the two calls the
    step comes back of kind INTERVAL, so the steps are not the same step
    for step. *)
Lemma recovery_comes_back_interval :
  roundtrip_as_written recovery_workout = Raise AttributeError
  /\ exists w',
       roundtrip recovery_workout = Ok w'
       /\ (exists s', steps w' = [Step s'] /\ step_type s' = INTERVAL)
       /\ ~ Forall2 Spec.entry_same (steps recovery_workout) (steps w').
Proof.
  split; [vm_compute; reflexivity|].
  eexists. split; [vm_compute; reflexivity|]. split.
  - eexists. split; reflexivity.
  - intros H. inversion H as [|e e' l l' He _]; subst.
    destruct He as [Hkind _]. discriminate.
Qed.

(** C2: (amended) for every valid Workout whose distances, rest seconds
    and iteration counts fit a double exactly: [workout_to_garmin_dict]
    returns a SwimmingWorkout object, on which [garmin_to_workout] raises
    AttributeError; with the object dumped by [to_dict()] first,
    [garmin_to_workout(workout_to_garmin_dict(W).to_dict())] succeeds and
    gives a workout with the same name and pool length whose entries
    match the original's in order: a group comes back as a group with the
    same iteration count and its children in order; a step keeps its
    kind, except that RECOVERY comes back as INTERVAL; a step that is not
    a REST keeps stroke and distance; a REST step comes back with the
    duration [duration_seconds or 30]. *)
Theorem roundtrip_keeps_structure (w : Workout) :
  Workout_ok w = true ->
  workout_exact w = true ->
  roundtrip_as_written w = Raise AttributeError
  /\ exists w',
       roundtrip w = Ok w'
       /\ Models.name w' = Models.name w
       /\ Models.pool_length w' = Models.pool_length w
       /\ Forall2 entry_kept (steps w) (steps w').
Proof.
  intros Hok Hex.
  pose proof (roundtrip_image w Hok Hex) as Himage. split.
  - unfold roundtrip in Himage.
    destruct (workout_to_garmin_dict w) as [o|e] eqn:Ho; [|discriminate].
    apply (proj2 (roundtrip_as_written_raises w) o Ho).
  - exists (workout_back w). split; [exact Himage|].
    repeat split. apply entries_back_kept.
Qed.

(** The amended statement at the workout of four times 100 metres. *)
Lemma roundtrip_keeps_structure_witness :
  roundtrip_as_written four_by_100 = Raise AttributeError
  /\ exists w',
       roundtrip four_by_100 = Ok w'
       /\ Models.name w' = Models.name four_by_100
       /\ Models.pool_length w' = Models.pool_length four_by_100
       /\ Forall2 entry_kept (steps four_by_100) (steps w').
Proof. apply (roundtrip_keeps_structure four_by_100); reflexivity. Defined.

(** What the hypotheses and the exceptions of the amended C2 are there
    for: a distance beyond 2^53 comes back rounded, and a REST step comes
    back as a freestyle rest of 30 seconds without distance. *)
Lemma roundtrip_examples :
  (exists w' s',
     roundtrip workout_2_53_1 = Ok w'
     /\ steps w' = [Step s'] /\ distance_m s' = 2 ^ 53)
  /\ (exists w' s',
        roundtrip (mkWorkout "w" "Rest" f25_0 [Step rest_backstroke]) = Ok w'
        /\ steps w' = [Step s']
        /\ stroke s' = FREESTYLE /\ distance_m s' = 0
        /\ duration_seconds s' = Some 30).
Proof.
  split.
  - eexists. eexists. split; [vm_compute; reflexivity|]. split; reflexivity.
  - eexists. eexists. split; [vm_compute; reflexivity|]. repeat split.
Qed.

(** ** The builder's duration estimate and the templates *)

Lemma rest_adds_seconds (seconds : Z) (desc : option string)
    (b b' : SwimWorkout.SwimWorkoutBuilder) :
  SwimWorkout.rest seconds desc b = Ok b' ->
  SwimWorkout._estimated_duration b' = SwimWorkout._estimated_duration b + seconds.
Proof.
  unfold SwimWorkout.rest. simpl.
  destruct (float_of_int seconds); simpl; intros H; inversion H. reflexivity.
Qed.

Lemma repeat_adds_times_inner (times : Z)
    (steps_fn : SwimWorkout.SwimWorkoutBuilder -> result SwimWorkout.SwimWorkoutBuilder)
    (b b' inner : SwimWorkout.SwimWorkoutBuilder) :
  steps_fn (SwimWorkout.with_step_order
              (SwimWorkout.init (SwimWorkout.name b) (SwimWorkout.pool_length b)) 0)
  = Ok inner ->
  SwimWorkout.repeat times steps_fn b = Ok b' ->
  SwimWorkout._estimated_duration b'
  = SwimWorkout._estimated_duration b + SwimWorkout._estimated_duration inner * times.
Proof.
  unfold SwimWorkout.repeat. intros Hinner. rewrite Hinner, bind_Ok. simpl.
  destruct (float_of_int times); simpl; intros H; inversion H. reflexivity.
Qed.

(** Materialising the scenario's builder writes the rest's 20 seconds
    into [distance_m]; the total distance then counts them four times. *)
Lemma template_rest_counts_as_distance :
  exists w,
    (b ← scenario_builder; builder_to_workout "template:test" b) = Ok w
    /\ total_distance w = 980
    /\ Spec.total_distance w = 900.
Proof. eexists. split; [vm_compute; reflexivity|]. split; reflexivity. Qed.

(** * Further properties of the code *)

(** ** Inverting the result monad *)

Lemma bind_Ok_inv {A B} (m : result A) (f : A -> result B) (b : B) :
  (m ≫= f) = Ok b -> exists a, m = Ok a /\ f a = Ok b.
Proof. destruct m as [a|e]; [|discriminate]. intros H. exists a. split; [reflexivity|exact H]. Qed.

Lemma as_workout_steps_inv (l : list Entry) (children : list WorkoutStep) :
  as_workout_steps l = Ok children -> l = map Step children.
Proof.
  revert children. induction l as [|e l IH]; intros children H; simpl in H.
  - inversion H. reflexivity.
  - destruct e as [s|g]; [|discriminate].
    apply bind_Ok_inv in H. destruct H as [r [Hr H]]. inversion H; subst.
    simpl. f_equal. apply IH. exact Hr.
Qed.

Lemma WorkoutStep_new_inv (s s' : WorkoutStep) :
  WorkoutStep_new s = Ok s' -> s' = s /\ WorkoutStep_ok s = true.
Proof.
  unfold WorkoutStep_new. destruct (WorkoutStep_ok s); [|discriminate].
  intros H. inversion H. split; reflexivity.
Qed.

(** ** Wire to domain: what every successful conversion gives *)

Lemma convert_leaf_inv (id : string) (tid : Z) (g : GStep) (s : WorkoutStep) :
  convert_leaf id tid g = Ok s ->
  step_id s = id /\ WorkoutStep_ok s = true /\ equipment s = Equipment_default
  /\ zone s = zoneNumber g /\ Models.description s = Wire.description g.
Proof.
  unfold convert_leaf. intros H.
  apply bind_Ok_inv in H. destruct H as [t [_ H]].
  apply bind_Ok_inv in H. destruct H as [k [_ H]].
  apply bind_Ok_inv in H. destruct H as [d [_ H]].
  apply bind_Ok_inv in H. destruct H as [u [_ H]].
  apply WorkoutStep_new_inv in H. destruct H as [-> Hok].
  repeat split. exact Hok.
Qed.

(** A successful conversion of one wire step gives either a leaf step,
    taking one id, or a group whose children are leaf steps. *)
Lemma convert_garmin_step_inv (g : GStep) (c : Z) (e : Entry) (c' : Z) :
  convert_garmin_step g c = Ok (e, c') ->
  (read_step_type_id g <> 6 /\ c' = c + 1
   /\ exists s, e = Step s /\ step_id s = step_name (c + 1)
                /\ WorkoutStep_ok s = true /\ equipment s = Equipment_default)
  \/ (read_step_type_id g = 6
      /\ exists grp,
           e = Group grp
           /\ convert_garmin_steps (default [] (workoutSteps g)) (c + 1)
              = Ok (map Step (group_steps grp), c')
           /\ group_id grp = step_name (c + 1)
           /\ iterations grp = default 1 (numberOfIterations g)
           /\ 1 <= iterations grp).
Proof.
  intros H. destruct (Z.eq_dec (read_step_type_id g) 6) as [Hrep|Hleaf].
  - right. split; [exact Hrep|].
    rewrite (convert_garmin_step_group g c Hrep) in H.
    apply bind_Ok_inv in H. destruct H as [[inner c1] [Hinner H]].
    apply bind_Ok_inv in H. destruct H as [grp [Hgrp H]].
    inversion H; subst. exists grp.
    unfold RepeatGroup_new in Hgrp.
    destruct (1 <=? default 1 (numberOfIterations g)) eqn:Hn; [|discriminate].
    apply bind_Ok_inv in Hgrp. destruct Hgrp as [children [Hch Hgrp]].
    inversion Hgrp; subst. simpl.
    apply as_workout_steps_inv in Hch. subst inner.
    repeat split; try assumption. apply Z.leb_le. exact Hn.
  - left. split; [exact Hleaf|].
    rewrite (convert_garmin_step_leaf g c Hleaf) in H.
    apply bind_Ok_inv in H. destruct H as [s [Hs H]].
    inversion H; subst. split; [reflexivity|]. exists s.
    apply convert_leaf_inv in Hs. destruct Hs as [Hid [Hok [Heq _]]].
    repeat split; assumption.
Qed.

Lemma convert_garmin_steps_cons_inv (g : GStep) (l : list GStep) (c : Z)
    (es : list Entry) (c' : Z) :
  convert_garmin_steps (g :: l) c = Ok (es, c') ->
  exists e c1 es',
    convert_garmin_step g c = Ok (e, c1)
    /\ convert_garmin_steps l c1 = Ok (es', c')
    /\ es = e :: es'.
Proof.
  cbn [convert_garmin_steps]. intros H.
  apply bind_Ok_inv in H. destruct H as [[e c1] [He H]].
  apply bind_Ok_inv in H. destruct H as [[es' c2] [Hes H]].
  inversion H; subst. exists e, c1, es'. repeat split; assumption.
Qed.

(** The children of a converted group: leaf steps with consecutive ids. *)
Lemma converted_children (l : list GStep) (c : Z) (ss : list WorkoutStep) (c' : Z) :
  convert_garmin_steps l c = Ok (map Step ss, c') ->
  c <= c'
  /\ map step_id ss = map step_name (seqZ (c + 1) (c' - c))
  /\ forallb WorkoutStep_ok ss = true
  /\ Forall (fun s => equipment s = Equipment_default) ss.
Proof.
  revert c ss. induction l as [|g l IH]; intros c ss H.
  - simpl in H. inversion H as [[Hss Hc]]. destruct ss; [|discriminate].
    rewrite Z.sub_diag. repeat split; [lia|constructor].
  - apply convert_garmin_steps_cons_inv in H.
    destruct H as [e [c1 [es' [He [Hes Heq]]]]].
    destruct ss as [|s ss]; [discriminate|]. simpl in Heq.
    inversion Heq; subst e es'.
    apply convert_garmin_step_inv in He.
    destruct He as [[_ [-> [s0 [Hs0 [Hid [Hok Hequip]]]]]]
                   |[_ [grp [Hgrp _]]]]; [|discriminate].
    inversion Hs0; subst s0.
    destruct (IH _ _ Hes) as [Hle [Hids [Hoks Heqs]]].
    split; [lia|]. split; [|split].
    + rewrite seqZ_cons by lia. simpl. rewrite Hid. f_equal.
      rewrite Hids. f_equal. f_equal; lia.
    + simpl. rewrite Hok, Hoks. reflexivity.
    + constructor; assumption.
Qed.

(** One converted entry: its ids are the next ones, and it is valid. *)
Lemma converted_entry (g : GStep) (c : Z) (e : Entry) (c' : Z) :
  convert_garmin_step g c = Ok (e, c') ->
  c < c'
  /\ entry_ids e = map step_name (seqZ (c + 1) (c' - c))
  /\ Entry_ok e = true.
Proof.
  intros H. apply convert_garmin_step_inv in H.
  destruct H as [[_ [-> [s [-> [Hid [Hok _]]]]]]
                |[_ [grp [-> [Hinner [Hid [_ Hn]]]]]]].
  - split; [lia|]. split; [|exact Hok].
    replace (c + 1 - c) with 1 by lia. simpl. rewrite Hid. reflexivity.
  - apply converted_children in Hinner.
    destruct Hinner as [Hle [Hids [Hoks _]]].
    split; [lia|]. split.
    + rewrite (seqZ_cons (c + 1)) by lia. simpl. rewrite Hid. f_equal.
      rewrite Hids. f_equal. f_equal; lia.
    + simpl. unfold RepeatGroup_ok. rewrite Hoks.
      apply Z.leb_le in Hn. rewrite Hn. reflexivity.
Qed.

Lemma converted_entries (l : list GStep) (c : Z) (es : list Entry) (c' : Z) :
  convert_garmin_steps l c = Ok (es, c') ->
  c <= c'
  /\ concat (map entry_ids es) = map step_name (seqZ (c + 1) (c' - c))
  /\ forallb Entry_ok es = true.
Proof.
  revert c es. induction l as [|g l IH]; intros c es H.
  - simpl in H. inversion H; subst. rewrite Z.sub_diag.
    repeat split. lia.
  - apply convert_garmin_steps_cons_inv in H.
    destruct H as [e [c1 [es' [He [Hes ->]]]]].
    apply converted_entry in He. destruct He as [Hlt [Hids Hok]].
    destruct (IH _ _ Hes) as [Hle [Hids' Hoks]].
    split; [lia|]. split.
    + simpl. rewrite Hids, Hids'.
      replace (c' - c) with ((c1 - c) + (c' - c1)) by lia.
      rewrite seqZ_app by lia. rewrite map_app. f_equal. f_equal. f_equal. lia.
    + simpl. rewrite Hok, Hoks. reflexivity.
Qed.

(** ** Step ids *)

Lemma to_int_not_nil (z : Z) :
  Z.to_int z <> Decimal.Pos Decimal.Nil /\ Z.to_int z <> Decimal.Neg Decimal.Nil.
Proof.
  assert (H : Z.to_int z = Decimal.norm (Z.to_int z)).
  { rewrite <- DecimalZ.to_of, DecimalZ.of_to. reflexivity. }
  rewrite H. destruct (Z.to_int z) as [d|d]; simpl.
  - split; [|discriminate]. intros E. inversion E as [E'].
    apply (DecimalFacts.unorm_nonnil d). exact E'.
  - destruct (Decimal.nzhead d) eqn:E; split; discriminate.
Qed.

Lemma str_inj (a b : Z) : str a = str b -> a = b.
Proof.
  unfold str. intros H.
  apply (f_equal NilZero.int_of_string) in H.
  destruct (to_int_not_nil a) as [Ha1 Ha2].
  destruct (to_int_not_nil b) as [Hb1 Hb2].
  rewrite !NilZero.isi in H by assumption.
  inversion H as [H'].
  rewrite <- (DecimalZ.of_to a), <- (DecimalZ.of_to b), H'. reflexivity.
Qed.

Lemma step_name_inj (a b : Z) : step_name a = step_name b -> a = b.
Proof.
  unfold step_name. simpl. intros H. inversion H. apply str_inj. assumption.
Qed.

Lemma NoDup_step_names (m n : Z) : NoDup (map step_name (seqZ m n)).
Proof.
  change (NoDup (step_name <$> seqZ m n)).
  apply NoDup_fmap_2_strong; [|apply NoDup_seqZ].
  intros a b _ _ H. apply step_name_inj. exact H.
Qed.

Lemma garmin_to_workout_inv (g : GarminWorkout) (w : Workout) :
  garmin_to_workout g = Ok w ->
  ((default [] (workoutSegments g) = [] /\ steps w = [])
   \/ exists seg rest c',
        default [] (workoutSegments g) = seg :: rest
        /\ convert_garmin_steps (default [] (segmentSteps seg)) 0 = Ok (steps w, c'))
  /\ (String.length (Models.name w) <= 80)%nat.
Proof.
  unfold garmin_to_workout. intros H.
  apply bind_Ok_inv in H. destruct H as [es [Hes H]].
  unfold Workout_new in H.
  destruct (String.length (default "Unnamed Workout" (workoutName g)) <=? 80)%nat
    eqn:Hname; [|discriminate].
  inversion H; subst. simpl. split; [|apply Nat.leb_le; exact Hname].
  destruct (default [] (workoutSegments g)) as [|seg rest].
  - left. inversion Hes. split; reflexivity.
  - right. apply bind_Ok_inv in Hes. destruct Hes as [[es' c'] [Hconv Hes]].
    inversion Hes; subst. exists seg, rest, c'. split; [reflexivity|exact Hconv].
Qed.

(** X1: every workout that [garmin_to_workout] returns has its step ids
    "step-1", "step-2", ... in pre-order (a group's id before its
    children's), so that no two steps of it share an id. *)
Theorem imported_ids_consecutive (g : GarminWorkout) (w : Workout) :
  garmin_to_workout g = Ok w ->
  workout_ids w = map step_name (seqZ 1 (Z.of_nat (length (workout_ids w))))
  /\ NoDup (workout_ids w).
Proof.
  intros H. apply garmin_to_workout_inv in H. destruct H as [H _].
  assert (Hids : exists n, 0 <= n /\ workout_ids w = map step_name (seqZ 1 n)).
  { unfold workout_ids. destruct H as [[_ ->]|[seg [rest [c' [_ Hconv]]]]].
    - exists 0. split; [lia|reflexivity].
    - apply converted_entries in Hconv. destruct Hconv as [Hle [Hids _]].
      exists (c' - 0). split; [lia|exact Hids]. }
  destruct Hids as [n [Hn Hids]].
  assert (Hlen : Z.of_nat (length (workout_ids w)) = n).
  { rewrite Hids, length_map, length_seqZ. lia. }
  rewrite Hlen. split; [exact Hids|]. rewrite Hids. apply NoDup_step_names.
Qed.

(** The statement on a wire workout of a leaf, a group of two and a leaf. *)
Lemma imported_ids_consecutive_witness :
  exists w,
    garmin_to_workout wire_imported = Ok w
    /\ workout_ids w = ["step-1"; "step-2"; "step-3"; "step-4"; "step-5"]
    /\ workout_ids w = map step_name (seqZ 1 (Z.of_nat (length (workout_ids w))))
    /\ NoDup (workout_ids w).
Proof.
  eexists. split; [vm_compute; reflexivity|]. split; [reflexivity|].
  apply (imported_ids_consecutive wire_imported). vm_compute. reflexivity.
Defined.

Lemma garmin_to_workout_ok (g : GarminWorkout) (w : Workout) :
  garmin_to_workout g = Ok w -> Workout_ok w = true.
Proof.
  intros H. apply garmin_to_workout_inv in H. destruct H as [H Hname].
  unfold Workout_ok. apply Nat.leb_le in Hname. rewrite Hname. simpl.
  destruct H as [[_ ->]|[seg [rest [c' [_ Hconv]]]]]; [reflexivity|].
  apply converted_entries in Hconv. apply Hconv.
Qed.

(** X2: every workout that [garmin_to_workout] returns satisfies the field
    constraints of the model (name at most 80 characters, distances not
    negative, zones in 1..5, iterations at least 1): written under its id,
    it is read back by [get_workout]. *)
Theorem imported_workout_valid (g : GarminWorkout) (w : Workout) (fs : Files) :
  garmin_to_workout g = Ok w ->
  Workout_ok w = true
  /\ get_workout (workout_id w) (<[workout_id w := w]> fs) = Ok (Some w).
Proof.
  intros H. pose proof (garmin_to_workout_ok g w H) as Hok.
  split; [exact Hok|].
  apply get_workout_present; [apply lookup_insert_eq|exact Hok].
Qed.

Lemma imported_workout_valid_witness :
  exists w,
    garmin_to_workout wire_imported = Ok w
    /\ Workout_ok w = true
    /\ get_workout (workout_id w) (<[workout_id w := w]> files_old_1) = Ok (Some w).
Proof.
  eexists. split; [vm_compute; reflexivity|].
  apply (imported_workout_valid wire_imported _ files_old_1).
  vm_compute. reflexivity.
Defined.

(** ** Wire steps that no conversion accepts *)

Lemma convert_garmin_steps_refused (l : list GStep) (g : GStep) :
  In g l ->
  (forall c, is_ok (convert_garmin_step g c) = false) ->
  forall c, is_ok (convert_garmin_steps l c) = false.
Proof.
  intros Hin Hg. induction l as [|x l IH]; intros c; [destruct Hin|].
  cbn [convert_garmin_steps].
  destruct (convert_garmin_step x c) as [[e c1]|err] eqn:Hx; [|reflexivity].
  rewrite bind_Ok. destruct Hin as [->|Hin].
  - specialize (Hg c). rewrite Hx in Hg. discriminate.
  - specialize (IH Hin c1).
    destruct (convert_garmin_steps l c1) as [[es c2]|]; [discriminate|reflexivity].
Qed.

Lemma convert_garmin_steps_In (l : list GStep) (x : GStep) (c : Z)
    (es : list Entry) (c' : Z) :
  convert_garmin_steps l c = Ok (es, c') ->
  In x l ->
  exists c1 e c2, convert_garmin_step x c1 = Ok (e, c2) /\ In e es.
Proof.
  revert c es. induction l as [|g l IH]; intros c es H Hin; [destruct Hin|].
  apply convert_garmin_steps_cons_inv in H.
  destruct H as [e [c1 [es' [He [Hes ->]]]]].
  destruct Hin as [->|Hin].
  - exists c, e, c1. split; [exact He|left; reflexivity].
  - destruct (IH _ _ Hes Hin) as [c2 [e' [c3 [He' Hin']]]].
    exists c2, e', c3. split; [exact He'|right; exact Hin'].
Qed.

(** A wire group that holds a wire group is never converted. *)
Lemma nested_group_refused (g x : GStep) :
  read_step_type_id g = 6 ->
  In x (default [] (workoutSteps g)) ->
  read_step_type_id x = 6 ->
  forall c, is_ok (convert_garmin_step g c) = false.
Proof.
  intros Hg Hin Hx c.
  destruct (convert_garmin_step g c) as [[e c']|] eqn:H; [|reflexivity].
  exfalso. apply convert_garmin_step_inv in H.
  destruct H as [[Hleaf _]|[_ [grp [_ [Hinner _]]]]]; [congruence|].
  destruct (convert_garmin_steps_In _ _ _ _ _ Hinner Hin) as [c1 [e' [c2 [He' Hin']]]].
  apply in_map_iff in Hin'. destruct Hin' as [s [<- _]].
  apply convert_garmin_step_inv in He'.
  destruct He' as [[Hleaf _]|[_ [grp' [Habs _]]]]; [congruence|discriminate].
Qed.

(** X3: [garmin_to_workout] raises on every wire workout whose first
    segment has a repeat group with a repeat group among its steps,
    although the builder writes such workouts. *)
Theorem nested_wire_group_not_imported (gw : GarminWorkout)
    (seg : WorkoutSegment) (rest : list WorkoutSegment) (g x : GStep) :
  default [] (workoutSegments gw) = seg :: rest ->
  In g (default [] (segmentSteps seg)) ->
  read_step_type_id g = 6 ->
  In x (default [] (workoutSteps g)) ->
  read_step_type_id x = 6 ->
  is_ok (garmin_to_workout gw) = false.
Proof.
  intros Hseg Hg Hgt Hx Hxt. unfold garmin_to_workout. rewrite Hseg.
  pose proof (convert_garmin_steps_refused _ g Hg
                (nested_group_refused g x Hgt Hx Hxt) 0) as H.
  destruct (convert_garmin_steps (default [] (segmentSteps seg)) 0) as [[es c]|];
    [discriminate|reflexivity].
Qed.

(** The statement on the dict ([to_dict]) of the workout built by a
    repeat inside a repeat, which [builder_to_workout] refuses as well. *)
Lemma nested_wire_group_not_imported_witness :
  is_ok nested_builder = true
  /\ is_ok (garmin_to_workout (built nested_builder)) = false
  /\ is_ok (b ← nested_builder; builder_to_workout "nested" b) = false.
Proof.
  split; [reflexivity|]. split; [|reflexivity].
  destruct (workoutSegments (built nested_builder)) as [[|seg rest]|] eqn:Hsegs;
    try (vm_compute in Hsegs; discriminate).
  destruct (segmentSteps seg) as [[|g l]|] eqn:Hsteps;
    try (vm_compute in Hsegs; inversion Hsegs; subst; discriminate).
  destruct (workoutSteps g) as [[|x l']|] eqn:Hinner;
    try (vm_compute in Hsegs; inversion Hsegs; subst;
         vm_compute in Hsteps; inversion Hsteps; subst; discriminate).
  apply (nested_wire_group_not_imported (built nested_builder) seg rest g x).
  - rewrite Hsegs. reflexivity.
  - rewrite Hsteps. left. reflexivity.
  - vm_compute in Hsegs. inversion Hsegs; subst.
    vm_compute in Hsteps. inversion Hsteps; subst. reflexivity.
  - rewrite Hinner. left. reflexivity.
  - vm_compute in Hsegs. inversion Hsegs; subst.
    vm_compute in Hsteps. inversion Hsteps; subst.
    vm_compute in Hinner. inversion Hinner; subst. reflexivity.
Defined.

(** ** The builder: rests without a duration, repeats below one *)

Lemma convert_steps_refused (l : list GStep) (g : GStep) :
  In g l ->
  (forall c, is_ok (convert_step g c) = false) ->
  forall c, is_ok (convert_steps l c) = false.
Proof.
  intros Hin Hg. induction l as [|x l IH]; intros c; [destruct Hin|].
  cbn [convert_steps].
  destruct (convert_step x c) as [[e c1]|err] eqn:Hx; [|reflexivity].
  rewrite bind_Ok. destruct Hin as [->|Hin].
  - specialize (Hg c). rewrite Hx in Hg. discriminate.
  - specialize (IH Hin c1).
    destruct (convert_steps l c1) as [[es c2]|]; [discriminate|reflexivity].
Qed.

Lemma open_rest_refused (g : GStep) :
  open_rest g -> forall c, is_ok (convert_step g c) = false.
Proof.
  intros [Hn [Ht Hv]] c. destruct g as [o st ec ev u tt sk d z n ws sr].
  simpl in Hn, Ht, Hv. subst n ev.
  cbn [convert_step]. unfold convert_builder_leaf.
  cbn [stepType strokeType endConditionValue]. rewrite Ht.
  change (default 3 (Some 5)) with 5. cbn [StepType_of]. rewrite bind_Ok.
  destruct (StrokeType_of _); reflexivity.
Qed.

(** [rest_until_button] appends a REST step without end value and adds
    30 seconds. *)
Lemma rest_until_button_appends (desc : option string)
    (b : SwimWorkout.SwimWorkoutBuilder) :
  exists b' g,
    SwimWorkout.rest_until_button desc b = Ok b'
    /\ SwimWorkout.steps b' = SwimWorkout.steps b ++ [g]
    /\ open_rest g
    /\ SwimWorkout._estimated_duration b' = SwimWorkout._estimated_duration b + 30
    /\ forall c, convert_garmin_step g c
                 = Ok (Step (mkWorkoutStep (step_name (c + 1)) REST FREESTYLE 0
                               None None desc Equipment_default), c + 1).
Proof.
  eexists. eexists. split; [reflexivity|]. split; [reflexivity|].
  split; [repeat split|]. split; [reflexivity|]. intros c. reflexivity.
Qed.

(** X4: [builder_to_workout] raises on every builder that holds, at top
    level, a REST step without an end value, which is the step that
    [rest_until_button] appends: a template with a rest until the lap
    button cannot be materialised. *)
Theorem open_rest_not_materialised (workout_id : string)
    (b : SwimWorkout.SwimWorkoutBuilder) (g : GStep) :
  In g (SwimWorkout.steps b) ->
  open_rest g ->
  is_ok (builder_to_workout workout_id b) = false.
Proof.
  intros Hin Hopen. unfold builder_to_workout.
  pose proof (convert_steps_refused _ g Hin (open_rest_refused g Hopen) 0) as H.
  destruct (convert_steps (SwimWorkout.steps b) 0) as [[es c]|];
    [discriminate|reflexivity].
Qed.

(** The statement on a builder with a rest until the lap button between
    two swims; the dict of the workout it builds is imported all the
    same. *)
Lemma open_rest_not_materialised_witness :
  exists b,
    button_builder = Ok b
    /\ is_ok (builder_to_workout "template:button" b) = false
    /\ is_ok (garmin_to_workout (SwimWorkout.to_dict b)) = true.
Proof.
  destruct button_builder as [b|] eqn:Hb; [|vm_compute in Hb; discriminate].
  exists b. split; [reflexivity|].
  vm_compute in Hb. inversion Hb; subst. split; [|reflexivity].
  eapply open_rest_not_materialised.
  - right. left. reflexivity.
  - repeat split.
Defined.

(** X5: [repeat] does not check [times]: with [times] below 1 it still
    appends the group (and adds [times] times the inner duration), but
    the dict of the workout built from it ([to_dict]) is refused by
    [garmin_to_workout], whose RepeatGroup needs at least one
    iteration. *)
Theorem repeat_below_one_not_imported (times : Z)
    (steps_fn : SwimWorkout.SwimWorkoutBuilder -> result SwimWorkout.SwimWorkoutBuilder)
    (b inner : SwimWorkout.SwimWorkoutBuilder) :
  times < 1 ->
  exact_in_double times = true ->
  steps_fn (SwimWorkout.with_step_order
              (SwimWorkout.init (SwimWorkout.name b) (SwimWorkout.pool_length b)) 0)
  = Ok inner ->
  exists b',
    SwimWorkout.repeat times steps_fn b = Ok b'
    /\ SwimWorkout._estimated_duration b'
       = SwimWorkout._estimated_duration b
         + SwimWorkout._estimated_duration inner * times
    /\ is_ok (garmin_to_workout (SwimWorkout.to_dict b')) = false.
Proof.
  intros Hlt Hex Hinner. unfold SwimWorkout.repeat.
  rewrite Hinner, bind_Ok. cbn [SwimWorkout._next_order].
  cbv zeta. cbn [SwimWorkout._next_order SwimWorkout.with_step_order
                 SwimWorkout.with_estimated_duration SwimWorkout._step_order
                 SwimWorkout.name SwimWorkout.pool_length SwimWorkout.steps
                 SwimWorkout._estimated_duration].
  rewrite (float_of_int_exact _ Hex), bind_Ok.
  eexists. split; [reflexivity|]. split; [reflexivity|].
  unfold garmin_to_workout, SwimWorkout.to_dict, GarminConnect.to_dict,
    GarminConnect.segment_to_dict, SwimWorkout.build, SwimWorkout.with_steps.
  cbn [workoutSegments segmentSteps default SwimWorkout.steps
       GarminConnect.workoutSegments GarminConnect.segmentSteps map
       SwimWorkout.name SwimWorkout.pool_length SwimWorkout._step_order
       SwimWorkout._estimated_duration id].
  match goal with
  | |- context [convert_garmin_steps (?l ++ [?g]) 0] =>
      pose proof (convert_garmin_steps_refused (l ++ [g]) g) as H
  end.
  match type of H with
  | In ?g ?l -> _ =>
      assert (Hin : In g l) by (apply in_or_app; right; left; reflexivity);
      specialize (H Hin)
  end.
  match type of H with
  | (forall c, is_ok (convert_garmin_step ?g c) = false) -> _ =>
      assert (Hg : forall c, is_ok (convert_garmin_step g c) = false)
  end.
  { intros c. rewrite convert_garmin_step_group by reflexivity.
    cbn [numberOfIterations default id].
    match goal with
    | |- context [convert_garmin_steps ?l ?c0] =>
        destruct (convert_garmin_steps l c0) as [[es c1]|]; [|reflexivity]
    end.
    rewrite bind_Ok. unfold RepeatGroup_new.
    assert (Hn : (1 <=? times) = false) by (apply Z.leb_gt; lia).
    rewrite Hn. reflexivity. }
  specialize (H Hg 0).
  match goal with
  | |- context [convert_garmin_steps ?l 0] =>
      destruct (convert_garmin_steps l 0) as [[es c]|]; [discriminate|reflexivity]
  end.
Qed.

(** The statement on [repeat(0, ...)] after a warmup. *)
Lemma repeat_below_one_not_imported_witness :
  exists b',
    SwimWorkout.repeat 0 scenario_inner (SwimWorkout.create_swim_workout "Zero") = Ok b'
    /\ SwimWorkout._estimated_duration b'
       = SwimWorkout._estimated_duration (SwimWorkout.create_swim_workout "Zero")
         + 140 * 0
    /\ is_ok (garmin_to_workout (SwimWorkout.to_dict b')) = false.
Proof.
  destruct (scenario_inner
              (SwimWorkout.with_step_order
                 (SwimWorkout.init
                    (SwimWorkout.name (SwimWorkout.create_swim_workout "Zero"))
                    (SwimWorkout.pool_length (SwimWorkout.create_swim_workout "Zero")))
                 0)) as [inner|] eqn:Hinner; [|vm_compute in Hinner; discriminate].
  assert (Hd : SwimWorkout._estimated_duration inner = 140).
  { vm_compute in Hinner. inversion Hinner. reflexivity. }
  rewrite <- Hd.
  apply (repeat_below_one_not_imported 0 scenario_inner
           (SwimWorkout.create_swim_workout "Zero") inner).
  - lia.
  - reflexivity.
  - exact Hinner.
Defined.

(** ** The builder: order numbers and name *)

Lemma prefix_length (n : nat) (s : string) : (String.length (prefix n s) <= n)%nat.
Proof.
  unfold prefix. revert n. induction s as [|a s IH]; intros n.
  - destruct n; simpl; lia.
  - destruct n as [|n]; simpl; [lia|]. specialize (IH n). lia.
Qed.

Lemma renumber_orders (l : list GStep) (i : Z) :
  map stepOrder (SwimWorkout.renumber i l) = orders_from i (length l)
  /\ length (SwimWorkout.renumber i l) = length l.
Proof.
  unfold orders_from. revert i. induction l as [|g l IH]; intros i.
  - split; reflexivity.
  - cbn [SwimWorkout.renumber map length]. destruct (IH (i + 1)) as [IH1 IH2].
    rewrite IH1, IH2. split; [|reflexivity].
    rewrite (seqZ_cons i) by lia. cbn [map]. destruct g; cbn. f_equal.
    f_equal. f_equal; lia.
Qed.

Lemma warmup_appends d stroke desc b b' :
  SwimWorkout.warmup d stroke desc b = Ok b' -> appends_step b b'.
Proof.
  unfold SwimWorkout.warmup. intros H.
  apply bind_Ok_inv in H. destruct H as [est [_ H]]. cbn in H.
  apply bind_Ok_inv in H. destruct H as [v [_ H]]. inversion H; subst.
  repeat split. eexists. split; reflexivity.
Qed.

Lemma cooldown_appends d stroke desc b b' :
  SwimWorkout.cooldown d stroke desc b = Ok b' -> appends_step b b'.
Proof.
  unfold SwimWorkout.cooldown. intros H.
  apply bind_Ok_inv in H. destruct H as [est [_ H]]. cbn in H.
  apply bind_Ok_inv in H. destruct H as [v [_ H]]. inversion H; subst.
  repeat split. eexists. split; reflexivity.
Qed.

Lemma swim_appends d stroke zone desc b b' :
  SwimWorkout.swim d stroke zone desc b = Ok b' -> appends_step b b'.
Proof.
  unfold SwimWorkout.swim. intros H.
  apply bind_Ok_inv in H. destruct H as [est [_ H]]. cbn in H.
  apply bind_Ok_inv in H. destruct H as [v [_ H]]. inversion H; subst.
  repeat split. eexists. split; reflexivity.
Qed.

Lemma rest_appends seconds desc b b' :
  SwimWorkout.rest seconds desc b = Ok b' -> appends_step b b'.
Proof.
  unfold SwimWorkout.rest. cbn. intros H.
  apply bind_Ok_inv in H. destruct H as [v [_ H]]. inversion H; subst.
  repeat split. eexists. split; reflexivity.
Qed.

Lemma rest_until_button_appends_step desc b b' :
  SwimWorkout.rest_until_button desc b = Ok b' -> appends_step b b'.
Proof.
  unfold SwimWorkout.rest_until_button. cbn. intros H. inversion H; subst.
  repeat split. eexists. split; reflexivity.
Qed.

Lemma repeat_appends times steps_fn b b' :
  SwimWorkout.repeat times steps_fn b = Ok b' -> appends_step b b'.
Proof.
  unfold SwimWorkout.repeat. intros H.
  apply bind_Ok_inv in H. destruct H as [inner [_ H]]. cbn in H.
  apply bind_Ok_inv in H. destruct H as [v [_ H]]. inversion H; subst.
  repeat split. eexists. split; reflexivity.
Qed.

Lemma Built_appends (name : string) (pool : float)
    (b b' : SwimWorkout.SwimWorkoutBuilder) :
  appends_step b b' ->
  SwimWorkout._step_order b = Z.of_nat (length (SwimWorkout.steps b)) ->
  map stepOrder (SwimWorkout.steps b) = orders_from 1 (length (SwimWorkout.steps b)) ->
  SwimWorkout._step_order b' = Z.of_nat (length (SwimWorkout.steps b'))
  /\ map stepOrder (SwimWorkout.steps b')
     = orders_from 1 (length (SwimWorkout.steps b')).
Proof.
  intros [_ [_ [Hord [g [Hsteps Hg]]]]] Hn Hmap.
  rewrite Hsteps, Hord, length_app, map_app, Hmap, Hn. cbn [length map].
  rewrite Nat.add_1_r. split; [lia|].
  unfold orders_from. rewrite seqZ_S, map_app. cbn [map]. rewrite Hg, Hn.
  f_equal. f_equal. f_equal. lia.
Qed.

(** X6: in every builder reached from [SwimWorkoutBuilder(name, pool)] by
    its methods, the name is [name[:80]] (at most 80 characters), the pool
    length is the one given, and the top-level steps carry the order
    numbers 1, 2, ..., n in the order they were added, [_step_order]
    being n. *)
Theorem built_steps_numbered (name : string) (pool : float)
    (b : SwimWorkout.SwimWorkoutBuilder) :
  Built name pool b ->
  SwimWorkout.name b = prefix 80 name
  /\ (String.length (SwimWorkout.name b) <= 80)%nat
  /\ SwimWorkout.pool_length b = pool
  /\ SwimWorkout._step_order b = Z.of_nat (length (SwimWorkout.steps b))
  /\ map stepOrder (SwimWorkout.steps b)
     = orders_from 1 (length (SwimWorkout.steps b)).
Proof.
  assert (Hstep : forall b b',
             appends_step b b' ->
             (SwimWorkout.name b = prefix 80 name
              /\ (String.length (SwimWorkout.name b) <= 80)%nat
              /\ SwimWorkout.pool_length b = pool
              /\ SwimWorkout._step_order b = Z.of_nat (length (SwimWorkout.steps b))
              /\ map stepOrder (SwimWorkout.steps b)
                 = orders_from 1 (length (SwimWorkout.steps b))) ->
             SwimWorkout.name b' = prefix 80 name
             /\ (String.length (SwimWorkout.name b') <= 80)%nat
             /\ SwimWorkout.pool_length b' = pool
             /\ SwimWorkout._step_order b' = Z.of_nat (length (SwimWorkout.steps b'))
             /\ map stepOrder (SwimWorkout.steps b')
                = orders_from 1 (length (SwimWorkout.steps b'))).
  { intros b0 b' Happ [Hname [Hlen [Hpool [Hn Hmap]]]].
    pose proof (Built_appends name pool b0 b' Happ Hn Hmap) as [Hn' Hmap'].
    destruct Happ as [Hname' [Hpool' _]].
    rewrite Hname', Hpool'. repeat split; assumption. }
  induction 1 as [|b b' d stroke desc _ IH H|b b' d stroke desc _ IH H
                  |b b' d stroke zone desc _ IH H|b b' seconds desc _ IH H
                  |b b' desc _ IH H|b b' times steps_fn _ IH H].
  - cbn. repeat split. apply prefix_length.
  - apply (Hstep b b'); [eapply warmup_appends; eassumption|exact IH].
  - apply (Hstep b b'); [eapply cooldown_appends; eassumption|exact IH].
  - apply (Hstep b b'); [eapply swim_appends; eassumption|exact IH].
  - apply (Hstep b b'); [eapply rest_appends; eassumption|exact IH].
  - apply (Hstep b b'); [eapply rest_until_button_appends_step; eassumption|exact IH].
  - apply (Hstep b b'); [eapply repeat_appends; eassumption|exact IH].
Qed.

Lemma scenario_is_built :
  exists b, scenario_builder = Ok b /\ Built "Test" f25_0 b.
Proof.
  unfold scenario_builder, SwimWorkout.create_swim_workout.
  destruct (SwimWorkout.warmup 300 SwimWorkout.FREESTYLE None
              (SwimWorkout.init "Test" f25_0)) as [b1|] eqn:H1;
    [|vm_compute in H1; discriminate].
  rewrite bind_Ok.
  destruct (SwimWorkout.repeat 4 scenario_inner b1) as [b2|] eqn:H2;
    [|vm_compute in H1; inversion H1; subst; vm_compute in H2; discriminate].
  rewrite bind_Ok.
  destruct (SwimWorkout.cooldown 200 SwimWorkout.FREESTYLE None b2) as [b3|] eqn:H3;
    [|vm_compute in H1; inversion H1; subst; vm_compute in H2; inversion H2; subst;
      vm_compute in H3; discriminate].
  exists b3. split; [reflexivity|].
  eapply Built_cooldown; [|exact H3].
  eapply Built_repeat; [|exact H2].
  eapply Built_warmup; [|exact H1].
  apply Built_init.
Qed.

(** The statement on the scenario's builder. *)
Lemma built_steps_numbered_witness :
  exists b,
    scenario_builder = Ok b
    /\ SwimWorkout.name b = prefix 80 "Test"
    /\ (String.length (SwimWorkout.name b) <= 80)%nat
    /\ SwimWorkout.pool_length b = f25_0
    /\ SwimWorkout._step_order b = Z.of_nat (length (SwimWorkout.steps b))
    /\ map stepOrder (SwimWorkout.steps b)
       = orders_from 1 (length (SwimWorkout.steps b)).
Proof.
  destruct scenario_is_built as [b [Hb HB]]. exists b. split; [exact Hb|].
  exact (built_steps_numbered "Test" f25_0 b HB).
Defined.

Lemma renumber_same (l : list GStep) (i : Z) :
  Forall2 same_but_order l (SwimWorkout.renumber i l).
Proof.
  revert i. induction l as [|g l IH]; intros i; cbn [SwimWorkout.renumber];
    constructor; [|apply IH].
  unfold same_but_order. destruct g. cbn. repeat split.
Qed.



(** ** The record store: listing, syncing, updating *)

Import WorkoutStore.

Lemma elem_of_list_workouts (fs : Files) (s : WorkoutSummary) :
  s ∈ list_workouts fs
  <-> exists k w, fs !! k = Some w /\ Workout_ok w = true /\ s = summarize w.
Proof.
  unfold list_workouts. rewrite list_elem_of_omap. split.
  - intros [[k w] [Hin Hs]]. apply elem_of_map_to_list in Hin.
    destruct (Workout_ok w) eqn:Hok; [|discriminate].
    inversion Hs; subst. exists k, w. repeat split; assumption.
  - intros [k [w [Hk [Hok ->]]]]. exists (k, w). split.
    + apply elem_of_map_to_list. exact Hk.
    + rewrite Hok. reflexivity.
Qed.

Lemma length_omap_le {A B} (f : A -> option B) (l : list A) :
  (length (omap f l) <= length l)%nat.
Proof.
  induction l as [|a l IH]; [reflexivity|]. cbn. destruct (f a); cbn; lia.
Qed.

(** X8: [list_workouts] gives the summary (id, name, total distance, step
    count) of exactly the stored records that parse; a record that does
    not is left out and nothing is raised, so there are at most as many
    summaries as records. *)
Theorem list_workouts_valid_records (fs : Files) :
  (forall s,
     s ∈ list_workouts fs
     <-> exists k w, fs !! k = Some w /\ Workout_ok w = true /\ s = summarize w)
  /\ (length (list_workouts fs) <= size fs)%nat.
Proof.
  split; [exact (elem_of_list_workouts fs)|].
  unfold list_workouts. rewrite <- length_map_to_list. apply length_omap_le.
Qed.

Lemma write_all_lookup (ws : list Workout) (fs : Files) (k : string) :
  (exists w', In w' ws /\ workout_id w' = k /\ write_all ws fs !! k = Some w')
  \/ ((forall w', In w' ws -> workout_id w' <> k) /\ write_all ws fs !! k = fs !! k).
Proof.
  unfold write_all. revert fs. induction ws as [|w0 ws IH]; intros fs.
  - right. split; [intros w' []|reflexivity].
  - cbn [fold_left].
    destruct (IH (<[workout_id w0 := w0]> fs)) as [[w' [Hin [Hid Hl]]]|[Hno Hl]].
    + left. exists w'. split; [right; exact Hin|]. split; assumption.
    + destruct (decide (workout_id w0 = k)) as [Heq|Hne].
      * left. exists w0. split; [left; reflexivity|]. split; [exact Heq|].
        rewrite Hl, <- Heq. apply lookup_insert_eq.
      * right. split.
        -- intros w' [<-|Hin]; [exact Hne|apply Hno; exact Hin].
        -- rewrite Hl. apply lookup_insert_ne. exact Hne.
Qed.

Lemma write_all_app (ws1 ws2 : list Workout) (fs : Files) :
  write_all (ws1 ++ ws2) fs = write_all ws2 (write_all ws1 fs).
Proof. unfold write_all. apply fold_left_app. Qed.

(** What the loop of [sync_from_garmin] has done when it stops. *)
Lemma sync_loop_spec (l : list GarminWorkout) (acc : list Workout) (fs : Files) :
  exists ws rest,
    Forall2 (fun g w => garmin_to_workout g = Ok w) (firstn (length ws) l) ws
    /\ l = firstn (length ws) l ++ rest
    /\ snd (sync_loop l acc fs) = write_all ws fs
    /\ ((rest = [] /\ fst (sync_loop l acc fs) = Ok (acc ++ ws))
        \/ exists g rest' e,
             rest = g :: rest' /\ garmin_to_workout g = Raise e
             /\ fst (sync_loop l acc fs) = Raise e).
Proof.
  revert acc fs. induction l as [|g l IH]; intros acc fs.
  - exists [], []. cbn. split; [constructor|]. split; [reflexivity|].
    split; [reflexivity|]. left. rewrite app_nil_r. split; reflexivity.
  - cbn [sync_loop]. destruct (garmin_to_workout g) as [w|e] eqn:Hg.
    + destruct (IH (acc ++ [w]) (<[workout_id w := w]> fs))
        as [ws [rest [Hconv [Hl [Hfs Hres]]]]].
      exists (w :: ws), rest. cbn [length firstn].
      split; [constructor; assumption|].
      split; [cbn; f_equal; exact Hl|]. split; [exact Hfs|].
      destruct Hres as [[-> Hok]|[g' [rest' [e [-> [Hg' Hraise]]]]]].
      * left. split; [reflexivity|]. rewrite Hok, <- app_assoc. reflexivity.
      * right. exists g', rest', e. repeat split; assumption.
    + exists [], (g :: l). cbn. split; [constructor|]. split; [reflexivity|].
      split; [reflexivity|]. right. exists g, l, e. repeat split. exact Hg.
Qed.

Lemma Forall2_converted_valid (l : list GarminWorkout) (ws : list Workout) :
  Forall2 (fun g w => garmin_to_workout g = Ok w) l ws ->
  forall w, In w ws -> Workout_ok w = true.
Proof.
  induction 1 as [|g w l ws Hg _ IH]; intros w0 Hin; [destruct Hin|].
  destruct Hin as [<-|Hin]; [|apply IH; exact Hin].
  apply (garmin_to_workout_ok g w Hg).
Qed.

(** X9: [sync_from_garmin] converts and writes the workouts in order and
    stops at the first that does not convert: the workouts converted
    before it stay written.  After the call every written workout's id
    holds the last workout written under that id, which [get_workout]
    returns, and every other key is as it was. *)
Theorem sync_writes_in_order (l : list GarminWorkout) (fs : Files) :
  exists ws rest,
    l = firstn (length ws) l ++ rest
    /\ Forall2 (fun g w => garmin_to_workout g = Ok w) (firstn (length ws) l) ws
    /\ snd (sync_from_garmin l fs) = write_all ws fs
    /\ ((rest = [] /\ fst (sync_from_garmin l fs) = Ok ws)
        \/ exists g rest' e,
             rest = g :: rest' /\ garmin_to_workout g = Raise e
             /\ fst (sync_from_garmin l fs) = Raise e)
    /\ (forall w, In w ws ->
          exists w', In w' ws /\ workout_id w' = workout_id w
                     /\ get_workout (workout_id w) (snd (sync_from_garmin l fs))
                        = Ok (Some w'))
    /\ (forall k, (forall w, In w ws -> workout_id w <> k) ->
          snd (sync_from_garmin l fs) !! k = fs !! k).
Proof.
  unfold sync_from_garmin.
  destruct (sync_loop_spec l [] fs) as [ws [rest [Hconv [Hl [Hfs Hres]]]]].
  exists ws, rest. split; [exact Hl|]. split; [exact Hconv|].
  split; [exact Hfs|]. split; [exact Hres|]. rewrite Hfs. split.
  - intros w Hin.
    destruct (write_all_lookup ws fs (workout_id w)) as [[w' [Hin' [Hid Hlook]]]|[Hno _]].
    + exists w'. split; [exact Hin'|]. split; [exact Hid|].
      apply get_workout_present; [exact Hlook|].
      apply (Forall2_converted_valid _ _ Hconv w' Hin').
    + exfalso. apply (Hno w Hin). reflexivity.
  - intros k Hno.
    destruct (write_all_lookup ws fs k) as [[w' [Hin' [Hid _]]]|[_ Hlook]].
    + exfalso. apply (Hno w' Hin'). exact Hid.
    + exact Hlook.
Qed.

(** ** The record store: ids and keys *)

Lemma ids_match_insert (fs : Files) (k : string) (w : Workout) :
  ids_match fs -> workout_id w = k -> ids_match (<[k := w]> fs).
Proof.
  intros Hfs Hw k' w' H. destruct (decide (k = k')) as [<-|Hne].
  - rewrite lookup_insert_eq in H. inversion H; subst. reflexivity.
  - rewrite lookup_insert_ne in H by assumption. apply Hfs. exact H.
Qed.

Lemma ids_match_delete (fs : Files) (k : string) :
  ids_match fs -> ids_match (delete k fs).
Proof.
  intros Hfs k' w' H. destruct (decide (k = k')) as [<-|Hne].
  - rewrite lookup_delete_eq in H. discriminate.
  - rewrite lookup_delete_ne in H by assumption. apply Hfs. exact H.
Qed.

Lemma ids_match_write_all (ws : list Workout) (fs : Files) :
  ids_match fs -> ids_match (write_all ws fs).
Proof.
  unfold write_all. revert fs. induction ws as [|w ws IH]; intros fs Hfs; [exact Hfs|].
  cbn [fold_left]. apply IH. apply ids_match_insert; [exact Hfs|reflexivity].
Qed.

Lemma builder_to_workout_id (id : string) (b : SwimWorkout.SwimWorkoutBuilder)
    (w : Workout) :
  builder_to_workout id b = Ok w -> workout_id w = id.
Proof.
  unfold builder_to_workout. intros H.
  apply bind_Ok_inv in H. destruct H as [[es c] [_ H]].
  unfold Workout_new in H. destruct (String.length _ <=? 80)%nat; [|discriminate].
  inversion H. reflexivity.
Qed.

Lemma ids_match_seed (T : list (string * result SwimWorkout.SwimWorkoutBuilder))
    (fs : Files) :
  ids_match fs -> ids_match (snd (seed T fs)).
Proof.
  revert fs. induction T as [|[name fn] T IH]; intros fs Hfs; [exact Hfs|].
  cbn [seed].
  destruct (fn ≫= builder_to_workout name) as [w|e]; [|exact Hfs].
  apply IH. apply ids_match_insert; [exact Hfs|reflexivity].
Qed.

Lemma ids_match_replace (old_id new_id : string) (fs fs' : Files) (b : bool) :
  ids_match fs ->
  replace_workout_id old_id new_id fs = Ok (b, fs') -> ids_match fs'.
Proof.
  intros Hfs H. unfold replace_workout_id in H.
  apply bind_Ok_inv in H. destruct H as [found [_ H]].
  destruct found as [w|]; inversion H; subst; [|exact Hfs].
  assert (Hins : ids_match (<[new_id := set_workout_id w new_id]> fs)).
  { apply ids_match_insert; [exact Hfs|reflexivity]. }
  destruct (_ !! old_id); [apply ids_match_delete|]; exact Hins.
Qed.

Lemma sync_writes_in_order_aux (l : list GarminWorkout) (fs : Files) :
  exists ws, snd (sync_from_garmin l fs) = write_all ws fs.
Proof.
  unfold sync_from_garmin.
  destruct (sync_loop_spec l [] fs) as [ws [rest [_ [_ [Hfs _]]]]].
  exists ws. exact Hfs.
Qed.

(** X10: every operation that changes the record store keeps each record
    under its own id: if that holds before [create_workout],
    [update_workout], [delete_workout], [replace_workout_id],
    [sync_from_garmin], [initialize_workouts] or the upload route, it
    holds after, also when the operation raised part way. *)
Theorem store_keeps_ids_match (fs : Files) :
  ids_match fs ->
  (forall data uuid4 w fs', create_workout data uuid4 fs = Ok (w, fs') -> ids_match fs')
  /\ (forall id data r fs', update_workout id data fs = Ok (r, fs') -> ids_match fs')
  /\ (forall id, ids_match (snd (delete_workout id fs)))
  /\ (forall old_id new_id b fs',
        replace_workout_id old_id new_id fs = Ok (b, fs') -> ids_match fs')
  /\ (forall l, ids_match (snd (sync_from_garmin l fs)))
  /\ (forall T, ids_match (snd (initialize_workouts T fs)))
  /\ (forall (Remote : Type) (up : GarminConnect.SwimmingWorkout -> Remote -> UploadResult * Remote)
             (del : string -> Remote -> bool * Remote) id r log,
        ids_match (files (snd (upload_workout up del id (mkWorld fs r log))))).
Proof.
  intros Hfs. repeat split.
  - intros data uuid4 w fs' H. unfold create_workout in H.
    apply bind_Ok_inv in H. destruct H as [w0 [_ H]]. inversion H; subst.
    apply ids_match_insert; [exact Hfs|reflexivity].
  - intros id data r fs' H. unfold update_workout in H.
    apply bind_Ok_inv in H. destruct H as [found [Hget H]].
    destruct found as [w|]; inversion H; subst; [|exact Hfs].
    apply get_workout_Some in Hget. destruct Hget as [Hlook _].
    apply ids_match_insert; [exact Hfs|]. apply (Hfs _ _ Hlook).
  - intros id. unfold delete_workout. destruct (fs !! id); [|exact Hfs].
    apply ids_match_delete. exact Hfs.
  - intros old_id new_id b fs' H. eapply ids_match_replace; eassumption.
  - intros l. destruct (sync_writes_in_order_aux l fs) as [ws Hws].
    rewrite Hws. apply ids_match_write_all. exact Hfs.
  - intros T. unfold initialize_workouts.
    destruct (map_to_list fs); [apply ids_match_seed|]; exact Hfs.
  - intros Remote up del id r log. unfold upload_workout. cbn [files remote calls].
    destruct (get_workout id fs) as [[workout|]|e]; try exact Hfs.
    destruct (workout_to_garmin_dict workout) as [g|e]; [|exact Hfs].
    destruct (up g r) as [res r1].
    destruct (negb (success res)); [exact Hfs|].
    destruct (result_workout_id res) as [new_id|]; [|exact Hfs].
    destruct (nonempty id && nonempty new_id && negb (String.eqb id new_id));
      [|exact Hfs].
    destruct (del id r1) as [deleted r2]. cbn [files remote calls].
    destruct (replace_workout_id id new_id fs) as [[b fs']|e] eqn:Hrep;
      [|exact Hfs].
    cbn [files snd]. eapply ids_match_replace; eassumption.
Qed.

Lemma files_old_1_ids_match : ids_match files_old_1.
Proof.
  intros k w H. unfold files_old_1 in H.
  apply lookup_singleton_Some in H. destruct H as [<- <-]. reflexivity.
Qed.

(** The statement on the store that holds "old-1": after a delete, a sync
    and a replace. *)
Lemma store_keeps_ids_match_witness :
  ids_match (snd (delete_workout "old-1" files_old_1))
  /\ ids_match (snd (sync_from_garmin [wire_imported] files_old_1))
  /\ (forall b fs',
        replace_workout_id "old-1" "new-2" files_old_1 = Ok (b, fs') -> ids_match fs').
Proof.
  pose proof (store_keeps_ids_match files_old_1 files_old_1_ids_match)
    as [_ [_ [Hdel [Hrep [Hsync _]]]]].
  split; [apply Hdel|]. split; [apply Hsync|]. intros b fs'. apply Hrep.
Defined.

(** ** The record store: updates *)

Lemma list_workouts_skips (fs : Files) (k : string) (w : Workout) :
  Workout_ok w = false ->
  forall s, s ∈ list_workouts (<[k := w]> fs) <-> s ∈ list_workouts (delete k fs).
Proof.
  intros Hbad s. rewrite !elem_of_list_workouts. split.
  - intros [k' [w' [Hk [Hok ->]]]]. destruct (decide (k = k')) as [<-|Hne].
    + rewrite lookup_insert_eq in Hk. inversion Hk; subst. congruence.
    + rewrite lookup_insert_ne in Hk by assumption.
      exists k', w'. rewrite lookup_delete_ne by assumption. repeat split; assumption.
  - intros [k' [w' [Hk [Hok ->]]]]. destruct (decide (k = k')) as [<-|Hne].
    + rewrite lookup_delete_eq in Hk. discriminate.
    + rewrite lookup_delete_ne in Hk by assumption.
      exists k', w'. rewrite lookup_insert_ne by assumption. repeat split; assumption.
Qed.

(** X11: [update_workout] assigns a new name without checking its length:
    given a name of more than 80 characters for a stored valid record it
    succeeds, after which the record no longer parses: [get_workout]
    raises, a further [update_workout] raises, [list_workouts] leaves the
    record out, and only [delete_workout] still removes it. *)
Theorem update_stores_long_name (id name' : string) (fs : Files) (w : Workout) :
  fs !! id = Some w ->
  Workout_ok w = true ->
  (80 < String.length name')%nat ->
  exists w' fs',
    update_workout id (mkWorkoutUpdate (Some name') None None) fs = Ok (Some w', fs')
    /\ Models.name w' = name'
    /\ get_workout id fs' = Raise ValidationError
    /\ (forall data, update_workout id data fs' = Raise ValidationError)
    /\ (forall s, s ∈ list_workouts fs' <-> s ∈ list_workouts (delete id fs))
    /\ delete_workout id fs' = (true, delete id fs).
Proof.
  intros Hlook Hok Hlong.
  set (w' := assign_fields w (mkWorkoutUpdate (Some name') None None)).
  assert (Hbad : Workout_ok w' = false).
  { unfold Workout_ok, w'. cbn.
    assert (Hn : (String.length name' <=? 80)%nat = false) by (apply Nat.leb_gt; lia).
    rewrite Hn. reflexivity. }
  assert (Hget : get_workout id (<[id := w']> fs) = Raise ValidationError).
  { unfold get_workout. rewrite lookup_insert_eq, Hbad. reflexivity. }
  exists w', (<[id := w']> fs). split.
  - unfold update_workout. rewrite (get_workout_present _ _ _ Hlook Hok). reflexivity.
  - split; [reflexivity|]. split; [exact Hget|]. split; [|split].
    + intros data. unfold update_workout. rewrite Hget. reflexivity.
    + apply list_workouts_skips. exact Hbad.
    + unfold delete_workout. rewrite lookup_insert_eq, delete_insert_eq. reflexivity.
Qed.

(** The statement on the store that holds "old-1", with a name of 81
    characters. *)
Lemma update_stores_long_name_witness :
  exists w' fs',
    update_workout "old-1" (mkWorkoutUpdate (Some name_81) None None) files_old_1
    = Ok (Some w', fs')
    /\ Models.name w' = name_81
    /\ get_workout "old-1" fs' = Raise ValidationError
    /\ (forall data, update_workout "old-1" data fs' = Raise ValidationError)
    /\ (forall s, s ∈ list_workouts fs' <-> s ∈ list_workouts (delete "old-1" files_old_1))
    /\ delete_workout "old-1" fs' = (true, delete "old-1" files_old_1).
Proof.
  apply (update_stores_long_name "old-1" name_81 files_old_1 record_old_1).
  - reflexivity.
  - reflexivity.
  - vm_compute. lia.
Defined.

(** X12: on a stored valid record [update_workout] replaces the fields
    given and keeps the id and the fields not given, every other record
    being left as it was; with no field given the store is left exactly
    as it was; and when the new name has at most 80 characters and the
    new steps are valid, a following [get_workout] returns the updated
    workout.  On a missing id it returns nothing and changes nothing. *)
Theorem update_replaces_given_fields (id : string) (data : WorkoutUpdate) (fs : Files) :
  (forall w,
     fs !! id = Some w -> Workout_ok w = true ->
     exists fs',
       update_workout id data fs = Ok (Some (assign_fields w data), fs')
       /\ workout_id (assign_fields w data) = workout_id w
       /\ Models.name (assign_fields w data) = default (Models.name w) (update_name data)
       /\ Models.pool_length (assign_fields w data)
          = default (Models.pool_length w) (update_pool_length data)
       /\ Models.steps (assign_fields w data)
          = default (Models.steps w) (update_steps data)
       /\ (forall k, k <> id -> fs' !! k = fs !! k)
       /\ (data = mkWorkoutUpdate None None None -> fs' = fs)
       /\ (Workout_ok (assign_fields w data) = true ->
           get_workout id fs' = Ok (Some (assign_fields w data))))
  /\ (fs !! id = None -> update_workout id data fs = Ok (None, fs)).
Proof.
  split.
  - intros w Hlook Hok. exists (<[id := assign_fields w data]> fs).
    split; [unfold update_workout;
            rewrite (get_workout_present _ _ _ Hlook Hok); reflexivity|].
    split; [reflexivity|].
    split; [destruct data as [[n|] p s]; reflexivity|].
    split; [destruct data as [n [p|] s]; reflexivity|].
    split; [destruct data as [n p [s|]]; reflexivity|].
    split; [intros k Hk; apply lookup_insert_ne; congruence|]. split.
    + intros ->. apply insert_id. rewrite Hlook. destruct w; reflexivity.
    + intros Hok'. apply get_workout_present; [apply lookup_insert_eq|exact Hok'].
  - intros Hnone. unfold update_workout.
    rewrite (get_workout_absent _ _ Hnone). reflexivity.
Qed.

(** The statement on the store that holds "old-1": a new pool length of
    50 m, and an id that is not stored. *)
Lemma update_replaces_given_fields_witness :
  (exists fs',
     update_workout "old-1" (mkWorkoutUpdate None (Some (Finite 50 0)) None) files_old_1
     = Ok (Some (assign_fields record_old_1
                   (mkWorkoutUpdate None (Some (Finite 50 0)) None)), fs')
     /\ get_workout "old-1" fs'
        = Ok (Some (mkWorkout "old-1" "Test" (Finite 50 0) (Models.steps record_old_1))))
  /\ update_workout "gone" (mkWorkoutUpdate None (Some (Finite 50 0)) None) files_old_1
     = Ok (None, files_old_1).
Proof.
  destruct (update_replaces_given_fields "old-1"
              (mkWorkoutUpdate None (Some (Finite 50 0)) None) files_old_1)
    as [Hpresent _].
  destruct (Hpresent record_old_1 eq_refl eq_refl)
    as [fs' [Hup [_ [_ [_ [_ [_ [_ Hget]]]]]]]].
  split.
  - exists fs'. split; [exact Hup|]. apply Hget. reflexivity.
  - apply (proj2 (update_replaces_given_fields "gone"
                    (mkWorkoutUpdate None (Some (Finite 50 0)) None) files_old_1)).
    reflexivity.
Defined.

(** ** Duplicating a workout *)

Lemma length_append (a b : string) :
  String.length (a +:+ b) = (String.length a + String.length b)%nat.
Proof. induction a as [|c a IH]; simpl; [reflexivity|]. rewrite IH. reflexivity. Qed.

(** X13: the duplicate route copies a stored valid workout under the
    fresh id with " (copy)" appended to its name, same pool length and
    steps, exactly when the name has at most 73 characters; with a longer
    name the copy's name exceeds 80 characters, the route ends in an
    uncaught validation error and the store is unchanged. *)
Theorem duplicate_needs_short_name (id uuid4 : string) (fs : Files) (w : Workout) :
  fs !! id = Some w ->
  Workout_ok w = true ->
  ((String.length (Models.name w) <= 73)%nat ->
   WorkoutRoutes.duplicate_workout id uuid4 fs
   = (WorkoutRoutes.Return
        (mkWorkout uuid4 (Models.name w +:+ " (copy)") (Models.pool_length w)
           (Models.steps w)),
      <[uuid4 := mkWorkout uuid4 (Models.name w +:+ " (copy)") (Models.pool_length w)
                   (Models.steps w)]> fs))
  /\ ((73 < String.length (Models.name w))%nat ->
      WorkoutRoutes.duplicate_workout id uuid4 fs
      = (WorkoutRoutes.Uncaught ValidationError, fs)).
Proof.
  intros Hlook Hok.
  assert (Hlen : String.length (Models.name w +:+ " (copy)")
                 = (String.length (Models.name w) + 7)%nat).
  { rewrite length_append. reflexivity. }
  unfold WorkoutRoutes.duplicate_workout.
  rewrite (get_workout_present _ _ _ Hlook Hok).
  unfold WorkoutCreate_new. rewrite Hlen. split; intros Hn.
  - assert (Hle : (String.length (Models.name w) + 7 <=? 80)%nat = true)
      by (apply Nat.leb_le; lia).
    rewrite Hle. unfold create_workout, Workout_new.
    cbn [create_name create_pool_length create_steps].
    rewrite Hlen, Hle. reflexivity.
  - assert (Hgt : (String.length (Models.name w) + 7 <=? 80)%nat = false)
      by (apply Nat.leb_gt; lia).
    rewrite Hgt. reflexivity.
Qed.

(** The statement on a record named "Test", and on one with a name of 74
    characters. *)
Lemma duplicate_needs_short_name_witness :
  WorkoutRoutes.duplicate_workout "old-1" "fresh" files_old_1
  = (WorkoutRoutes.Return
       (mkWorkout "fresh" "Test (copy)" f25_0 (Models.steps record_old_1)),
     <["fresh" := mkWorkout "fresh" "Test (copy)" f25_0 (Models.steps record_old_1)]>
       files_old_1)
  /\ WorkoutRoutes.duplicate_workout "old-1" "fresh" files_74
     = (WorkoutRoutes.Uncaught ValidationError, files_74).
Proof.
  split.
  - apply (proj1 (duplicate_needs_short_name "old-1" "fresh" files_old_1 record_old_1
                    eq_refl eq_refl)).
    vm_compute. lia.
  - apply (proj2 (duplicate_needs_short_name "old-1" "fresh"
                    files_74 record_74 eq_refl eq_refl)).
    vm_compute. lia.
Defined.

(** ** Seeding the store from the templates *)

(** X14: [initialize_workouts] seeds only an empty store: on a store with
    a record it changes nothing; so once a seeding has written a record,
    even if it then raised on a later template, a further call changes
    nothing and the templates that were not written stay unwritten. *)
Theorem seeding_runs_once
    (T : list (string * result SwimWorkout.SwimWorkoutBuilder)) (fs : Files) :
  (fs <> ∅ -> initialize_workouts T fs = (Ok tt, fs))
  /\ (snd (initialize_workouts T fs) <> ∅ ->
      initialize_workouts T (snd (initialize_workouts T fs))
      = (Ok tt, snd (initialize_workouts T fs))).
Proof.
  assert (H : forall fs0 : Files, fs0 <> ∅ -> initialize_workouts T fs0 = (Ok tt, fs0)).
  { intros fs0 Hne. unfold initialize_workouts.
    destruct (map_to_list fs0) as [|kv l] eqn:E; [|reflexivity].
    exfalso. apply Hne. apply map_to_list_empty_iff. exact E. }
  split; [apply H|]. intros Hne. apply H. exact Hne.
Qed.

(** The statement on a catalogue whose second template has a rest until
    the lap button: the first call writes "scenario" and raises, the
    second changes nothing, and "button" is never stored. *)
Lemma seeding_runs_once_witness :
  exists fs',
    snd (initialize_workouts two_templates ∅) = fs'
    /\ fst (initialize_workouts two_templates ∅) = Raise TypeError
    /\ is_Some (fs' !! "scenario")
    /\ fs' !! "button" = None
    /\ initialize_workouts two_templates fs' = (Ok tt, fs').
Proof.
  eexists. split; [reflexivity|].
  assert (Hs : is_Some (snd (initialize_workouts two_templates ∅) !! "scenario")).
  { unfold initialize_workouts. rewrite map_to_list_empty.
    unfold two_templates. cbn [seed].
    destruct (scenario_builder ≫= builder_to_workout "scenario") as [w|] eqn:Hw;
      [|vm_compute in Hw; discriminate].
    pose proof Hw as Hid.
    apply bind_Ok_inv in Hid. destruct Hid as [b [_ Hid]].
    apply builder_to_workout_id in Hid. rewrite Hid.
    destruct (button_builder ≫= builder_to_workout "button") as [w2|] eqn:Hw2;
      [vm_compute in Hw2; discriminate|].
    cbn [snd]. rewrite lookup_insert_eq. eexists. reflexivity. }
  split; [|split; [exact Hs|split]].
  - unfold initialize_workouts. rewrite map_to_list_empty.
    unfold two_templates. cbn [seed].
    destruct (scenario_builder ≫= builder_to_workout "scenario") as [w|] eqn:Hw;
      [|vm_compute in Hw; discriminate].
    destruct (button_builder ≫= builder_to_workout "button") as [w2|e] eqn:Hw2;
      [vm_compute in Hw2; discriminate|].
    vm_compute in Hw2. inversion Hw2. reflexivity.
  - unfold initialize_workouts. rewrite map_to_list_empty.
    unfold two_templates. cbn [seed].
    destruct (scenario_builder ≫= builder_to_workout "scenario") as [w|] eqn:Hw;
      [|vm_compute in Hw; discriminate].
    pose proof Hw as Hid.
    apply bind_Ok_inv in Hid. destruct Hid as [b [_ Hid]].
    apply builder_to_workout_id in Hid. rewrite Hid.
    destruct (button_builder ≫= builder_to_workout "button") as [w2|] eqn:Hw2;
      [vm_compute in Hw2; discriminate|].
    cbn [snd]. rewrite lookup_insert_ne by discriminate. apply lookup_empty.
  - apply (proj2 (seeding_runs_once two_templates ∅)).
    intros Hempty. rewrite Hempty in Hs. rewrite lookup_empty in Hs.
    exact (is_Some_None Hs).
Defined.

(** ** The round trip, once more *)

Lemma rest_seconds_nonzero (s : WorkoutStep) : rest_seconds s <> 0.
Proof.
  unfold rest_seconds, truthy. destruct (duration_seconds s) as [d|]; simpl; [|lia].
  destruct (d =? 0) eqn:E; simpl; [lia|]. apply Z.eqb_neq. exact E.
Qed.

Lemma step_back_distance (n : Z) (s : WorkoutStep) :
  distance_m (step_back n s) = Spec.step_distance s
  /\ code_entry_distance (Step (step_back n s)) = Spec.step_distance s.
Proof.
  unfold step_back, Spec.step_distance. destruct (step_type s); split; reflexivity.
Qed.

Lemma steps_back_distance (l : list WorkoutStep) (n : Z) :
  sum_distance_m (steps_back n l) = Spec.sum_Z (map Spec.step_distance l).
Proof.
  rewrite sum_distance_m_sum. revert n.
  induction l as [|s l IH]; intros n; simpl; [reflexivity|].
  rewrite IH. rewrite (proj1 (step_back_distance n s)). reflexivity.
Qed.

Lemma entries_back_distance (l : list Entry) (n : Z) :
  map code_entry_distance (entries_back n l) = map Spec.entry_distance l.
Proof.
  revert n. induction l as [|e l IH]; intros n; simpl; [reflexivity|].
  rewrite IH. f_equal. destruct e as [s|g].
  - apply step_back_distance.
  - simpl. rewrite steps_back_distance. reflexivity.
Qed.

Lemma step_back_spec_distance (n : Z) (s : WorkoutStep) :
  Spec.step_distance (step_back n s) = Spec.step_distance s.
Proof. unfold step_back, Spec.step_distance. destruct (step_type s); reflexivity. Qed.

Lemma entries_back_spec_distance (l : list Entry) (n : Z) :
  map Spec.entry_distance (entries_back n l) = map Spec.entry_distance l.
Proof.
  revert n. induction l as [|e l IH]; intros n; simpl; [reflexivity|].
  rewrite IH. f_equal. destruct e as [s|g]; simpl.
  - apply step_back_spec_distance.
  - f_equal. f_equal. generalize (n + 1).
    induction (group_steps g) as [|s l' IH']; intros m; simpl; [reflexivity|].
    rewrite IH', step_back_spec_distance. reflexivity.
Qed.

(** X15: for a valid workout whose numbers fit a double, the workout that
    comes back from [garmin_to_workout(workout_to_garmin_dict(W).to_dict())]
    has as [total_distance] the distances of the original with every REST
    step counted as zero, at top level and inside groups alike. *)
Theorem roundtrip_total_distance (w : Workout) :
  Workout_ok w = true ->
  workout_exact w = true ->
  exists w',
    roundtrip w = Ok w'
    /\ total_distance w' = Spec.total_distance w
    /\ Spec.total_distance w' = Spec.total_distance w.
Proof.
  intros Hok Hex. exists (workout_back w).
  split; [apply roundtrip_image; assumption|]. split.
  - rewrite total_distance_sum. unfold Spec.total_distance, workout_back.
    cbn [steps]. rewrite entries_back_distance. reflexivity.
  - unfold Spec.total_distance, workout_back. cbn [steps].
    rewrite entries_back_spec_distance. reflexivity.
Qed.

(** The statement on four times (100 m and a rest of 20 s that carries
    20 in [distance_m]): 480 before, 400 after. *)
Lemma roundtrip_total_distance_witness :
  total_distance four_by_100 = 480
  /\ exists w',
       roundtrip four_by_100 = Ok w'
       /\ total_distance w' = Spec.total_distance four_by_100
       /\ Spec.total_distance w' = Spec.total_distance four_by_100.
Proof.
  split; [reflexivity|].
  apply (roundtrip_total_distance four_by_100); reflexivity.
Defined.

Lemma step_back_again (n m : Z) (s : WorkoutStep) :
  step_back n (step_back m s) = step_back n s.
Proof.
  pose proof (rest_seconds_nonzero s) as Hr.
  unfold step_back. destruct (step_type s) eqn:Hk; cbn; try reflexivity.
  - destruct (truthy (zone s)) eqn:Hz; cbn; rewrite ?Hz; reflexivity.
  - destruct (truthy (zone s)) eqn:Hz; cbn; rewrite ?Hz; reflexivity.
  - unfold rest_seconds at 1. cbn.
    apply Z.eqb_neq in Hr. rewrite Hr. reflexivity.
  - destruct (truthy (zone s)) eqn:Hz; cbn; rewrite ?Hz; reflexivity.
Qed.

Lemma steps_back_again (l : list WorkoutStep) (n m : Z) :
  steps_back n (steps_back m l) = steps_back n l.
Proof.
  revert n m. induction l as [|s l IH]; intros n m; simpl; [reflexivity|].
  rewrite step_back_again, IH. reflexivity.
Qed.

Lemma length_steps_back (l : list WorkoutStep) (n : Z) :
  length (steps_back n l) = length l.
Proof. revert n. induction l as [|s l IH]; intros n; simpl; [|rewrite IH]; reflexivity. Qed.

Lemma entries_back_again (l : list Entry) (n m : Z) :
  entries_back n (entries_back m l) = entries_back n l.
Proof.
  revert n m. induction l as [|e l IH]; intros n m; simpl; [reflexivity|].
  destruct e as [s|g]; simpl.
  - rewrite step_back_again, IH. reflexivity.
  - rewrite steps_back_again, length_steps_back, IH. reflexivity.
Qed.

Lemma step_back_ok (n : Z) (s : WorkoutStep) :
  WorkoutStep_ok s = true -> step_exact s = true ->
  WorkoutStep_ok (step_back n s) = true /\ step_exact (step_back n s) = true.
Proof.
  unfold WorkoutStep_ok, step_exact, step_back. intros Hok Hex.
  apply andb_true_iff in Hok. destruct Hok as [Hd Hz].
  pose proof (rest_seconds_nonzero s) as Hr. apply Z.eqb_neq in Hr.
  assert (Hzone : zone_ok (if truthy (zone s) then zone s else None) = true)
    by (destruct (truthy (zone s)); [exact Hz|reflexivity]).
  destruct (step_type s); cbn; rewrite ?Hd; cbn;
    try (split; [reflexivity|exact Hex]);
    try (split; [exact Hzone|exact Hex]).
  split; [reflexivity|].
  unfold rest_seconds at 1. cbn. rewrite Hr. exact Hex.
Qed.

Lemma steps_back_ok (l : list WorkoutStep) (n : Z) :
  forallb WorkoutStep_ok l = true -> forallb step_exact l = true ->
  forallb WorkoutStep_ok (steps_back n l) = true
  /\ forallb step_exact (steps_back n l) = true.
Proof.
  revert n. induction l as [|s l IH]; intros n Hok Hex; [split; reflexivity|].
  simpl in *. apply andb_true_iff in Hok. apply andb_true_iff in Hex.
  destruct Hok as [Hs Hl]. destruct Hex as [Hes Hel].
  destruct (step_back_ok n s Hs Hes) as [H1 H2].
  destruct (IH (n + 1) Hl Hel) as [H3 H4].
  rewrite H1, H2, H3, H4. split; reflexivity.
Qed.

Lemma entries_back_ok (l : list Entry) (n : Z) :
  forallb Entry_ok l = true -> forallb entry_exact l = true ->
  forallb Entry_ok (entries_back n l) = true
  /\ forallb entry_exact (entries_back n l) = true.
Proof.
  revert n. induction l as [|e l IH]; intros n Hok Hex; [split; reflexivity|].
  simpl in *. apply andb_true_iff in Hok. apply andb_true_iff in Hex.
  destruct Hok as [He Hl]. destruct Hex as [Hee Hel].
  destruct (IH (n + entry_size e) Hl Hel) as [H3 H4]. rewrite H3, H4.
  destruct e as [s|g]; simpl in *.
  - destruct (step_back_ok n s He Hee) as [H1 H2]. rewrite H1, H2. split; reflexivity.
  - unfold RepeatGroup_ok in *. cbn.
    apply andb_true_iff in He. destruct He as [Hn Hs].
    apply andb_true_iff in Hee. destruct Hee as [Hen Hes].
    destruct (steps_back_ok (group_steps g) (n + 1) Hs Hes) as [H1 H2].
    rewrite Hn, Hen, H1, H2. split; reflexivity.
Qed.

(** X16: the round trip through [to_dict()],
    [garmin_to_workout(workout_to_garmin_dict(W).to_dict())], is a
    projection: for a valid workout whose numbers fit a double, the
    workout that comes back, sent through it once more, comes back
    unchanged. *)
Theorem roundtrip_twice (w : Workout) :
  Workout_ok w = true ->
  workout_exact w = true ->
  exists w', roundtrip w = Ok w' /\ roundtrip w' = Ok w'.
Proof.
  intros Hok Hex. exists (workout_back w).
  split; [apply roundtrip_image; assumption|].
  unfold Workout_ok, workout_exact in *.
  apply andb_true_iff in Hok. destruct Hok as [Hname Hsteps].
  destruct (entries_back_ok (steps w) 1 Hsteps Hex) as [H1 H2].
  rewrite roundtrip_image.
  - unfold workout_back. cbn [Models.name Models.pool_length steps].
    rewrite entries_back_again. reflexivity.
  - unfold Workout_ok, workout_back. cbn [Models.name steps].
    rewrite Hname, H1. reflexivity.
  - unfold workout_exact, workout_back. cbn [steps]. exact H2.
Qed.

(** The statement on the workout of one RECOVERY step. *)
Lemma roundtrip_twice_witness :
  exists w', roundtrip recovery_workout = Ok w' /\ roundtrip w' = Ok w'.
Proof. apply (roundtrip_twice recovery_workout); reflexivity. Defined.

(** ** The duration estimate: [int(distance_m * 1.2)] *)

Lemma bitlen_bounds (a : Z) : 0 < a -> 2 ^ (bitlen a - 1) <= a < 2 ^ bitlen a.
Proof.
  intros Ha. unfold bitlen. destruct (a =? 0) eqn:E; [apply Z.eqb_eq in E; lia|].
  rewrite Z.abs_eq by lia.
  pose proof (Z.log2_spec a Ha) as [H1 H2].
  replace (Z.log2 a + 1 - 1) with (Z.log2 a) by lia.
  replace (Z.log2 a + 1) with (Z.succ (Z.log2 a)) by lia. split; assumption.
Qed.

Lemma round53_near (a : Z) :
  0 < a -> 0 < bitlen a - 53 ->
  exists q, round53 a = q * 2 ^ (bitlen a - 53)
            /\ 2 * Z.abs (round53 a - a) <= 2 ^ (bitlen a - 53).
Proof.
  intros Ha Hk. unfold round53.
  set (k := bitlen a - 53) in *.
  destruct (k <=? 0) eqn:E; [apply Z.leb_le in E; lia|].
  rewrite Z.abs_eq by lia. rewrite Z.sgn_pos by lia.
  rewrite Z.shiftr_div_pow2, Z.land_ones by lia.
  rewrite !Z.shiftl_mul_pow2 by lia. rewrite !Z.mul_1_l.
  assert (Hp : 2 ^ k = 2 * 2 ^ (k - 1)).
  { replace k with (Z.succ (k - 1)) at 1 by lia. apply Z.pow_succ_r. lia. }
  assert (Hh : 0 < 2 ^ (k - 1)) by (apply Z.pow_pos_nonneg; lia).
  pose proof (Z.div_mod a (2 ^ k) ltac:(lia)) as Hdm.
  pose proof (Z.mod_pos_bound a (2 ^ k) ltac:(lia)) as Hm.
  set (q := a / 2 ^ k) in *. set (r := a mod 2 ^ k) in *.
  set (h := 2 ^ (k - 1)) in *.
  destruct ((h <? r) || ((r =? h) && Z.odd q)) eqn:C.
  - exists (q + 1). split; [reflexivity|].
    assert (h <= r).
    { apply orb_true_iff in C. destruct C as [C|C].
      - apply Z.ltb_lt in C. lia.
      - apply andb_true_iff in C. destruct C as [C _]. apply Z.eqb_eq in C. lia. }
    lia.
  - exists q. split; [reflexivity|].
    apply orb_false_iff in C. destruct C as [C _]. apply Z.ltb_ge in C. lia.
Qed.

Lemma round53_opp (a : Z) : round53 (- a) = - round53 a.
Proof.
  unfold round53, bitlen. rewrite Z.abs_opp, Z.sgn_opp.
  replace (- a =? 0) with (a =? 0) by (destruct (Z.eqb_spec a 0), (Z.eqb_spec (-a) 0); lia).
  destruct (a =? 0) eqn:E.
  - simpl. lia.
  - destruct (Z.log2 (Z.abs a) + 1 - 53 <=? 0); lia.
Qed.

Lemma round53_times_1_2 (d : Z) :
  0 <= d < 2 ^ 50 ->
  (6 * d / 5) * 2 ^ 52 <= round53 (d * 5404319552844595)
                        < (6 * d / 5 + 1) * 2 ^ 52.
Proof.
  intros [Hd0 Hd].
  assert (HT : 2 ^ 52 = 4503599627370496) by reflexivity.
  assert (H50 : 2 ^ 50 = 1125899906842624) by reflexivity.
  pose proof (Z.div_mod d 5 ltac:(lia)) as Hdm.
  pose proof (Z.mod_pos_bound d 5 ltac:(lia)) as Hmod.
  set (e := d / 5) in *. set (t := d mod 5) in *.
  assert (Hq : 6 * d / 5 = 6 * e + t).
  { symmetry. apply (Z.div_unique (6 * d) 5 (6 * e + t) t); lia. }
  rewrite Hq, HT. rewrite H50 in Hd.
  set (a := d * 5404319552844595).
  destruct (Z_le_gt_dec d 1) as [Hsmall|Hbig].
  { assert (d = 0 \/ d = 1) as [->| ->] by lia; vm_compute; split; congruence. }
  assert (Ha : 2 ^ 53 <= a) by (change (2 ^ 53) with 9007199254740992; unfold a; lia).
  assert (Ha' : a < 2 ^ 103).
  { change (2 ^ 103) with (1125899906842624 * 9007199254740992). unfold a. nia. }
  assert (Hpos : 0 < a) by lia.
  pose proof (bitlen_bounds a Hpos) as [Hlo Hhi].
  assert (Hk1 : 0 < bitlen a - 53).
  { destruct (Z_le_gt_dec (bitlen a) 53) as [Hle|]; [|lia].
    assert (2 ^ bitlen a <= 2 ^ 53) by (apply Z.pow_le_mono_r; lia). lia. }
  assert (Hk2 : bitlen a - 53 <= 50).
  { pose proof (bitlen_le a 103 ltac:(lia) ltac:(rewrite Z.abs_eq by lia; exact Ha')). lia. }
  destruct (round53_near a Hpos Hk1) as [q [Hr Hnear]].
  set (k := bitlen a - 53) in *.
  assert (HP : 2 ^ 52 = 2 ^ k * 2 ^ (52 - k)).
  { rewrite <- Z.pow_add_r by lia. f_equal. lia. }
  assert (HPk : 0 < 2 ^ k) by (apply Z.pow_pos_nonneg; lia).
  assert (HS : 0 < 2 ^ (52 - k)) by (apply Z.pow_pos_nonneg; lia).
  assert (HPle : 2 ^ k <= 2 ^ 50) by (apply Z.pow_le_mono_r; lia).
  assert (HPT : 2 ^ k * 2 ^ 52 <= a).
  { rewrite <- Z.pow_add_r by lia. replace (k + 52) with (bitlen a - 1) by lia. exact Hlo. }
  assert (HPT2 : a < 2 * (2 ^ k * 2 ^ 52)).
  { rewrite <- Z.pow_add_r by lia. rewrite <- Z.pow_succ_r by lia.
    replace (Z.succ (k + 52)) with (bitlen a) by lia. exact Hhi. }
  rewrite HT in HP, HPT, HPT2. rewrite H50 in HPle.
  set (P := 2 ^ k) in *. set (S := 2 ^ (52 - k)) in *.
  assert (Haeq : a = (6 * e + t) * 4503599627370496 + (t * 900719925474099 - e))
    by (unfold a; lia).
  rewrite Hr in *. clearbody P S a. clear Hlo Hhi Hk1 Hk2 Hr k Ha Ha'.
  assert (Hcase : t = 0 \/ 1 <= t) by lia.
  destruct Hcase as [Ht|Ht].
  - subst t. assert (He : 1 <= e) by lia.
    assert (He2 : 2 * e < P) by nia.
    assert (q = 6 * e * S) by nia.
    subst q. nia.
  - assert (He : e <= 225179981368524) by lia.
    split.
    + assert (6 * e * S + t * S <= q); [|nia].
      assert ((6 * e + t) * S * P - P < q * P) by nia.
      nia.
    + assert (q * P < (6 * e + t + 1) * (P * S)) by nia. nia.
Qed.

Lemma estimate_nonneg (d : Z) :
  0 <= d < 2 ^ 50 -> SwimWorkout._estimate_swim_time d = Ok (6 * d / 5).
Proof.
  intros Hd. unfold SwimWorkout._estimate_swim_time, int_mul_float.
  assert (Hex : exact_in_double d = true).
  { unfold exact_in_double. apply Z.ltb_lt.
    change (2 ^ 53) with 9007199254740992. change (2 ^ 50) with 1125899906842624 in Hd. lia. }
  rewrite (float_of_int_exact d Hex), !bind_Ok.
  unfold fmul, f1_2.
  pose proof (round53_times_1_2 d Hd) as Hr.
  set (m := round53 (d * 5404319552844595)) in *.
  assert (Hq : 0 <= 6 * d / 5 < 2 ^ 51).
  { split; [apply Z.div_pos; lia|]. apply Z.div_lt_upper_bound; [lia|].
    change (2 ^ 51) with 2251799813685248. change (2 ^ 50) with 1125899906842624 in Hd. lia. }
  assert (Hov : overflows m (0 + -52) = false).
  { unfold overflows. apply Z.ltb_ge.
    assert (Hm : Z.abs m < 2 ^ 104).
    { change (2 ^ 104) with (2 ^ 52 * 2 ^ 52). rewrite Z.abs_eq by nia.
      change (2 ^ 51) with 2251799813685248 in Hq.
      change (2 ^ 52) with 4503599627370496 in *. nia. }
    pose proof (bitlen_le m 104 ltac:(lia) Hm). lia. }
  rewrite Hov. cbn [int_of_float Z.add Z.leb Z.compare Z.opp].
  f_equal. rewrite Z.quot_div_nonneg by (change (2 ^ 52) with 4503599627370496 in *; nia).
  symmetry. apply (Z.div_unique m (2 ^ 52) (6 * d / 5) (m - 6 * d / 5 * 2 ^ 52)); lia.
Qed.

Lemma estimate_opp (d : Z) (n : Z) :
  SwimWorkout._estimate_swim_time d = Ok n ->
  exact_in_double d = true ->
  SwimWorkout._estimate_swim_time (- d) = Ok (- n).
Proof.
  unfold SwimWorkout._estimate_swim_time, int_mul_float. intros H Hex.
  assert (Hex' : exact_in_double (- d) = true)
    by (unfold exact_in_double in *; rewrite Z.abs_opp; exact Hex).
  rewrite (float_of_int_exact _ Hex'), !bind_Ok.
  rewrite (float_of_int_exact _ Hex), !bind_Ok in H.
  unfold fmul, f1_2 in *.
  rewrite Z.mul_opp_l, round53_opp.
  set (m := round53 (d * 5404319552844595)) in *.
  assert (Hov : overflows (- m) (0 + -52) = overflows m (0 + -52)).
  { unfold overflows, bitlen. rewrite Z.abs_opp.
    replace (- m =? 0) with (m =? 0)
      by (destruct (Z.eqb_spec m 0), (Z.eqb_spec (- m) 0); lia).
    reflexivity. }
  rewrite Hov. destruct (overflows m (0 + -52)); [discriminate|].
  cbn [int_of_float Z.add Z.leb Z.compare Z.opp] in *.
  inversion H. f_equal. apply Z.quot_opp_l. discriminate.
Qed.

Lemma estimate_quot (d : Z) :
  Z.abs d < 2 ^ 50 -> SwimWorkout._estimate_swim_time d = Ok (Z.quot (6 * d) 5).
Proof.
  intros Hd. destruct (Z_le_gt_dec 0 d) as [Hpos|Hneg].
  - rewrite (estimate_nonneg d) by lia. f_equal. symmetry. apply Z.quot_div_nonneg; lia.
  - replace d with (- (- d)) at 1 by lia.
    rewrite (estimate_opp (- d) (6 * (- d) / 5)).
    + f_equal. rewrite <- (Z.quot_div_nonneg (6 * - d) 5) by lia.
      replace (6 * - d) with (- (6 * d)) by lia.
      rewrite Z.quot_opp_l by discriminate. lia.
    + apply estimate_nonneg. lia.
    + unfold exact_in_double. apply Z.ltb_lt. rewrite Z.abs_opp.
      change (2 ^ 53) with 9007199254740992. change (2 ^ 50) with 1125899906842624 in Hd. lia.
Qed.

(** X17: for a distance below [2^50] in magnitude the duration estimate
    [int(distance_m * 1.2)] is six fifths of the distance cut toward
    zero: neither the double nearest to 1.2 nor the rounding of the
    product shows in the result; [warmup], [cooldown] and [swim] succeed
    on such a distance and each adds that many seconds to the builder's
    estimate. *)
Theorem estimate_swim_time_truncates (d : Z) :
  Z.abs d < 2 ^ 50 ->
  SwimWorkout._estimate_swim_time d = Ok (Z.quot (6 * d) 5)
  /\ forall (b : SwimWorkout.SwimWorkoutBuilder) stroke zone desc,
       exists b1 b2 b3,
         SwimWorkout.warmup d stroke desc b = Ok b1
         /\ SwimWorkout.cooldown d stroke desc b = Ok b2
         /\ SwimWorkout.swim d stroke zone desc b = Ok b3
         /\ SwimWorkout._estimated_duration b1
            = SwimWorkout._estimated_duration b + Z.quot (6 * d) 5
         /\ SwimWorkout._estimated_duration b2
            = SwimWorkout._estimated_duration b + Z.quot (6 * d) 5
         /\ SwimWorkout._estimated_duration b3
            = SwimWorkout._estimated_duration b + Z.quot (6 * d) 5.
Proof.
  intros Hd. split; [exact (estimate_quot d Hd)|].
  assert (Hex : exact_in_double d = true).
  { unfold exact_in_double. apply Z.ltb_lt.
    change (2 ^ 50) with 1125899906842624 in Hd.
    change (2 ^ 53) with 9007199254740992. lia. }
  intros b stroke zone desc.
  unfold SwimWorkout.warmup, SwimWorkout.cooldown, SwimWorkout.swim.
  rewrite (estimate_quot d Hd), !bind_Ok. cbn [SwimWorkout._next_order].
  rewrite (float_of_int_exact d Hex), !bind_Ok.
  eexists. eexists. eexists. repeat split.
Qed.

(** The statement at 333 m (399 s) and at -3 m (-3 s). *)
Lemma estimate_swim_time_truncates_witness :
  Z.abs 333 < 2 ^ 50
  /\ SwimWorkout._estimate_swim_time 333 = Ok 399
  /\ SwimWorkout._estimate_swim_time (-3) = Ok (-3).
Proof.
  split; [reflexivity|]. split.
  - apply (proj1 (estimate_swim_time_truncates 333 ltac:(reflexivity))).
  - apply (proj1 (estimate_swim_time_truncates (-3) ltac:(reflexivity))).
Defined.

(** Beyond the bound the estimate leaves the closed form: at
    [2^52 + 3] the product is rounded up to the next integer. *)
Lemma estimate_beyond_bound :
  SwimWorkout._estimate_swim_time (2 ^ 52 + 3) = Ok 5404319552844599
  /\ Z.quot (6 * (2 ^ 52 + 3)) 5 = 5404319552844598.
Proof. split; vm_compute; reflexivity. Qed.

(** ** The payload of an upload *)

Lemma step_small_exact (s : WorkoutStep) : step_small s = true -> step_exact s = true.
Proof.
  unfold step_small, step_exact, exact_in_double.
  destruct (step_type s); intros H; try exact H;
    apply Z.ltb_lt in H; apply Z.ltb_lt;
    change (2 ^ 50) with 1125899906842624 in H;
    change (2 ^ 53) with 9007199254740992; lia.
Qed.

Lemma steps_small_exact (l : list WorkoutStep) :
  forallb step_small l = true -> forallb step_exact l = true.
Proof.
  induction l as [|s l IH]; simpl; [reflexivity|]. intros H.
  apply andb_true_iff in H. destruct H as [Hs Hl].
  rewrite (step_small_exact s Hs), (IH Hl). reflexivity.
Qed.

Lemma entries_small_exact (l : list Entry) :
  forallb entry_small l = true -> forallb entry_exact l = true.
Proof.
  induction l as [|e l IH]; simpl; [reflexivity|]. intros H.
  apply andb_true_iff in H. destruct H as [He Hl]. rewrite (IH Hl), andb_true_r.
  destruct e as [s|g]; simpl in *.
  - apply step_small_exact. exact He.
  - apply andb_true_iff in He. destruct He as [Hn Hs].
    rewrite Hn, (steps_small_exact _ Hs). reflexivity.
Qed.

Lemma step_estimate_seconds (s : WorkoutStep) :
  step_small s = true -> step_estimate s = step_seconds s.
Proof.
  unfold step_small, step_estimate, step_seconds.
  destruct (step_type s); intros H; try reflexivity;
    apply Z.ltb_lt in H; rewrite (estimate_quot _ H); reflexivity.
Qed.

Lemma sum_estimates_seconds (l : list WorkoutStep) :
  forallb step_small l = true ->
  sum_estimates l = Spec.sum_Z (map step_seconds l).
Proof.
  unfold sum_estimates. induction l as [|s l IH]; simpl; [reflexivity|]. intros H.
  apply andb_true_iff in H. destruct H as [Hs Hl].
  rewrite (step_estimate_seconds s Hs), (IH Hl). reflexivity.
Qed.

Lemma entry_estimate_seconds (e : Entry) :
  entry_small e = true -> entry_estimate e = entry_seconds e.
Proof.
  destruct e as [s|g]; simpl; intros H.
  - apply step_estimate_seconds. exact H.
  - apply andb_true_iff in H. destruct H as [_ Hs].
    rewrite (sum_estimates_seconds _ Hs). reflexivity.
Qed.

(** The builder after the entries of a workout, in full. *)
Lemma add_entries_full (l : list Entry) (b : SwimWorkout.SwimWorkoutBuilder) :
  forallb entry_exact l = true ->
  add_entries b l
  = Ok (SwimWorkout.mkBuilder (SwimWorkout.name b) (SwimWorkout.pool_length b)
          (SwimWorkout.steps b ++ wires_of_entries (SwimWorkout._step_order b + 1) l)
          (SwimWorkout._step_order b + Z.of_nat (length l))
          (SwimWorkout._estimated_duration b + Spec.sum_Z (map entry_estimate l))).
Proof.
  revert b. induction l as [|e l IH]; intros b Hex; simpl.
  - destruct b; simpl. rewrite app_nil_r, !Z.add_0_r. reflexivity.
  - simpl in Hex. apply andb_true_iff in Hex. destruct Hex as [He Hl].
    rewrite (add_entry_image b e He), bind_Ok. rewrite (IH _ Hl). simpl.
    rewrite <- app_assoc. simpl. f_equal. f_equal; lia.
Qed.

Lemma wire_of_entry_order (n : Z) (e : Entry) : stepOrder (wire_of_entry n e) = Some n.
Proof.
  destruct e as [s|g]; simpl; [|reflexivity].
  unfold wire_of_step. destruct (step_type s); reflexivity.
Qed.

Lemma wires_of_entries_orders (l : list Entry) (n : Z) :
  map stepOrder (wires_of_entries n l) = orders_from n (length l).
Proof.
  unfold orders_from. revert n. induction l as [|e l IH]; intros n; [reflexivity|].
  cbn [wires_of_entries map length]. rewrite wire_of_entry_order, IH.
  rewrite Nat2Z.inj_succ, (seqZ_cons n) by lia. cbn [map].
  replace (Z.pred (Z.succ (Z.of_nat (length l)))) with (Z.of_nat (length l)) by lia.
  reflexivity.
Qed.

Lemma map_entry_seconds (l : list Entry) :
  forallb entry_small l = true ->
  map entry_estimate l = map entry_seconds l.
Proof.
  induction l as [|e l IH]; simpl; [reflexivity|]. intros H.
  apply andb_true_iff in H. destruct H as [He Hl].
  rewrite (entry_estimate_seconds e He), (IH Hl). reflexivity.
Qed.

(** X18: for a workout whose distances are below [2^50] in magnitude and
    whose rests and iteration counts a double holds, valid or not,
    [workout_to_garmin_dict] returns a workout object named by the first
    80 characters of the name, with the pool length, one segment whose
    top-level steps carry the order numbers 1, 2, ..., one per entry, and
    as estimated duration the sum over the entries of: the rest
    ([duration_seconds or 30]) of a REST step, six fifths of the distance
    cut to an int of any other step, and the sum over its children times
    the iteration count of a group. *)
Theorem payload_estimated_duration (w : Workout) :
  workout_small w = true ->
  exists g wire_steps,
    workout_to_garmin_dict w = Ok g
    /\ GarminConnect.workoutName g = prefix 80 (Models.name w)
    /\ GarminConnect.poolLength g = Models.pool_length w
    /\ GarminConnect.estimatedDurationInSecs g
       = Spec.sum_Z (map entry_seconds (Models.steps w))
    /\ GarminConnect.workoutSegments g
       = [GarminConnect.mkWorkoutSegment 1 SwimWorkout.sport_type wire_steps]
    /\ map stepOrder wire_steps = orders_from 1 (length (Models.steps w)).
Proof.
  unfold workout_small. intros Hs.
  exists (SwimWorkout.build
            (SwimWorkout.mkBuilder (prefix 80 (Models.name w)) (Models.pool_length w)
               (wires_of_entries 1 (Models.steps w))
               (Z.of_nat (length (Models.steps w)))
               (Spec.sum_Z (map entry_seconds (Models.steps w))))),
         (wires_of_entries 1 (Models.steps w)).
  split.
  - unfold workout_to_garmin_dict.
    rewrite (add_entries_full _ _ (entries_small_exact _ Hs)), bind_Ok.
    rewrite (map_entry_seconds _ Hs). reflexivity.
  - repeat split. apply wires_of_entries_orders.
Qed.

(** The statement on four times (100 m and a rest of 20 s):
    4 * (120 + 20) = 560 seconds. *)
Lemma payload_estimated_duration_witness :
  Spec.sum_Z (map entry_seconds (Models.steps four_by_100)) = 560
  /\ exists g wire_steps,
       workout_to_garmin_dict four_by_100 = Ok g
       /\ GarminConnect.workoutName g = prefix 80 (Models.name four_by_100)
       /\ GarminConnect.poolLength g = Models.pool_length four_by_100
       /\ GarminConnect.estimatedDurationInSecs g
          = Spec.sum_Z (map entry_seconds (Models.steps four_by_100))
       /\ GarminConnect.workoutSegments g
          = [GarminConnect.mkWorkoutSegment 1 SwimWorkout.sport_type wire_steps]
       /\ map stepOrder wire_steps = orders_from 1 (length (Models.steps four_by_100)).
Proof.
  split; [reflexivity|].
  apply (payload_estimated_duration four_by_100). reflexivity.
Defined.

(** ** The upload route and the record store *)

(** X19: whatever the platform answers, a run of the upload route either
    leaves the record files as they were, or it returns the platform's
    result, which reports success and an id other than the one asked
    for, and the one record has moved: nothing is stored under the old
    id, the record with its id rewritten is stored under the new id, and
    every other file is untouched.  A run that ends in an HTTP error or
    an exception changes no file. *)
Theorem upload_moves_one_record {Remote : Type}
    (up : GarminConnect.SwimmingWorkout -> Remote -> UploadResult * Remote)
    (del : string -> Remote -> bool * Remote)
    (workout_id : string) (w : World) :
  let resp := fst (upload_workout up del workout_id w) in
  let w' := snd (upload_workout up del workout_id w) in
  files w' = files w
  \/ exists workout res new_id,
       resp = GarminRoutes.Return res
       /\ success res = true
       /\ result_workout_id res = Some new_id
       /\ new_id <> workout_id
       /\ files w !! workout_id = Some workout
       /\ Workout_ok workout = true
       /\ files w' !! workout_id = None
       /\ files w' !! new_id = Some (set_workout_id workout new_id)
       /\ forall k, k <> workout_id -> k <> new_id -> files w' !! k = files w !! k.
Proof.
  unfold upload_workout.
  destruct (get_workout workout_id (files w)) as [[workout|]|e] eqn:Hget;
    [|left; reflexivity|left; reflexivity].
  destruct (workout_to_garmin_dict workout) as [g|e] eqn:Hconv;
    [|left; reflexivity].
  destruct (up g (remote w)) as [res r] eqn:Hup.
  destruct (success res) eqn:Hok; simpl; [|left; reflexivity].
  destruct (result_workout_id res) as [new_id|] eqn:Hid; [|left; reflexivity].
  destruct (nonempty workout_id && nonempty new_id
            && negb (String.eqb workout_id new_id)) eqn:Hcond; [|left; reflexivity].
  destruct (del workout_id r) as [deleted r']. simpl.
  apply get_workout_Some in Hget. destruct Hget as [Hlook Hvalid].
  rewrite (replace_workout_id_present _ _ _ _ Hlook Hvalid). simpl.
  right. exists workout, res, new_id.
  apply andb_true_iff in Hcond. destruct Hcond as [_ Hne].
  apply negb_true_iff, String.eqb_neq in Hne.
  repeat split; try assumption; try reflexivity.
  - congruence.
  - apply lookup_delete_eq.
  - rewrite lookup_delete_ne by assumption. apply lookup_insert_eq.
  - intros k Hk1 Hk2. rewrite lookup_delete_ne by congruence.
    apply lookup_insert_ne. congruence.
Qed.

(** ** Creating a record *)

(** X20: [create_workout] with a request whose name has at most 80
    characters and whose steps are valid stores the workout under the id
    drawn for it: it reads back as created, [list_workouts] shows its
    summary, every other record is untouched, and, the id being new,
    [delete_workout] takes the store back to what it was, where the id
    reads as absent and a second delete reports False. *)
Theorem create_then_read (data : WorkoutCreate) (uuid4 : string) (fs : Files) :
  (String.length (create_name data) <= 80)%nat ->
  forallb Entry_ok (create_steps data) = true ->
  exists workout fs',
    create_workout data uuid4 fs = Ok (workout, fs')
    /\ workout = mkWorkout uuid4 (create_name data) (create_pool_length data)
                   (create_steps data)
    /\ get_workout uuid4 fs' = Ok (Some workout)
    /\ summarize workout ∈ list_workouts fs'
    /\ (forall k, k <> uuid4 -> fs' !! k = fs !! k)
    /\ (fs !! uuid4 = None ->
        delete_workout uuid4 fs' = (true, fs)
        /\ get_workout uuid4 fs = Ok None
        /\ delete_workout uuid4 fs = (false, fs)).
Proof.
  intros Hname Hsteps.
  set (workout := mkWorkout uuid4 (create_name data) (create_pool_length data)
                    (create_steps data)).
  assert (Hok : Workout_ok workout = true).
  { unfold Workout_ok, workout. cbn [Models.name steps].
    apply Nat.leb_le in Hname. rewrite Hname, Hsteps. reflexivity. }
  exists workout, (<[uuid4 := workout]> fs).
  split; [|split; [reflexivity|split; [|split; [|split]]]].
  - unfold create_workout, Workout_new. apply Nat.leb_le in Hname. rewrite Hname.
    reflexivity.
  - unfold get_workout. rewrite lookup_insert_eq, Hok. reflexivity.
  - apply elem_of_list_workouts. exists uuid4, workout.
    rewrite lookup_insert_eq. repeat split. exact Hok.
  - intros k Hk. apply lookup_insert_ne. congruence.
  - intros Hnew. unfold delete_workout, get_workout.
    rewrite lookup_insert_eq, Hnew. repeat split.
    f_equal. rewrite delete_insert_eq. apply delete_id. exact Hnew.
Qed.

(** The statement on a request of one step, added beside "old-1". *)
Lemma create_then_read_witness :
  exists workout fs',
    create_workout create_test "new-id" files_old_1 = Ok (workout, fs')
    /\ workout = mkWorkout "new-id" (create_name create_test)
                   (create_pool_length create_test) (create_steps create_test)
    /\ get_workout "new-id" fs' = Ok (Some workout)
    /\ summarize workout ∈ list_workouts fs'
    /\ (forall k, k <> "new-id" -> fs' !! k = files_old_1 !! k)
    /\ (files_old_1 !! "new-id" = None ->
        delete_workout "new-id" fs' = (true, files_old_1)
        /\ get_workout "new-id" files_old_1 = Ok None
        /\ delete_workout "new-id" files_old_1 = (false, files_old_1)).
Proof.
  apply (create_then_read create_test "new-id" files_old_1).
  - vm_compute. lia.
  - reflexivity.
Defined.

(** ** Materialising a builder: rests inside a repeat *)

Lemma convert_steps_app (l1 l2 : list GStep) (c : Z) :
  convert_steps (l1 ++ l2) c
  = ('(es1, c1) ← convert_steps l1 c;
     '(es2, c2) ← convert_steps l2 c1;
     Ok (es1 ++ es2, c2)).
Proof.
  revert c. induction l1 as [|g l1 IH]; intros c.
  - cbn [app convert_steps]. rewrite bind_Ok.
    destruct (convert_steps l2 c) as [[es2 c2]|e]; reflexivity.
  - cbn [app convert_steps].
    destruct (convert_step g c) as [[e c1]|err]; [|reflexivity].
    rewrite !bind_Ok, IH.
    destruct (convert_steps l1 c1) as [[es1 c1']|err]; [|reflexivity].
    rewrite !bind_Ok.
    destruct (convert_steps l2 c1') as [[es2 c2]|err]; reflexivity.
Qed.

Lemma StrokeType_of_Stroke (s : SwimWorkout.Stroke) :
  exists st, StrokeType_of (SwimWorkout.Stroke_value s) = Ok st.
Proof. destruct s; eexists; reflexivity. Qed.

Lemma sum_Z_app (l1 l2 : list Z) :
  Spec.sum_Z (l1 ++ l2) = Spec.sum_Z l1 + Spec.sum_Z l2.
Proof. unfold Spec.sum_Z. induction l1 as [|a l1 IH]; simpl; lia. Qed.

Lemma truthy_float_int (n : Z) :
  (if truthy_float (Some (Finite n 0)) then int_of_value (Some (Finite n 0)) else Ok 0)
  = Ok n.
Proof.
  cbn [truthy_float int_of_value]. rewrite int_of_float_int.
  destruct (Z.eqb_spec n 0) as [->|]; reflexivity.
Qed.

Lemma convert_step_group (g : GStep) (n c : Z) :
  numberOfIterations g = Some n ->
  convert_step g c
  = ('(inner_steps, c') ← convert_steps (default [] (workoutSteps g)) (c + 1);
     group ← RepeatGroup_new (step_name (c + 1)) n inner_steps;
     Ok (Group group, c')).
Proof.
  destruct g as [o t ec ev u tt st de z ni ws sr]. cbn [numberOfIterations workoutSteps].
  intros ->. destruct ws as [l|]; reflexivity.
Qed.

(** A step written by [swim], materialised. *)
Lemma convert_step_swim (o : option Z) (ec : option ConditionDict)
    (u : option UnitDict) (tt : option TargetDict)
    (stroke : SwimWorkout.Stroke) (st : StrokeType) (de : option string)
    (z : option Z) (ws : option (list GStep)) (sr : option bool) (d c : Z) :
  StrokeType_of (SwimWorkout.Stroke_value stroke) = Ok st ->
  0 <= d -> zone_ok z = true ->
  convert_step
    (mkGStep o (Some (SwimWorkout._step_type_dict SwimWorkout.INTERVAL)) ec
       (Some (Finite d 0)) u tt
       (Some (SwimWorkout._stroke_type_dict stroke)) de z None ws sr) c
  = Ok (Step (mkWorkoutStep (step_name (c + 1)) INTERVAL st d None z de
                Equipment_default), c + 1).
Proof.
  intros Hst Hd Hz.
  cbn [convert_step]. unfold convert_builder_leaf.
  cbn [stepType strokeType endConditionValue zoneNumber Wire.description
       SwimWorkout._step_type_dict SwimWorkout._stroke_type_dict
       stepTypeId strokeTypeId mbind option_bind default
       SwimWorkout.StepType_value].
  unfold Datatypes.id. rewrite Hst, truthy_float_int.
  apply Z.leb_le in Hd.
  cbn [StepType_of Z.eqb Pos.eqb]. rewrite !bind_Ok.
  unfold WorkoutStep_new, WorkoutStep_ok. cbn [distance_m Models.zone].
  rewrite Hd, Hz. reflexivity.
Qed.

(** A timed rest of the builder, materialised: the seconds are written
    into [distance_m] as well. *)
Lemma convert_step_rest (o : option Z) (ec : option ConditionDict)
    (u : option UnitDict) (tt : option TargetDict) (de : option string)
    (ws : option (list GStep)) (sr : option bool) (s c : Z) :
  0 <= s ->
  convert_step
    (mkGStep o (Some (SwimWorkout._step_type_dict SwimWorkout.REST)) ec
       (Some (Finite s 0)) u tt None de None None ws sr) c
  = Ok (Step (mkWorkoutStep (step_name (c + 1)) REST FREESTYLE s (Some s) None de
                Equipment_default), c + 1).
Proof.
  intros Hs. cbn [convert_step]. unfold convert_builder_leaf.
  cbn [stepType strokeType endConditionValue zoneNumber Wire.description
       SwimWorkout._step_type_dict stepTypeId mbind option_bind default
       SwimWorkout.StepType_value].
  unfold Datatypes.id. rewrite truthy_float_int.
  cbn [StepType_of StrokeType_of Z.eqb Pos.eqb int_of_value].
  rewrite int_of_float_int, !bind_Ok.
  unfold WorkoutStep_new, WorkoutStep_ok. cbn [distance_m Models.zone zone_ok].
  apply Z.leb_le in Hs. rewrite Hs. reflexivity.
Qed.


